(** * Storyer: the client-side scripts of the dashboard page

    A shallow embedding of [static/js/main.js], of the floating save button
    script ([static/js/floating-save-button.js]) and of the page they run on
    ([templates/index.html]).

    The page is a store of element objects addressed by their [id]
    ([document.getElementById]), together with the few collections the scripts
    reach through selectors (navigation items, history items, checked radios,
    the two model-name displays).  Event handlers are programs in a small
    state-and-exception monad over that store: a dereference of [null] throws,
    and what was written before the throw stays written.  A request is split
    in two programs: what the listener does up to the [fetch] call, and what
    the promise chain does once the request settles. *)

From stdpp Require Import base strings list gmap.

Local Open Scope string_scope.
Local Open Scope list_scope.

(** ** Elements *)

(** A node created by a script and appended to an element
    ([createElement] + [appendChild]), or rendered by the template inside
    it: its tag, [className], [value] (for [option]) and markup. *)
Record child := Child {
  child_tag : string;
  child_class : string;
  child_value : string;
  child_html : string
}.

(** The properties of an element that the scripts read or write.
    [display] is [style.display]; the empty string is an element without an
    inline display.  The scroll position is layout and is left out. *)
Record element := Element {
  classList : list string;
  display : string;
  disabled : bool;
  textContent : string;
  value : string;
  checked : bool;
  files : list string;
  children : list child
}.

Definition set_display (v : string) (e : element) : element :=
  Element (classList e) v (disabled e) (textContent e) (value e)
          (checked e) (files e) (children e).
Definition set_disabled (v : bool) (e : element) : element :=
  Element (classList e) (display e) v (textContent e) (value e)
          (checked e) (files e) (children e).
Definition set_textContent (v : string) (e : element) : element :=
  Element (classList e) (display e) (disabled e) v (value e)
          (checked e) (files e) (children e).
Definition set_value (v : string) (e : element) : element :=
  Element (classList e) (display e) (disabled e) (textContent e) v
          (checked e) (files e) (children e).
Definition set_classList (v : list string) (e : element) : element :=
  Element v (display e) (disabled e) (textContent e) (value e)
          (checked e) (files e) (children e).
Definition set_children (v : list child) (e : element) : element :=
  Element (classList e) (display e) (disabled e) (textContent e) (value e)
          (checked e) (files e) v.

(** [classList.contains], [classList.add], [classList.remove]. *)
Definition class_contains (c : string) (cs : list string) : bool :=
  bool_decide (c ∈ cs).
Definition class_add (c : string) (cs : list string) : list string :=
  if class_contains c cs then cs else cs ++ [c].
Definition class_remove (c : string) (cs : list string) : list string :=
  filter (λ x, x ≠ c) cs.

(** A sidebar item ([.nav-item]): its [data-section] attribute
    ([getAttribute] gives [null] when it is missing) and its classes. *)
Record navItem := NavItem {
  data_section : option string;
  nav_classes : list string
}.

(** A button of a history item: [data-path], [disabled], [textContent]. *)
Record chatButton := ChatButton {
  data_path : option string;
  btn_disabled : bool;
  btn_text : string
}.

(** A [.chat-history-item] with its two buttons.  [chatItem.remove()] takes
    the item out of the document, but the listener still holds its button:
    the object stays in the store, marked detached. *)
Record chatItem := ChatItem {
  attached : bool;
  load_btn : chatButton;
  delete_btn : chatButton
}.

(** ** Requests and responses *)

Inductive jsval :=
| JBool (b : bool)
| JStr (s : string)
| JParseFloat (raw : string)   (* parseFloat(raw) *)
| JParseInt (raw : string).    (* parseInt(raw) *)

(** A JS object literal filled field by field: insertion order is the order
    of [JSON.stringify]. *)
Definition jsobject := list (string * jsval).

Fixpoint set_field (k : string) (v : jsval) (o : jsobject) : jsobject :=
  match o with
  | [] => [(k, v)]
  | (k', v') :: o' =>
      if decide (k' = k) then (k, v) :: o' else (k', v') :: set_field k v o'
  end.

Fixpoint get_field (k : string) (o : jsobject) : option jsval :=
  match o with
  | [] => None
  | (k', v) :: o' => if decide (k' = k) then Some v else get_field k o'
  end.

Definition has_field (k : string) (o : jsobject) : bool :=
  bool_decide (is_Some (get_field k o)).

Inductive body :=
| NoBody
| JsonBody (o : jsobject)
| FormBody (fields : list (string * string)).

Record request := Request { url : string; payload : body }.

(** The parsed JSON of a response.  A member that is missing reads as
    [undefined]. *)
Record response := Response {
  success : bool;
  error : option string;
  models : option (list string);
  initial_narrative : option string;
  response_text : option string
}.

(** How a request settles: [fetch] and [response.json()] both fulfil, or one
    of them rejects with a reason (written as the string it converts to). *)
Inductive outcome :=
| Fulfilled (data : response)
| Rejected (reason : string).

(** String conversion of a possibly-[undefined] string member. *)
Definition js_string (o : option string) : string := default "undefined" o.

(** A pending timer callback. *)
Inductive timer := HideToast.

(** ** The page *)

Record document := Document {
  byId : gmap string element;
  navItems : list navItem;
  (* value of the checked input of each radio group *)
  checkedRadio : gmap string string;
  (* textContent of '.model-info:nth-child(n) .model-value' *)
  modelDisplay1 : option string;
  modelDisplay2 : option string;
  chatItems : list chatItem;
  (* nodes appended to '.chat-history-list' *)
  chatHistoryList : option (list child);
  alerts : list string;
  consoleLog : list string;
  fetches : list request;
  timers : list (nat * timer);
  reloaded : bool
}.

Definition with_byId (f : gmap string element → gmap string element)
    (d : document) : document :=
  Document (f (byId d)) (navItems d) (checkedRadio d) (modelDisplay1 d)
    (modelDisplay2 d) (chatItems d) (chatHistoryList d) (alerts d)
    (consoleLog d) (fetches d) (timers d) (reloaded d).
Definition with_navItems (f : list navItem → list navItem)
    (d : document) : document :=
  Document (byId d) (f (navItems d)) (checkedRadio d) (modelDisplay1 d)
    (modelDisplay2 d) (chatItems d) (chatHistoryList d) (alerts d)
    (consoleLog d) (fetches d) (timers d) (reloaded d).
Definition with_modelDisplay1 (v : option string) (d : document) : document :=
  Document (byId d) (navItems d) (checkedRadio d) v
    (modelDisplay2 d) (chatItems d) (chatHistoryList d) (alerts d)
    (consoleLog d) (fetches d) (timers d) (reloaded d).
Definition with_modelDisplay2 (v : option string) (d : document) : document :=
  Document (byId d) (navItems d) (checkedRadio d) (modelDisplay1 d)
    v (chatItems d) (chatHistoryList d) (alerts d)
    (consoleLog d) (fetches d) (timers d) (reloaded d).
Definition with_chatItems (f : list chatItem → list chatItem)
    (d : document) : document :=
  Document (byId d) (navItems d) (checkedRadio d) (modelDisplay1 d)
    (modelDisplay2 d) (f (chatItems d)) (chatHistoryList d) (alerts d)
    (consoleLog d) (fetches d) (timers d) (reloaded d).
Definition with_chatHistoryList (v : option (list child))
    (d : document) : document :=
  Document (byId d) (navItems d) (checkedRadio d) (modelDisplay1 d)
    (modelDisplay2 d) (chatItems d) v (alerts d)
    (consoleLog d) (fetches d) (timers d) (reloaded d).
Definition with_alerts (f : list string → list string)
    (d : document) : document :=
  Document (byId d) (navItems d) (checkedRadio d) (modelDisplay1 d)
    (modelDisplay2 d) (chatItems d) (chatHistoryList d) (f (alerts d))
    (consoleLog d) (fetches d) (timers d) (reloaded d).
Definition with_consoleLog (f : list string → list string)
    (d : document) : document :=
  Document (byId d) (navItems d) (checkedRadio d) (modelDisplay1 d)
    (modelDisplay2 d) (chatItems d) (chatHistoryList d) (alerts d)
    (f (consoleLog d)) (fetches d) (timers d) (reloaded d).
Definition with_fetches (f : list request → list request)
    (d : document) : document :=
  Document (byId d) (navItems d) (checkedRadio d) (modelDisplay1 d)
    (modelDisplay2 d) (chatItems d) (chatHistoryList d) (alerts d)
    (consoleLog d) (f (fetches d)) (timers d) (reloaded d).
Definition with_timers (f : list (nat * timer) → list (nat * timer))
    (d : document) : document :=
  Document (byId d) (navItems d) (checkedRadio d) (modelDisplay1 d)
    (modelDisplay2 d) (chatItems d) (chatHistoryList d) (alerts d)
    (consoleLog d) (fetches d) (f (timers d)) (reloaded d).
Definition with_reloaded (v : bool) (d : document) : document :=
  Document (byId d) (navItems d) (checkedRadio d) (modelDisplay1 d)
    (modelDisplay2 d) (chatItems d) (chatHistoryList d) (alerts d)
    (consoleLog d) (fetches d) (timers d) v.

(** ** The monad of handlers *)

Inductive result (A : Type) :=
| Ret (a : A)
| Throw (e : string).
Arguments Ret {A} a.
Arguments Throw {A} e.

Definition M (A : Type) : Type := document → document * result A.

Definition ret {A} (a : A) : M A := λ d, (d, Ret a).
Definition throw {A} (e : string) : M A := λ d, (d, Throw e).
Definition bind {A B} (m : M A) (k : A → M B) : M B :=
  λ d, match m d with
       | (d', Ret a) => k a d'
       | (d', Throw e) => (d', Throw e)
       end.

Declare Scope js_scope.
Delimit Scope js_scope with js.
Notation "'let*' x ':=' m 'in' k" := (bind m (λ x, k))
  (at level 10, x name, m at level 100, k at level 200) : js_scope.
Notation "m1 ';;;' m2" := (bind m1 (λ _, m2))
  (at level 100, m2 at level 200, right associativity) : js_scope.
Local Open Scope js_scope.

(** [try { m } catch (e) { h e }] *)
Definition try_catch {A} (m : M A) (h : string → M A) : M A :=
  λ d, match m d with
       | (d', Throw e) => h e d'
       | r => r
       end.

(** [try { m } finally { f }] *)
Definition try_finally {A} (m : M A) (f : M unit) : M A :=
  λ d, match m d with
       | (d', r) =>
           match f d' with
           | (d'', Ret _) => (d'', r)
           | (d'', Throw e) => (d'', Throw e)
           end
       end.

(** [fetch(..).then(r => r.json()).then(onData).catch(onError).finally(f)]
    once the request has settled with [o]. *)
Definition settle (o : outcome) (onData : response → M unit)
    (onError : string → M unit) (onFinally : M unit) : M unit :=
  try_finally
    (try_catch
       (match o with
        | Fulfilled data => onData data
        | Rejected reason => throw reason
        end)
       onError)
    onFinally.

(** The state a handler leaves behind. *)
Definition exec {A} (m : M A) (d : document) : document := fst (m d).
Definition outcome_of {A} (m : M A) (d : document) : result A := snd (m d).


(** ** Primitives of the page *)

Definition null_read (prop : string) : string :=
  "TypeError: Cannot read properties of null (reading '" +:+ prop +:+ "')".
Definition null_write (prop : string) : string :=
  "TypeError: Cannot set properties of null (setting '" +:+ prop +:+ "')".
Definition undefined_read (prop : string) : string :=
  "TypeError: Cannot read properties of undefined (reading '" +:+ prop +:+ "')".

(** [document.getElementById(id)] *)
Definition getElementById (id : string) : M (option element) :=
  λ d, (d, Ret (byId d !! id)).

(** [document.getElementById(id).prop], read through [f]. *)
Definition read {A} (id prop : string) (f : element → A) : M A :=
  λ d, match byId d !! id with
       | Some e => (d, Ret (f e))
       | None => (d, Throw (null_read prop))
       end.

(** [document.getElementById(id)?.prop], read through [f]. *)
Definition read_opt {A} (id : string) (f : element → A) : M (option A) :=
  λ d, (d, Ret (f <$> byId d !! id)).

(** [document.getElementById(id).style.display = v] and
    [document.getElementById(id).appendChild(c)]: the member named [prop]
    is read from the looked-up element first. *)
Definition write (id prop : string) (f : element → element) : M unit :=
  λ d, match byId d !! id with
       | Some e => (with_byId <[id := f e]> d, Ret tt)
       | None => (d, Throw (null_read prop))
       end.

(** [document.getElementById(id).prop = v] *)
Definition assign (id prop : string) (f : element → element) : M unit :=
  λ d, match byId d !! id with
       | Some e => (with_byId <[id := f e]> d, Ret tt)
       | None => (d, Throw (null_write prop))
       end.

(** A write through a reference the listener already holds ([this], or a
    constant tested with [if (el)] before use): the element exists whenever
    the listener runs, and nothing happens to a page without it. *)
Definition update (id : string) (f : element → element) : M unit :=
  λ d, (with_byId (alter f id) d, Ret tt).

(** [document.querySelector('input[name="n"]:checked')], as its value. *)
Definition querySelector_checked (name : string) : M (option string) :=
  λ d, (d, Ret (checkedRadio d !! name)).

Definition alert (msg : string) : M unit :=
  λ d, (with_alerts (λ l, l ++ [msg]) d, Ret tt).
Definition console (msg : string) : M unit :=
  λ d, (with_consoleLog (λ l, l ++ [msg]) d, Ret tt).
Definition fetch (u : string) (b : body) : M unit :=
  λ d, (with_fetches (λ l, l ++ [Request u b]) d, Ret tt).
Definition setTimeout (t : timer) (ms : nat) : M unit :=
  λ d, (with_timers (λ l, l ++ [(ms, t)]) d, Ret tt).

(** A button in its busy and in its idle state. *)
Definition busy (label : string) (e : element) : element :=
  set_textContent label (set_disabled true e).
Definition idle (label : string) (e : element) : element :=
  set_textContent label (set_disabled false e).

(** The listeners of one event run one after the other; an exception that
    leaves a listener is reported and the next listener still runs. *)
Fixpoint dispatch (listeners : list (M unit)) : M unit :=
  match listeners with
  | [] => ret tt
  | l :: ls =>
      try_catch l (λ e, console ("Uncaught " +:+ e)) ;;; dispatch ls
  end.

(** [s.endsWith(suffix)] *)
Definition endsWith (s suffix : string) : bool :=
  let n := String.length s in
  let k := String.length suffix in
  (k <=? n)%nat && String.eqb (String.substring (n - k) k s) suffix.

Definition is_empty (s : string) : bool := String.eqb s "".

(** ** static/js/floating-save-button.js *)

Module FloatingSave.

(** The second click listener of the [i]-th navigation item; it is only
    registered on a page that has the floating button. *)
Definition navItem_click (i : nat) : M unit :=
  λ d,
    match byId d !! "global-save-button", navItems d !! i with
    | Some _, Some this =>
        let sectionId := data_section this in
        if bool_decide (sectionId = Some "api-config")
        then update "global-save-button" (set_display "flex") d
        else update "global-save-button" (set_display "none") d
    | _, _ => (d, Ret tt)
    end.

(** [x?.value || fallback] on a looked-up element: the fallback is taken
    for a missing element and for an empty value. *)
Definition value_or (id fallback : string) : M string :=
  let* v := read_opt id value in
  match v with
  | Some s => if is_empty s then ret fallback else ret s
  | None => ret fallback
  end.

Definition custom_model (kind : string) (config : jsobject) : M jsobject :=
  let* modelRadio := querySelector_checked (kind +:+ "-model") in
  match modelRadio with
  | None => ret config
  | Some modelValue =>
      let config := set_field (kind +:+ "_model_name") (JStr modelValue) config in
      if bool_decide (modelValue = "custom") then
        let* customTypeRadio := querySelector_checked (kind +:+ "-custom-type") in
        match customTypeRadio with
        | None => ret config
        | Some customType =>
            let config :=
              set_field (kind +:+ "_custom_type") (JStr customType) config in
            if bool_decide (customType = "ollama") then
              let* m := value_or (kind +:+ "-ollama-model-select") "" in
              ret (set_field (kind +:+ "_custom_ollama_model") (JStr m) config)
            else
              let* m := value_or (kind +:+ "-online-model-name") "" in
              ret (set_field (kind +:+ "_custom_online_model") (JStr m) config)
        end
      else ret config
  end.

Definition collectGlobalConfig : M jsobject :=
  let* c := read_opt "use-online-api" checked in
  let useOnlineApi := default false c in
  let config := [("use_online_api", JBool useOnlineApi)] in
  let* config :=
    (if negb useOnlineApi then
       let* u := value_or "ollama-api-url" "http://127.0.0.1:11434" in
       let config := set_field "ollama_api_url" (JStr u) config in
       let* ollamaModelSelect := getElementById "ollama-model-select" in
       match ollamaModelSelect with
       | Some e => ret (set_field "selected_ollama_model" (JStr (value e)) config)
       | None => ret config
       end
     else
       let* u := value_or "online-api-url" "" in
       let config := set_field "online_api_url" (JStr u) config in
       let* k := value_or "online-api-key" "" in
       let config := set_field "online_api_key" (JStr k) config in
       let* m := value_or "online-model-name" "" in
       ret (set_field "online_api_model" (JStr m) config)) in
  let* config := custom_model "analysis" config in
  custom_model "writing" config.

Definition field_text (k : string) (config : jsobject) : string :=
  match get_field k config with
  | Some (JStr s) => s
  | Some (JBool true) => "true"
  | Some (JBool false) => "false"
  | Some (JParseFloat s) | Some (JParseInt s) => s
  | None => ""
  end.

Definition updateModelDisplay (config : jsobject) : M unit :=
  λ d,
    let d := match modelDisplay1 d with
             | Some _ => with_modelDisplay1
                           (Some (field_text "analysis_model_name" config)) d
             | None => d
             end in
    let d := match modelDisplay2 d with
             | Some _ => with_modelDisplay2
                           (Some (field_text "writing_model_name" config)) d
             | None => d
             end in
    (d, Ret tt).

(** [saveToast.classList.add('show')], then the three-second timer. *)
Definition showSaveToast : M unit :=
  write "save-toast" "classList"
        (λ e, set_classList (class_add "show" (classList e)) e) ;;;
  setTimeout HideToast 3000.

Definition hideToast : M unit :=
  write "save-toast" "classList"
        (λ e, set_classList (class_remove "show" (classList e)) e).

(** The button is in its saving state while it carries the class. *)
Definition saving (d : document) : bool :=
  match byId d !! "global-save-button" with
  | Some e => class_contains "saving" (classList e)
  | None => false
  end.

(** The click listener of the button.  It hands the collected draft to the
    promise chain when it sends a request. *)
Definition globalSaveButton_click : M (option jsobject) :=
  λ d,
    if saving d then (d, Ret None)
    else
      (update "global-save-button"
              (λ e, set_classList (class_add "saving" (classList e)) e) ;;;
       let* config := collectGlobalConfig in
       fetch "/api/update_api_config" (JsonBody config) ;;;
       ret (Some config)) d.

Definition globalSaveButton_settled (config : jsobject) (o : outcome) : M unit :=
  settle o
    (λ data,
       if success data then
         updateModelDisplay config ;;;
         showSaveToast
       else
         alert ("保存全局设置失败: " +:+ js_string (error data)))
    (λ error, alert ("保存全局设置出错: " +:+ error))
    (update "global-save-button"
            (λ e, set_classList (class_remove "saving" (classList e)) e)).

End FloatingSave.

(** ** static/js/main.js *)

Module Main.

(** [refreshOllamaModels()], up to the [fetch] call. *)
Definition refreshOllamaModels : M unit :=
  let* ollamaApiUrl := read "ollama-api-url" "value" value in
  if is_empty ollamaApiUrl then
    console "Ollama API URL未设置，跳过自动刷新模型列表"
  else
    update "refresh-models-btn" (busy "正在获取模型列表...") ;;;
    fetch "/api/refresh_ollama_models"
          (JsonBody [("api_url", JStr ollamaApiUrl)]).

Definition option_child (model : string) : child :=
  Child "option" "" model model.

(** One of the two [select] lists refilled from [data.models]:
    [innerHTML = ''], then one [option] per model.  A single-choice
    [select] shows its first option once it has one. *)
Definition refill (id : string) (ms : option (list string)) : M unit :=
  let* select := getElementById id in
  match select with
  | None => ret tt
  | Some _ =>
      update id (λ e, set_children [] (set_value "" e)) ;;;
      match ms with
      | None => throw (undefined_read "forEach")
      | Some l =>
          update id (λ e, set_children (option_child <$> l)
                            (set_value (default "" (head l)) e))
      end
  end.

Definition refreshOllamaModels_settled (o : outcome) : M unit :=
  settle o
    (λ data,
       if success data then
         refill "analysis-ollama-model-select" (models data) ;;;
         refill "writing-ollama-model-select" (models data) ;;;
         console "模型列表已更新"
       else
         console ("获取模型列表失败: " +:+ js_string (error data)))
    (λ error, console ("获取模型列表出错: " +:+ error))
    (update "refresh-models-btn" (idle "刷新模型列表")).

(** [navItems.forEach(nav => nav.classList.remove('active'));
    this.classList.add('active')] *)
Definition activate (i : nat) (l : list navItem) : list navItem :=
  alter (λ n, NavItem (data_section n) (class_add "active" (nav_classes n))) i
    ((λ n, NavItem (data_section n) (class_remove "active" (nav_classes n)))
       <$> l).

(** [contentSections.forEach(section => section.style.display = 'none')] *)
Definition hide_sections (m : gmap string element) : gmap string element :=
  (λ e, if class_contains "content-section" (classList e)
        then set_display "none" e else e) <$> m.

(** The click listener of the [i]-th navigation item. *)
Definition navItem_click (i : nat) : M unit :=
  λ d,
    match navItems d !! i with
    | None => (d, Ret tt)
    | Some this =>
        let sectionId := data_section this in
        let d := with_navItems (activate i) d in
        let d := with_byId hide_sections d in
        (write (default "null" sectionId +:+ "-section") "style"
               (set_display "block") ;;;
         if bool_decide (sectionId = Some "api-config")
         then refreshOllamaModels else ret tt) d
    end.

(** The draft assembled by the submit listener of [api-config-form]. *)
Definition custom_model (kind : string) (config : jsobject) : M jsobject :=
  let* modelValue := querySelector_checked (kind +:+ "-model") in
  match modelValue with
  | None => throw (null_read "value")
  | Some modelValue =>
      let config := set_field (kind +:+ "_model_name") (JStr modelValue) config in
      if bool_decide (modelValue = "custom") then
        let* customType := querySelector_checked (kind +:+ "-custom-type") in
        match customType with
        | None => throw (null_read "value")
        | Some customType =>
            let config :=
              set_field (kind +:+ "_custom_type") (JStr customType) config in
            if bool_decide (customType = "ollama") then
              let* m := read (kind +:+ "-ollama-model-select") "value" value in
              ret (set_field (kind +:+ "_custom_ollama_model") (JStr m) config)
            else
              let* m := read (kind +:+ "-online-model-name") "value" value in
              ret (set_field (kind +:+ "_custom_online_model") (JStr m) config)
        end
      else ret config
  end.

Definition apiConfigForm_collect : M jsobject :=
  let* useOnlineApi := read "use-online-api" "checked" checked in
  let config := [("use_online_api", JBool useOnlineApi)] in
  let* config :=
    (if negb useOnlineApi then
       let* u := read "ollama-api-url" "value" value in
       let config := set_field "ollama_api_url" (JStr u) config in
       let* ollamaModelSelect := getElementById "ollama-model-select" in
       match ollamaModelSelect with
       | Some e => ret (set_field "selected_ollama_model" (JStr (value e)) config)
       | None => ret config
       end
     else
       let* u := read "online-api-url" "value" value in
       let config := set_field "online_api_url" (JStr u) config in
       let* k := read "online-api-key" "value" value in
       let config := set_field "online_api_key" (JStr k) config in
       let* m := read "online-model-name" "value" value in
       ret (set_field "online_api_model" (JStr m) config)) in
  let* config := custom_model "analysis" config in
  custom_model "writing" config.

(** What [el.textContent = config.field] stores: the string, or nothing for
    a member that was never set. *)
Definition field_text (k : string) (config : jsobject) : string :=
  match get_field k config with
  | Some (JStr s) => s
  | Some (JBool true) => "true"
  | Some (JBool false) => "false"
  | Some (JParseFloat s) | Some (JParseInt s) => s
  | None => ""
  end.

(** The two model names of the dashboard card, written when the display
    element was found. *)
Definition updateModelDisplay (config : jsobject) : M unit :=
  λ d,
    let d := match modelDisplay1 d with
             | Some _ => with_modelDisplay1
                           (Some (field_text "analysis_model_name" config)) d
             | None => d
             end in
    let d := match modelDisplay2 d with
             | Some _ => with_modelDisplay2
                           (Some (field_text "writing_model_name" config)) d
             | None => d
             end in
    (d, Ret tt).

Definition apiConfigForm_submit : M jsobject :=
  let* config := apiConfigForm_collect in
  fetch "/api/update_api_config" (JsonBody config) ;;;
  ret config.

Definition apiConfigForm_settled (config : jsobject) (o : outcome) : M unit :=
  settle o
    (λ data,
       if success data then
         updateModelDisplay config ;;;
         alert "API配置已保存"
       else
         alert ("保存API配置失败: " +:+ js_string (error data)))
    (λ error, alert ("保存API配置出错: " +:+ error))
    (ret tt).

(** [test-api-btn] *)
Definition testApiBtn_click : M unit :=
  let* testMessage := read "test-message" "value" value in
  if is_empty testMessage then
    alert "请输入测试消息"
  else
    update "test-api-btn" (busy "测试中...") ;;;
    write "test-result" "style" (set_display "block") ;;;
    assign "test-result" "textContent" (set_textContent "正在连接API...") ;;;
    fetch "/api/test_api" (JsonBody [("message", JStr testMessage)]).

Definition testApiBtn_settled (o : outcome) : M unit :=
  settle o
    (λ data,
       if success data then
         assign "test-result" "textContent"
           (set_textContent ("测试成功！响应: " +:+ js_string (response_text data)))
       else
         assign "test-result" "textContent"
           (set_textContent ("测试失败: " +:+ js_string (error data))))
    (λ error,
       assign "test-result" "textContent"
         (set_textContent ("测试出错: " +:+ error)))
    (update "test-api-btn" (idle "测试连接")).

(** [settings-form] *)
Definition settingsForm_submit : M unit :=
  let* temperature := read "temperature" "value" value in
  let* top_p := read "top-p" "value" value in
  let* max_tokens := read "max-tokens" "value" value in
  let* show_typing_animation := read "show-typing-animation" "checked" checked in
  let* typing_speed := read "typing-speed" "value" value in
  let* enable_keyboard_shortcuts :=
    read "enable-keyboard-shortcuts" "checked" checked in
  fetch "/update_settings"
    (JsonBody [("temperature", JParseFloat temperature);
               ("top_p", JParseFloat top_p);
               ("max_tokens", JParseInt max_tokens);
               ("show_typing_animation", JBool show_typing_animation);
               ("typing_speed", JParseInt typing_speed);
               ("enable_keyboard_shortcuts", JBool enable_keyboard_shortcuts)]).

Definition settingsForm_settled (o : outcome) : M unit :=
  settle o
    (λ data, if success data then alert "设置已保存" else alert "保存设置失败")
    (λ error, alert ("保存设置出错: " +:+ error))
    (ret tt).

(** [reset-app-btn]; [confirmed] is the answer to the [confirm] dialog. *)
Definition resetAppBtn_click (confirmed : bool) : M unit :=
  if confirmed then fetch "/reset_journey" NoBody else ret tt.

Definition reload : M unit := λ d, (with_reloaded true d, Ret tt).

Definition resetAppBtn_settled (o : outcome) : M unit :=
  settle o
    (λ data,
       if success data then alert "应用已重置" ;;; reload
       else alert "重置应用失败")
    (λ error, alert ("重置应用出错: " +:+ error))
    (ret tt).


(** [novel-upload-form].  A selected file is known by its name. *)
Definition novelUploadForm_submit : M unit :=
  let* novelFile := read "novel-file" "files" (λ e, head (files e)) in
  let* novelTitle := read "novel-title" "value" value in
  match novelFile with
  | None => alert "请选择小说文件"
  | Some name =>
      if negb (endsWith name ".txt") then
        alert "只支持TXT格式的文件"
      else
        write "processing-card" "style" (set_display "flex") ;;;
        fetch "/upload_novel"
              (FormBody [("novel_file", name); ("novel_title", novelTitle)])
  end.

Definition novelUploadForm_settled (o : outcome) : M unit :=
  settle o
    (λ data,
       if success data then
         write "processing-card" "style" (set_display "none") ;;;
         write "initializing-narrative-card" "style" (set_display "flex")
       else
         write "processing-card" "style" (set_display "none") ;;;
         alert ("处理小说失败: " +:+ js_string (error data)))
    (λ error,
       write "processing-card" "style" (set_display "none") ;;;
       alert ("上传小说出错: " +:+ error))
    (ret tt).

(** An entry of the transcript, as the scripts build it. *)
Definition message (cls speaker text : string) : child :=
  Child "div" ("message-container " +:+ cls) ""
        ("<strong>" +:+ speaker +:+ ":</strong><p>" +:+ text +:+ "</p>").

Definition appendChild (id : string) (c : child) : M unit :=
  write id "appendChild" (λ e, set_children (children e ++ [c]) e).

(** [start-narrative-btn] *)
Definition startNarrativeBtn_click : M unit :=
  update "start-narrative-btn" (busy "初始化中...") ;;;
  fetch "/start_narrative" NoBody.

Definition startNarrativeBtn_settled (o : outcome) : M unit :=
  settle o
    (λ data,
       if success data then
         write "initializing-narrative-card" "style" (set_display "none") ;;;
         write "narrative-card" "style" (set_display "flex") ;;;
         appendChild "narrative-history"
           (message "ai-message" "系统" (js_string (initial_narrative data)))
       else
         alert ("初始化叙事失败: " +:+ js_string (error data)) ;;;
         update "start-narrative-btn" (idle "开始旅程"))
    (λ error,
       alert ("初始化叙事出错: " +:+ error) ;;;
       update "start-narrative-btn" (idle "开始旅程"))
    (ret tt).

(** [send-action-btn] *)
Definition sendActionBtn_click : M unit :=
  let* userAction := read "user-action" "value" value in
  if is_empty userAction then
    alert "请输入您的行动"
  else
    update "send-action-btn" (busy "处理中...") ;;;
    appendChild "narrative-history" (message "user-message" "用户" userAction) ;;;
    assign "user-action" "value" (set_value "") ;;;
    fetch "/process_action" (JsonBody [("action", JStr userAction)]).

Definition sendActionBtn_settled (o : outcome) : M unit :=
  settle o
    (λ data,
       if success data then
         appendChild "narrative-history"
           (message "ai-message" "系统" (js_string (response_text data)))
       else
         alert ("处理行动失败: " +:+ js_string (error data)))
    (λ error, alert ("处理行动出错: " +:+ error))
    (update "send-action-btn" (idle "发送")).

(** [save-game-btn] *)
Definition saveGameBtn_click : M unit :=
  update "save-game-btn" (busy "保存中...") ;;;
  fetch "/save_game" NoBody.

Definition saveGameBtn_settled (o : outcome) : M unit :=
  settle o
    (λ data,
       if success data then alert "游戏已保存"
       else alert ("保存游戏失败: " +:+ js_string (error data)))
    (λ error, alert ("保存游戏出错: " +:+ error))
    (update "save-game-btn" (idle "保存游戏")).

(** [close-narrative-btn] *)
Definition closeNarrativeBtn_click : M unit :=
  write "narrative-card" "style" (set_display "none").

(** The buttons of the history list; [i] is the item the button is in. *)
Definition update_load_btn (i : nat) (f : chatButton → chatButton) : M unit :=
  λ d, (with_chatItems
          (alter (λ c, ChatItem (attached c) (f (load_btn c)) (delete_btn c)) i)
          d, Ret tt).
Definition update_delete_btn (i : nat) (f : chatButton → chatButton) : M unit :=
  λ d, (with_chatItems
          (alter (λ c, ChatItem (attached c) (load_btn c) (f (delete_btn c))) i)
          d, Ret tt).

Definition btn_busy (label : string) (b : chatButton) : chatButton :=
  ChatButton (data_path b) true label.
Definition btn_idle (label : string) (b : chatButton) : chatButton :=
  ChatButton (data_path b) false label.

(** [!filePath]: a missing attribute and the empty string are both falsy. *)
Definition file_path_of (b : chatButton) : option string :=
  match data_path b with
  | Some p => if is_empty p then None else Some p
  | None => None
  end.

Definition loadChatBtn_click (i : nat) : M unit :=
  λ d,
    match chatItems d !! i with
    | None => (d, Ret tt)
    | Some item =>
        match file_path_of (load_btn item) with
        | None => alert "历史对话文件路径无效" d
        | Some filePath =>
            (update_load_btn i (btn_busy "加载中...") ;;;
             fetch "/api/history/load"
                   (JsonBody [("file_path", JStr filePath)])) d
        end
    end.

(** [document.querySelector('.nav-item[data-section="home"]')], as the
    position of the item. *)
Fixpoint find_nav (section : string) (l : list navItem) : option nat :=
  match l with
  | [] => None
  | n :: l' =>
      if bool_decide (data_section n = Some section) then Some 0
      else S <$> find_nav section l'
  end.

(** [.click()] on a navigation item runs both of its listeners. *)
Definition nav_click (i : nat) : M unit :=
  dispatch [navItem_click i; FloatingSave.navItem_click i].

Definition loadChatBtn_settled (i : nat) (o : outcome) : M unit :=
  settle o
    (λ data,
       if success data then
         (λ d, match find_nav "home" (navItems d) with
               | None => (d, Throw (null_read "click"))
               | Some j => nav_click j d
               end) ;;;
         write "initializing-narrative-card" "style" (set_display "flex")
       else
         alert ("加载历史对话失败: " +:+ js_string (error data)))
    (λ error, alert ("加载历史对话出错: " +:+ error))
    (update_load_btn i (btn_idle "加载")).

Definition deleteChatBtn_click (i : nat) (confirmed : bool) : M unit :=
  λ d,
    match chatItems d !! i with
    | None => (d, Ret tt)
    | Some item =>
        match file_path_of (delete_btn item) with
        | None => alert "历史对话文件路径无效" d
        | Some filePath =>
            if confirmed then
              (update_delete_btn i (btn_busy "删除中...") ;;;
               fetch "/api/history/delete"
                     (JsonBody [("file_path", JStr filePath)])) d
            else (d, Ret tt)
        end
    end.

Definition emptyState : child :=
  Child "div" "empty-state" "" "<p>暂无历史对话记录</p>".

(** [this.closest('.chat-history-item')] is the item the button was
    rendered in. *)
Definition deleteChatBtn_settled (i : nat) (o : outcome) : M unit :=
  settle o
    (λ data,
       if success data then
         (λ d, (with_chatItems
                  (alter (λ c, ChatItem false (load_btn c) (delete_btn c)) i)
                  d, Ret tt)) ;;;
         (λ d, if bool_decide (filter (λ c, attached c = true) (chatItems d) = [])
               then match chatHistoryList d with
                    | None => (d, Throw (null_read "appendChild"))
                    | Some l =>
                        (with_chatHistoryList (Some (l ++ [emptyState])) d,
                         Ret tt)
                    end
               else (d, Ret tt))
       else
         alert ("删除历史对话失败: " +:+ js_string (error data)))
    (λ error, alert ("删除历史对话出错: " +:+ error))
    (update_delete_btn i (btn_idle "删除")).

(** The [change] listener of the file input; it is registered when the
    input and the name display both exist. *)
Definition fileInput_change : M unit :=
  λ d,
    match byId d !! "novel-file", byId d !! "file-name-display" with
    | Some this, Some _ =>
        match head (files this) with
        | Some name => update "file-name-display" (set_textContent name) d
        | None => update "file-name-display" (set_textContent "未选择文件") d
        end
    | _, _ => (d, Ret tt)
    end.

(** The [change] listener of the first radio of a pair (local API, Ollama
    custom model): when the radio is checked its panel is shown, then the
    panel of the other radio is hidden.  The listeners are registered when
    both radios exist; the panels are looked up without a test. *)
Definition radio_change (this other show hide : string) : M unit :=
  λ d,
    match byId d !! this, byId d !! other with
    | Some radio, Some _ =>
        if checked radio then
          (write show "style" (set_display "block") ;;;
           write hide "style" (set_display "none")) d
        else (d, Ret tt)
    | _, _ => (d, Ret tt)
    end.

(** The listener of the second radio of a pair has its two statements in
    the other order: the panel of the first radio is hidden, then its own
    panel is shown. *)
Definition radio_change_hide_first (this other show hide : string) : M unit :=
  λ d,
    match byId d !! this, byId d !! other with
    | Some radio, Some _ =>
        if checked radio then
          (write hide "style" (set_display "none") ;;;
           write show "style" (set_display "block")) d
        else (d, Ret tt)
    | _, _ => (d, Ret tt)
    end.

Definition useLocalApi_change : M unit :=
  radio_change "use-local-api" "use-online-api"
               "ollama-api-config" "online-api-config".
Definition useOnlineApi_change : M unit :=
  radio_change_hide_first "use-online-api" "use-local-api"
                          "online-api-config" "ollama-api-config".
Definition customOllama_change (kind : string) : M unit :=
  radio_change (kind +:+ "-custom-ollama") (kind +:+ "-custom-online")
               (kind +:+ "-custom-ollama-settings")
               (kind +:+ "-custom-online-settings").
Definition customOnline_change (kind : string) : M unit :=
  radio_change_hide_first
    (kind +:+ "-custom-online") (kind +:+ "-custom-ollama")
    (kind +:+ "-custom-online-settings")
    (kind +:+ "-custom-ollama-settings").

(** The [change] listener of a model radio ([this] is its id); it is
    registered when the custom settings panel of its kind exists. *)
Definition modelOption_change (kind this : string) : M unit :=
  λ d,
    match byId d !! this, byId d !! (kind +:+ "-custom-settings") with
    | Some option, Some _ =>
        if bool_decide (value option = "custom") && checked option then
          update (kind +:+ "-custom-settings") (set_display "block") d
        else if checked option then
          update (kind +:+ "-custom-settings") (set_display "none") d
        else (d, Ret tt)
    | _, _ => (d, Ret tt)
    end.

(** The [input] listener of a slider of the settings form. *)
Definition slider_input (slider valueDisplay : string) : M unit :=
  λ d,
    match byId d !! "settings-form", byId d !! slider,
          byId d !! valueDisplay with
    | Some _, Some this, Some _ =>
        update valueDisplay (set_textContent (value this)) d
    | _, _, _ => (d, Ret tt)
    end.

End Main.

(** ** templates/index.html *)

(** The server state the template renders. *)
Record history := History { file_path : string }.

Record app_state := AppState {
  app_stage : string;
  narrative_history_display : list (string * string);
  history_conversations : list history;
  use_online_api : bool;
  ollama_api_url_config : string;
  online_api_url : string;
  online_api_key : string;
  analysis_model_name : string;
  analysis_custom_type : string;
  analysis_custom_ollama_model : string;
  analysis_custom_online_model : string;
  writing_model_name : string;
  writing_custom_type : string;
  writing_custom_ollama_model : string;
  writing_custom_online_model : string;
  ollama_models : list string;
  temperature : string;
  top_p : string;
  max_tokens : string;
  show_typing_animation : bool;
  typing_speed : string;
  enable_keyboard_shortcuts : bool
}.

Module Template.

Definition box (classes : list string) (disp : string) : element :=
  Element classes disp false "" "" false [] [].
Definition button (classes : list string) (label : string) : element :=
  Element classes "" false label "" false [] [].
Definition input (classes : list string) (v : string) : element :=
  Element classes "" false "" v false [] [].
Definition radio (v : string) (on : bool) : element :=
  Element [] "" false "" v on [] [].
Definition checkbox (on : bool) : element :=
  Element [] "" false "" "on" on [] [].
Definition label (classes : list string) (text : string) : element :=
  Element classes "" false text "" false [] [].

(** [{{ 'a' if c else 'b' }}] *)
Definition pick (c : bool) (a b : string) : string := if c then a else b.

(** A [select] with one option per model; the option equal to [chosen] is
    the selected one, otherwise the first option shows. *)
Definition select (ms : list string) (chosen : string) : element :=
  Element ["form-control"] "" false ""
    (if bool_decide (chosen ∈ ms) then chosen else default "" (head ms))
    false [] (Main.option_child <$> ms).

Definition rendered_message (m : string * string) : child :=
  Main.message
    (pick (bool_decide (m.1 = "用户")) "user-message" "ai-message") m.1 m.2.

Definition elements (s : app_state) : list (string * element) :=
  let stage := app_stage s in
  [ ("home-section", box ["content-section"] "");
    ("dashboard-view",
       box ["dashboard-view"]
           (pick (bool_decide (stage ≠ "narrating")) "block" "none"));
    ("novel-config-card", box ["dashboard-card"; "upload-card"] "");
    ("novel-upload-form", box [] "");
    ("novel-file", input ["file-upload-input"] "");
    ("file-name-display", label ["file-name"] "未选择文件");
    ("novel-title", input ["form-control"] "");
    ("narrative-view",
       box ["narrative-view"]
           (pick (bool_decide (stage = "narrating")) "block" "none"));
    ("narrative-history",
       Element ["narrative-history"] "" false "" "" false []
               (rendered_message <$> narrative_history_display s));
    ("user-action", input ["form-control"] "");
    ("send-action-btn", button ["btn"; "btn-primary"] "发送");
    ("save-game-btn", button ["btn"] "保存游戏");
    ("close-narrative-btn", button ["btn"] "返回主页");
    ("processing-card",
       box ["processing-overlay"]
           (pick (bool_decide (stage = "processing")) "flex" "none"));
    ("analysis-progress", box ["progress-bar"] "");
    ("analysis-status", label [] "准备分析...");
    ("initializing-narrative-card",
       box ["processing-overlay"]
           (pick (bool_decide (stage = "initializing_narrative")) "flex" "none"));
    ("start-narrative-btn", button ["btn"; "btn-primary"] "开始旅程");
    ("chat-section", box ["content-section"] "none");
    ("api-config-section", box ["content-section"] "none");
    ("api-config-form", box [] "");
    ("local-api-option", box ["api-type-option"] "");
    ("use-local-api", radio "local" (negb (use_online_api s)));
    ("online-api-option", box ["api-type-option"] "");
    ("use-online-api", radio "online" (use_online_api s));
    ("ollama-api-config", box [] (pick (use_online_api s) "none" "block"));
    ("ollama-api-url", input ["form-control"] (ollama_api_url_config s));
    ("online-api-config", box [] (pick (use_online_api s) "block" "none"));
    ("online-api-url", input ["form-control"] (online_api_url s));
    ("online-api-key", input ["form-control"] (online_api_key s));
    ("analysis-llama3",
       radio "llama3" (bool_decide (analysis_model_name s = "llama3")));
    ("analysis-mistral",
       radio "mistral" (bool_decide (analysis_model_name s = "mistral")));
    ("analysis-custom",
       radio "custom" (bool_decide (analysis_model_name s = "custom")));
    ("analysis-custom-settings",
       box ["custom-model-settings"]
           (pick (bool_decide (analysis_model_name s = "custom")) "block" "none"));
    ("analysis-custom-ollama",
       radio "ollama" (bool_decide (analysis_custom_type s = "ollama")));
    ("analysis-custom-online",
       radio "online" (bool_decide (analysis_custom_type s = "online")));
    ("analysis-custom-ollama-settings",
       box [] (pick (bool_decide (analysis_custom_type s = "ollama")) "block" "none"));
    ("analysis-ollama-model-select",
       select (ollama_models s) (analysis_custom_ollama_model s));
    ("analysis-custom-online-settings",
       box [] (pick (bool_decide (analysis_custom_type s = "online")) "block" "none"));
    ("analysis-online-model-name",
       input ["form-control"] (analysis_custom_online_model s));
    ("writing-llama3",
       radio "llama3" (bool_decide (writing_model_name s = "llama3")));
    ("writing-mistral",
       radio "mistral" (bool_decide (writing_model_name s = "mistral")));
    ("writing-custom",
       radio "custom" (bool_decide (writing_model_name s = "custom")));
    ("writing-custom-settings",
       box ["custom-model-settings"]
           (pick (bool_decide (writing_model_name s = "custom")) "block" "none"));
    ("writing-custom-ollama",
       radio "ollama" (bool_decide (writing_custom_type s = "ollama")));
    ("writing-custom-online",
       radio "online" (bool_decide (writing_custom_type s = "online")));
    ("writing-custom-ollama-settings",
       box [] (pick (bool_decide (writing_custom_type s = "ollama")) "block" "none"));
    ("writing-ollama-model-select",
       select (ollama_models s) (writing_custom_ollama_model s));
    ("writing-custom-online-settings",
       box [] (pick (bool_decide (writing_custom_type s = "online")) "block" "none"));
    ("writing-online-model-name",
       input ["form-control"] (writing_custom_online_model s));
    ("refresh-models-btn", button ["btn"; "btn-primary"] "刷新模型列表");
    ("refresh-models-status", box ["status-message"] "none");
    ("test-message", input ["form-control"] "");
    ("test-api-btn", button ["btn"; "btn-primary"] "测试连接");
    ("test-result", box ["test-result"] "none");
    ("settings-section", box ["content-section"] "none");
    ("settings-form", box [] "");
    ("temperature-value", label [] (temperature s));
    ("temperature", input ["form-range"] (temperature s));
    ("top-p-value", label [] (top_p s));
    ("top-p", input ["form-range"] (top_p s));
    ("max-tokens", input ["form-control"] (max_tokens s));
    ("show-typing-animation", checkbox (show_typing_animation s));
    ("typing-speed-value", label [] (typing_speed s));
    ("typing-speed", input ["form-range"] (typing_speed s));
    ("enable-keyboard-shortcuts", checkbox (enable_keyboard_shortcuts s));
    ("reset-app-btn", button ["btn"; "btn-danger"] "重置应用");
    ("global-save-button", box ["floating-save-button"] "");
    ("save-toast", box ["save-toast"] "") ].

(** The checked input of a radio group rendered from a server value: one of
    the listed inputs is checked when the value is its own. *)
Definition rendered_radio (group v : string) (inputs : list string)
    : list (string * string) :=
  if bool_decide (v ∈ inputs) then [(group, v)] else [].

Definition radios (s : app_state) : list (string * string) :=
  [("api-type", pick (use_online_api s) "online" "local")]
  ++ rendered_radio "analysis-model" (analysis_model_name s)
       ["llama3"; "mistral"; "custom"]
  ++ rendered_radio "analysis-custom-type" (analysis_custom_type s)
       ["ollama"; "online"]
  ++ rendered_radio "writing-model" (writing_model_name s)
       ["llama3"; "mistral"; "custom"]
  ++ rendered_radio "writing-custom-type" (writing_custom_type s)
       ["ollama"; "online"].

Definition nav : list navItem :=
  [ NavItem (Some "home") ["nav-item"; "active"];
    NavItem (Some "chat") ["nav-item"];
    NavItem (Some "api-config") ["nav-item"];
    NavItem (Some "settings") ["nav-item"] ].

Definition rendered_history (h : history) : chatItem :=
  ChatItem true (ChatButton (Some (file_path h)) false "加载")
                (ChatButton (Some (file_path h)) false "删除").

(** The page as the browser has it once it is parsed. *)
Definition index_html (s : app_state) : document :=
  Document (list_to_map (elements s)) nav (list_to_map (radios s))
    (Some (analysis_model_name s)) (Some (writing_model_name s))
    (rendered_history <$> history_conversations s) (Some [])
    [] [] [] [] false.

End Template.

(** A session that has analysed a novel and waits for the journey to
    start, with the local API and the stock models. *)
Definition waiting_state : app_state :=
  AppState "initializing_narrative" [] [History "history/a.json"]
    false "http://127.0.0.1:11434" "" ""
    "llama3" "" "" "" "llama3" "" "" "" ["llama3"; "mistral"]
    "0.7" "0.9" "1024" true "5" true.

Definition waiting_page : document := Template.index_html waiting_state.

(** * Properties *)

(** ** Reading the store after a handler *)

Definition present (id : string) (d : document) : Prop :=
  is_Some (byId d !! id).

(** A button with the given [disabled] flag and label. *)
Definition button_is (id : string) (dis : bool) (text : string)
    (d : document) : Prop :=
  ∃ e, byId d !! id = Some e ∧ disabled e = dis ∧ textContent e = text.

(** The handler sent a request. *)
Definition sends {A} (m : M A) (d : document) : Prop :=
  ∃ r, fetches (exec m d) = fetches d ++ [r].

(** A request that failed: rejected, or answered with [success: false]. *)
Definition failed (o : outcome) : Prop :=
  match o with
  | Fulfilled data => success data = false
  | Rejected _ => True
  end.

(** [v || fallback] for the value of an element that may be missing. *)
Definition or_fallback (fallback : string) (v : option string) : string :=
  match v with
  | Some s => if is_empty s then fallback else s
  | None => fallback
  end.

(** The draft as a function of what a collector has read from the page:
    first the API branch, then the model fields of one kind. *)
Definition api_fields (online : bool) (ollama_url : string)
    (ollama_model : option string) (url key model : string) : jsobject :=
  let config := [("use_online_api", JBool online)] in
  if online then
    set_field "online_api_model" (JStr model)
      (set_field "online_api_key" (JStr key)
         (set_field "online_api_url" (JStr url) config))
  else
    let config := set_field "ollama_api_url" (JStr ollama_url) config in
    match ollama_model with
    | Some m => set_field "selected_ollama_model" (JStr m) config
    | None => config
    end.

Definition custom_fields (kind : string) (model custom_type : option string)
    (ollama_model online_model : string) (config : jsobject) : jsobject :=
  match model with
  | None => config
  | Some v =>
      let config := set_field (kind +:+ "_model_name") (JStr v) config in
      if bool_decide (v = "custom") then
        match custom_type with
        | None => config
        | Some t =>
            let config := set_field (kind +:+ "_custom_type") (JStr t) config in
            if bool_decide (t = "ollama")
            then set_field (kind +:+ "_custom_ollama_model")
                           (JStr ollama_model) config
            else set_field (kind +:+ "_custom_online_model")
                           (JStr online_model) config
        end
      else config
  end.

(** The draft of the floating button's collector on a page. *)
Definition floating_draft (d : document) : jsobject :=
  custom_fields "writing"
    (checkedRadio d !! "writing-model")
    (checkedRadio d !! "writing-custom-type")
    (or_fallback "" (value <$> byId d !! "writing-ollama-model-select"))
    (or_fallback "" (value <$> byId d !! "writing-online-model-name"))
    (custom_fields "analysis"
       (checkedRadio d !! "analysis-model")
       (checkedRadio d !! "analysis-custom-type")
       (or_fallback "" (value <$> byId d !! "analysis-ollama-model-select"))
       (or_fallback "" (value <$> byId d !! "analysis-online-model-name"))
       (api_fields
          (default false (checked <$> byId d !! "use-online-api"))
          (or_fallback "http://127.0.0.1:11434"
             (value <$> byId d !! "ollama-api-url"))
          (value <$> byId d !! "ollama-model-select")
          (or_fallback "" (value <$> byId d !! "online-api-url"))
          (or_fallback "" (value <$> byId d !! "online-api-key"))
          (or_fallback "" (value <$> byId d !! "online-model-name")))).

(** The draft of the form's collector on a page where it completes. *)
Definition main_draft (d : document) : jsobject :=
  custom_fields "writing"
    (checkedRadio d !! "writing-model")
    (checkedRadio d !! "writing-custom-type")
    (default "" (value <$> byId d !! "writing-ollama-model-select"))
    (default "" (value <$> byId d !! "writing-online-model-name"))
    (custom_fields "analysis"
       (checkedRadio d !! "analysis-model")
       (checkedRadio d !! "analysis-custom-type")
       (default "" (value <$> byId d !! "analysis-ollama-model-select"))
       (default "" (value <$> byId d !! "analysis-online-model-name"))
       (api_fields
          (default false (checked <$> byId d !! "use-online-api"))
          (default "" (value <$> byId d !! "ollama-api-url"))
          (value <$> byId d !! "ollama-model-select")
          (default "" (value <$> byId d !! "online-api-url"))
          (default "" (value <$> byId d !! "online-api-key"))
          (default "" (value <$> byId d !! "online-model-name")))).

(** A page without any element. *)
Definition blank : document :=
  Document ∅ [] ∅ None None [] None [] [] [] [] false.

(** The two top-level branches of a draft, and a draft that carries exactly
    the branch its flag selects. *)
Definition ollama_branch (cfg : jsobject) : bool :=
  has_field "ollama_api_url" cfg && has_field "selected_ollama_model" cfg.
Definition online_branch (cfg : jsobject) : bool :=
  has_field "online_api_url" cfg && has_field "online_api_key" cfg
  && has_field "online_api_model" cfg.
Definition branch_follows_flag (cfg : jsobject) : Prop :=
  ∃ online, get_field "use_online_api" cfg = Some (JBool online) ∧
            ollama_branch cfg = negb online ∧ online_branch cfg = online.

(** What the collectors do keep: each top-level field follows the flag,
    [selected_ollama_model] also needs its [select], and of the two custom
    fields of a kind the one of the checked custom type is there. *)
Definition kind_branches (d : document) (kind : string) (cfg : jsobject)
    : Prop :=
  let custom :=
    bool_decide (checkedRadio d !! (kind +:+ "-model") = Some "custom") in
  let ctype := checkedRadio d !! (kind +:+ "-custom-type") in
  has_field (kind +:+ "_custom_ollama_model") cfg
    = custom && bool_decide (ctype = Some "ollama") ∧
  has_field (kind +:+ "_custom_online_model") cfg
    = custom && bool_decide (is_Some ctype)
      && negb (bool_decide (ctype = Some "ollama")) ∧
  has_field (kind +:+ "_custom_ollama_model") cfg
    && has_field (kind +:+ "_custom_online_model") cfg = false.

Definition draft_branches (d : document) (cfg : jsobject) : Prop :=
  ∃ online,
    get_field "use_online_api" cfg = Some (JBool online) ∧
    has_field "ollama_api_url" cfg = negb online ∧
    has_field "selected_ollama_model" cfg
      = negb online && bool_decide (present "ollama-model-select" d) ∧
    has_field "online_api_url" cfg = online ∧
    has_field "online_api_key" cfg = online ∧
    has_field "online_api_model" cfg = online ∧
    ollama_branch cfg && online_branch cfg = false ∧
    kind_branches d "analysis" cfg ∧
    kind_branches d "writing" cfg.

(** [hay.includes(needle)] *)
Fixpoint includes (needle hay : string) : bool :=
  String.prefix needle hay ||
  match hay with
  | EmptyString => false
  | String _ hay' => includes needle hay'
  end.

(** A response that reports a failure with its reason. *)
Definition refused (err : string) : outcome :=
  Fulfilled (Response false (Some err) None None None).

(** A button of the [i]-th history item with the given flag and label. *)
Definition chat_button_is (which : chatItem → chatButton) (i : nat)
    (dis : bool) (text : string) (d : document) : Prop :=
  ∃ c, chatItems d !! i = Some c ∧
       btn_disabled (which c) = dis ∧ btn_text (which c) = text.

(** The claim of a busy state: a click that sends a request leaves the
    control disabled. *)
Definition busy_while_pending (click : M unit) (id : string)
    (d : document) : Prop :=
  sends click d →
  ∃ e, byId (exec click d) !! id = Some e ∧ disabled e = true.

(** No element changed its [disabled] flag or its label, and no history
    button changed. *)
Definition labels_kept (d d' : document) : Prop :=
  (∀ id, (λ e, (disabled e, textContent e)) <$> byId d' !! id
         = (λ e, (disabled e, textContent e)) <$> byId d !! id) ∧
  chatItems d' = chatItems d.

(** The page did not change except for the elements named in [ids], the
    alerts and the console. *)
Definition same_but (ids : list string) (d d' : document) : Prop :=
  (∀ id, id ∉ ids → byId d' !! id = byId d !! id) ∧
  navItems d' = navItems d ∧ checkedRadio d' = checkedRadio d ∧
  modelDisplay1 d' = modelDisplay1 d ∧ modelDisplay2 d' = modelDisplay2 d ∧
  chatItems d' = chatItems d ∧ chatHistoryList d' = chatHistoryList d ∧
  fetches d' = fetches d ∧ timers d' = timers d ∧ reloaded d' = reloaded d.

(** A handler that removes no element and no history item. *)
Definition keeps {A} (m : M A) : Prop :=
  ∀ d, (∀ id, present id d → present id (m d).1) ∧
       length (chatItems (m d).1) = length (chatItems d).

(** A handler that changes no flag and no label. *)
Definition quiet {A} (m : M A) : Prop := ∀ d, labels_kept d (m d).1.

(** A handler that only reads. *)
Definition reads_only {A} (m : M A) : Prop := ∀ d, (m d).1 = d.

(** A session in the middle of its story, and its page with an action
    typed in. *)
Definition narrating_state : app_state :=
  AppState "narrating" [("系统", "你在一间书房里醒来。")] []
    false "http://127.0.0.1:11434" "" ""
    "llama3" "" "" "" "llama3" "" "" "" ["llama3"; "mistral"]
    "0.7" "0.9" "1024" true "5" true.

Definition narrating_page : document :=
  with_byId (alter (set_value "推开门") "user-action")
            (Template.index_html narrating_state).

(** The section a navigation item names. *)
Definition section_of (item : navItem) : string :=
  default "null" (data_section item) +:+ "-section".

(** What the page shows of an element: its classes and its display. *)
Definition box_of (e : element) : list string * string :=
  (classList e, display e).

(** A response that reports a successful start with its first lines. *)
Definition started (text : string) : outcome :=
  Fulfilled (Response true None None (Some text) None).

(** ** The page as a machine *)

(** The three sliders of the settings form; the display of a slider has
    the id of the slider followed by [-value]. *)
Inductive slider := Temperature | TopP | TypingSpeed.

Definition slider_id (s : slider) : string :=
  match s with
  | Temperature => "temperature"
  | TopP => "top-p"
  | TypingSpeed => "typing-speed"
  end.

(** What can happen on the page that runs a script: a listener is called,
    a request settles, a timer fires. *)
Inductive event :=
| NavClick (i : nat)
| FileChange
| ApiTypeChange (online : bool)
| ModelOptionChange (kind this : string)
| CustomTypeChange (kind : string) (online : bool)
| SliderInput (s : slider)
| RefreshClick
| RefreshSettled (o : outcome)
| ConfigSubmit
| ConfigSettled (config : jsobject) (o : outcome)
| TestClick
| TestSettled (o : outcome)
| SettingsSubmit
| SettingsSettled (o : outcome)
| ResetClick (confirmed : bool)
| ResetSettled (o : outcome)
| UploadSubmit
| UploadSettled (o : outcome)
| StartClick
| StartSettled (o : outcome)
| SendClick
| SendSettled (o : outcome)
| SaveClick
| SaveSettled (o : outcome)
| CloseClick
| LoadClick (i : nat)
| LoadSettled (i : nat) (o : outcome)
| DeleteClick (i : nat) (confirmed : bool)
| DeleteSettled (i : nat) (o : outcome)
| FloatingClick
| FloatingSettled (config : jsobject) (o : outcome)
| ToastTimeout.

Definition handle (e : event) : M unit :=
  match e with
  | NavClick i => Main.nav_click i
  | FileChange => Main.fileInput_change
  | ApiTypeChange online =>
      if online then Main.useOnlineApi_change else Main.useLocalApi_change
  | ModelOptionChange kind this => Main.modelOption_change kind this
  | CustomTypeChange kind online =>
      if online then Main.customOnline_change kind
      else Main.customOllama_change kind
  | SliderInput s => Main.slider_input (slider_id s) (slider_id s +:+ "-value")
  | RefreshClick => Main.refreshOllamaModels
  | RefreshSettled o => Main.refreshOllamaModels_settled o
  | ConfigSubmit => Main.apiConfigForm_submit ;;; ret tt
  | ConfigSettled config o => Main.apiConfigForm_settled config o
  | TestClick => Main.testApiBtn_click
  | TestSettled o => Main.testApiBtn_settled o
  | SettingsSubmit => Main.settingsForm_submit
  | SettingsSettled o => Main.settingsForm_settled o
  | ResetClick confirmed => Main.resetAppBtn_click confirmed
  | ResetSettled o => Main.resetAppBtn_settled o
  | UploadSubmit => Main.novelUploadForm_submit
  | UploadSettled o => Main.novelUploadForm_settled o
  | StartClick => Main.startNarrativeBtn_click
  | StartSettled o => Main.startNarrativeBtn_settled o
  | SendClick => Main.sendActionBtn_click
  | SendSettled o => Main.sendActionBtn_settled o
  | SaveClick => Main.saveGameBtn_click
  | SaveSettled o => Main.saveGameBtn_settled o
  | CloseClick => Main.closeNarrativeBtn_click
  | LoadClick i => Main.loadChatBtn_click i
  | LoadSettled i o => Main.loadChatBtn_settled i o
  | DeleteClick i confirmed => Main.deleteChatBtn_click i confirmed
  | DeleteSettled i o => Main.deleteChatBtn_settled i o
  | FloatingClick => FloatingSave.globalSaveButton_click ;;; ret tt
  | FloatingSettled config o => FloatingSave.globalSaveButton_settled config o
  | ToastTimeout => FloatingSave.hideToast
  end.

(** An exception that leaves a listener or a chain is reported; the page
    goes on with what was written. *)
Definition fire (e : event) (d : document) : document :=
  exec (try_catch (handle e) (λ err, console ("Uncaught " +:+ err))) d.

Definition run (es : list event) (d : document) : document :=
  foldl (λ d e, fire e d) d es.

(** ** Requests in flight *)

(** The controls that have a busy state. *)
Inductive control :=
| SendButton
| SaveButton
| RefreshButton
| StartButton
| LoadButton (i : nat)
| DeleteButton (i : nat).

(** The event that ends a request of a control.  The events carry no
    identity of the request: every settling of a request of the control
    counts. *)
Definition settles (c : control) (e : event) : bool :=
  match c, e with
  | SendButton, SendSettled _ => true
  | SaveButton, SaveSettled _ => true
  | RefreshButton, RefreshSettled _ => true
  | StartButton, StartSettled _ => true
  | LoadButton i, LoadSettled j _ => bool_decide (j = i)
  | DeleteButton i, DeleteSettled j _ => bool_decide (j = i)
  | _, _ => false
  end.

(** The event after which the browser loads the page anew: the settling of
    a reset that the backend confirmed.  The document of the listeners, and
    every request in flight with it, ends there. *)
Definition reloads (e : event) : bool :=
  match e with
  | ResetSettled (Fulfilled data) => success data
  | _ => false
  end.

(** What happens on the page while a request of the control is in flight:
    any events, none of which is the settling of a request of that control
    or reloads the page. *)
Definition pending (c : control) (es : list event) : bool :=
  forallb (λ e, negb (settles c e) && negb (reloads e)) es.

(** The settling of a deletion of the [i]-th history item that the backend
    confirmed. *)
Definition deletes (i : nat) (e : event) : bool :=
  match e with
  | DeleteSettled j (Fulfilled data) => bool_decide (j = i) && success data
  | _ => false
  end.

(** What a control shows: its [disabled] flag and its label. *)
Definition label_of (e : element) : bool * string :=
  (disabled e, textContent e).
Definition btn_label_of (b : chatButton) : bool * string :=
  (btn_disabled b, btn_text b).

(** A property of the elements and of the history items that a handler
    keeps, whether it returns or throws. *)
Definition inv (Q : gmap string element → list chatItem → Prop)
    {A} (m : M A) : Prop :=
  ∀ d, Q (byId d) (chatItems d) → Q (byId (m d).1) (chatItems (m d).1).

(** The property survives a write of [f] to the element [id], and a change
    [g] of the [i]-th history item. *)
Definition closed_at (Q : gmap string element → list chatItem → Prop)
    (id : string) (f : element → element) : Prop :=
  ∀ m c e, m !! id = Some e → Q m c → Q (<[id := f e]> m) c.
Definition chat_closed_at (Q : gmap string element → list chatItem → Prop)
    (i : nat) (g : chatItem → chatItem) : Prop :=
  ∀ m c, Q m c → Q m (alter g i c).

(** The element [id] shows [v]; the button [which] of the [i]-th history
    item shows [v]; the [i]-th history item is attached or not. *)
Definition shows (id : string) (v : bool * string)
    : gmap string element → list chatItem → Prop :=
  λ m _, label_of <$> m !! id = Some v.
Definition chat_shows (which : chatItem → chatButton) (i : nat)
    (v : bool * string) : gmap string element → list chatItem → Prop :=
  λ _ c, (λ x, btn_label_of (which x)) <$> c !! i = Some v.
Definition attached_is (i : nat) (b : option bool)
    : gmap string element → list chatItem → Prop :=
  λ _ c, attached <$> c !! i = b.

(** The page after a handler, apart from what it showed and sent: the
    elements and everything the scripts keep beside them. *)
Definition same_page (d d' : document) : Prop :=
  byId d' = byId d ∧ navItems d' = navItems d ∧
  checkedRadio d' = checkedRadio d ∧
  modelDisplay1 d' = modelDisplay1 d ∧ modelDisplay2 d' = modelDisplay2 d ∧
  chatHistoryList d' = chatHistoryList d ∧
  fetches d' = fetches d ∧ timers d' = timers d ∧ reloaded d' = reloaded d.

(** What the page shows beside its elements and its history items. *)
Definition dom_rest (d d' : document) : Prop :=
  navItems d' = navItems d ∧ checkedRadio d' = checkedRadio d ∧
  modelDisplay1 d' = modelDisplay1 d ∧ modelDisplay2 d' = modelDisplay2 d ∧
  chatHistoryList d' = chatHistoryList d.

(** The page shows what it showed, except for the elements named in
    [ids]; what was alerted, logged, sent or scheduled does not count. *)
Definition dom_but (ids : list string) (d d' : document) : Prop :=
  (∀ id, id ∉ ids → byId d' !! id = byId d !! id) ∧
  chatItems d' = chatItems d ∧ dom_rest d d'.

(** A handler that changes nothing on the page but the elements [ids]. *)
Definition frames (ids : list string) {A} (m : M A) : Prop :=
  ∀ d, dom_but ids d (m d).1.

(** The element [id] is the element [x] of the page before the listener, or
    that element after the listener's write [g]. *)
Definition moved (id : string) (g : element → element) (x : option element)
    : gmap string element → list chatItem → Prop :=
  λ m _, m !! id = x ∨ m !! id = g <$> x.

(** The transcript panel, as the list of its entries. *)
Definition transcript (d : document) : option (list child) :=
  children <$> byId d !! "narrative-history".

(** A handler that only appends to the transcript. *)
Definition grows {A} (m : M A) : Prop :=
  ∀ d, ∃ l', transcript (m d).1 = (λ l, l ++ l') <$> transcript d.

(** The user picks files in the file input: the browser stores them and
    calls the [change] listener. *)
Definition choose_files (names : list string) : M unit :=
  update "novel-file"
         (λ e, Element (classList e) (display e) (disabled e) (textContent e)
                       (value e) (checked e) names (children e)) ;;;
  Main.fileInput_change.

(** The user types into a text field. *)
Definition type_into (id text : string) : M unit :=
  update id (set_value text).

Lemma class_remove_absent c cs : class_contains c (class_remove c cs) = false.
Proof.
  unfold class_contains, class_remove.
  apply bool_decide_eq_false. rewrite list_elem_of_filter. tauto.
Qed.

Lemma class_add_present c cs : class_contains c (class_add c cs) = true.
Proof.
  unfold class_add. destruct (class_contains c cs) eqn:E; [done|].
  unfold class_contains. apply bool_decide_eq_true. set_solver.
Qed.

Lemma byId_update id f d :
  byId (exec (update id f) d) = alter f id (byId d).
Proof. reflexivity. Qed.

Lemma lookup_update id f d :
  byId (exec (update id f) d) !! id = f <$> byId d !! id.
Proof. rewrite byId_update. by rewrite lookup_alter_eq. Qed.

(** Running a handler step by step. *)
Lemma bind_run {A B} (m : M A) (k : A → M B) d d1 a :
  m d = (d1, Ret a) → bind m k d = k a d1.
Proof. intros H. unfold bind. by rewrite H. Qed.

Lemma bind_throw {A B} (m : M A) (k : A → M B) d d1 e :
  m d = (d1, Throw e) → bind m k d = (d1, Throw e).
Proof. intros H. unfold bind. by rewrite H. Qed.

Lemma write_run id prop f d e :
  byId d !! id = Some e →
  write id prop f d = (with_byId <[id := f e]> d, Ret tt).
Proof. intros H. unfold write. by rewrite H. Qed.

Lemma write_throw id prop f d :
  byId d !! id = None → write id prop f d = (d, Throw (null_read prop)).
Proof. intros H. unfold write. by rewrite H. Qed.

Lemma assign_run id prop f d e :
  byId d !! id = Some e →
  assign id prop f d = (with_byId <[id := f e]> d, Ret tt).
Proof. intros H. unfold assign. by rewrite H. Qed.

Lemma read_run {A} id prop (f : element → A) d e :
  byId d !! id = Some e → read id prop f d = (d, Ret (f e)).
Proof. intros H. unfold read. by rewrite H. Qed.

(** A chain whose data callback completes. *)
Lemma settle_fulfilled_ret data onData onError onFinally d d1 :
  onData data d = (d1, Ret tt) →
  settle (Fulfilled data) onData onError onFinally d
  = try_finally (ret tt) onFinally d1.
Proof.
  intros H. unfold settle, try_finally, try_catch, ret. by rewrite H.
Qed.

(** A chain whose data callback throws. *)
Lemma settle_fulfilled_throw data onData onError onFinally d d1 e :
  onData data d = (d1, Throw e) →
  settle (Fulfilled data) onData onError onFinally d
  = try_finally (onError e) onFinally d1.
Proof.
  intros H. unfold settle, try_finally, try_catch. by rewrite H.
Qed.

(** A chain after a rejection. *)
Lemma settle_rejected reason onData onError onFinally d :
  settle (Rejected reason) onData onError onFinally d
  = try_finally (onError reason) onFinally d.
Proof. reflexivity. Qed.

Lemma try_finally_ret_tt {A} (m : M A) d :
  try_finally m (ret tt) d = m d.
Proof. unfold try_finally, ret. by destruct (m d). Qed.

(** Lookups in a store written at named keys. *)
Ltac lookups :=
  repeat first
    [ rewrite lookup_insert_eq
    | rewrite lookup_insert_ne by done
    | rewrite lookup_alter_eq
    | rewrite lookup_alter_ne by done ].

(** The [finally] block of a chain runs last, whatever came before. *)
Lemma exec_try_finally_update {A} (m : M A) id f d :
  exec (try_finally m (update id f)) d = exec (update id f) (exec m d).
Proof.
  unfold exec, try_finally. destruct (m d) as [d' r]. reflexivity.
Qed.

Lemma exec_settle_update o onData onError id f d :
  ∃ d', exec (settle o onData onError (update id f)) d
        = exec (update id f) d'.
Proof. unfold settle. rewrite exec_try_finally_update. eauto. Qed.

(** ** The drafts *)

Lemma value_or_run id fallback d :
  FloatingSave.value_or id fallback d
  = (d, Ret (or_fallback fallback (value <$> byId d !! id))).
Proof.
  unfold FloatingSave.value_or, read_opt, bind, or_fallback.
  destruct (byId d !! id) as [e|]; simpl; [|done].
  by destruct (is_empty (value e)).
Qed.

Lemma floating_custom_model_run kind config d :
  FloatingSave.custom_model kind config d
  = (d, Ret (custom_fields kind
               (checkedRadio d !! (kind +:+ "-model"))
               (checkedRadio d !! (kind +:+ "-custom-type"))
               (or_fallback "" (value <$> byId d !! (kind +:+ "-ollama-model-select")))
               (or_fallback "" (value <$> byId d !! (kind +:+ "-online-model-name")))
               config)).
Proof.
  unfold FloatingSave.custom_model, custom_fields, querySelector_checked, bind.
  destruct (checkedRadio d !! (kind +:+ "-model")) as [v|]; [|done].
  destruct (bool_decide (v = "custom")); [|done].
  destruct (checkedRadio d !! (kind +:+ "-custom-type")) as [t|]; [|done].
  destruct (bool_decide (t = "ollama")); by rewrite value_or_run.
Qed.

Lemma collectGlobalConfig_run d :
  FloatingSave.collectGlobalConfig d = (d, Ret (floating_draft d)).
Proof.
  unfold FloatingSave.collectGlobalConfig, floating_draft, api_fields.
  unfold bind at 1. unfold read_opt at 1.
  destruct (default false (checked <$> byId d !! "use-online-api")).
  - unfold negb. unfold bind at 1. unfold bind at 1.
    rewrite value_or_run. unfold bind at 1. rewrite value_or_run.
    unfold bind at 1. rewrite value_or_run. unfold ret at 1.
    unfold bind. by rewrite !floating_custom_model_run.
  - unfold negb. unfold bind at 1. unfold bind at 1.
    rewrite value_or_run. unfold bind at 1. unfold getElementById.
    destruct (byId d !! "ollama-model-select"); unfold ret, bind;
      by rewrite !floating_custom_model_run.
Qed.

Lemma collectGlobalConfig_pure d :
  ∃ config, FloatingSave.collectGlobalConfig d = (d, Ret config).
Proof. eexists. apply collectGlobalConfig_run. Qed.

(** ** The floating save button *)

(** C9. The floating save button has two states, idle and saving (it
    carries the class [saving]).  A click in the saving state changes
    nothing and sends nothing; once the request has settled the button is
    idle again, whether the backend answered with success, with a failure,
    or the request was rejected; a click in the idle state puts the button
    in the saving state and sends exactly one request. *)
Theorem floating_save_two_states (d : document) (config : jsobject)
    (o : outcome) :
  (FloatingSave.saving d = true →
     FloatingSave.globalSaveButton_click d = (d, Ret None)) ∧
  FloatingSave.saving
    (exec (FloatingSave.globalSaveButton_settled config o) d) = false ∧
  (present "global-save-button" d → FloatingSave.saving d = false →
     let d' := exec FloatingSave.globalSaveButton_click d in
     FloatingSave.saving d' = true ∧
     ∃ draft, fetches d' =
                fetches d ++ [Request "/api/update_api_config" (JsonBody draft)]).
Proof.
  split; [|split].
  - intros Hs. unfold FloatingSave.globalSaveButton_click. cbv beta.
    by rewrite Hs.
  - unfold FloatingSave.globalSaveButton_settled.
    destruct (exec_settle_update o
      (λ data, if success data
               then (FloatingSave.updateModelDisplay config ;;;
                     FloatingSave.showSaveToast)
               else alert ("保存全局设置失败: " +:+ js_string (error data)))
      (λ error, alert ("保存全局设置出错: " +:+ error))
      "global-save-button"
      (λ e, set_classList (class_remove "saving" (classList e)) e) d)
      as [d' ->].
    unfold FloatingSave.saving. rewrite lookup_update.
    destruct (byId d' !! "global-save-button") as [e|]; simpl; [|done].
    apply class_remove_absent.
  - intros [e He] Hs d'. subst d'.
    unfold exec, FloatingSave.globalSaveButton_click. cbv beta. rewrite Hs.
    unfold bind, ret, fetch.
    set (d1 := fst (update "global-save-button"
      (λ e, set_classList (class_add "saving" (classList e)) e) d)).
    change (update "global-save-button"
      (λ e, set_classList (class_add "saving" (classList e)) e) d)
      with (d1, Ret tt : result unit).
    destruct (collectGlobalConfig_pure d1) as [draft ->]. simpl.
    split.
    + unfold FloatingSave.saving. simpl. rewrite lookup_alter_eq, He. simpl.
      apply class_add_present.
    + eauto.
Qed.

(** ** Navigation *)

Lemma byId_try_catch_console (m : M unit) (f : string → string) d :
  byId (exec (try_catch m (λ e, console (f e))) d) = byId (exec m d) ∧
  navItems (exec (try_catch m (λ e, console (f e))) d) = navItems (exec m d).
Proof.
  unfold exec, try_catch. destruct (m d) as [d' [[]|e]]; done.
Qed.

Lemma refreshOllamaModels_byId d :
  byId (exec Main.refreshOllamaModels d) = byId d ∨
  byId (exec Main.refreshOllamaModels d)
    = alter (busy "正在获取模型列表...") "refresh-models-btn" (byId d).
Proof.
  unfold exec, Main.refreshOllamaModels, read, bind.
  destruct (byId d !! "ollama-api-url") as [e|]; simpl; [|by left].
  destruct (is_empty (value e)); simpl; [by left|by right].
Qed.

Lemma refreshOllamaModels_navItems d :
  navItems (exec Main.refreshOllamaModels d) = navItems d.
Proof.
  unfold exec, Main.refreshOllamaModels, read, bind.
  destruct (byId d !! "ollama-api-url") as [e|]; simpl; [|done].
  by destruct (is_empty (value e)).
Qed.

(** The store after the first listener of a navigation item. *)
Lemma main_navItem_click_store d i this :
  navItems d !! i = Some this →
  let m := Main.hide_sections (byId d) in
  let d1 := exec (Main.navItem_click i) d in
  navItems d1 = Main.activate i (navItems d) ∧
  match m !! section_of this with
  | None => byId d1 = m
  | Some e =>
      let m' := <[section_of this := set_display "block" e]> m in
      byId d1 = m' ∨
      byId d1 = alter (busy "正在获取模型列表...") "refresh-models-btn" m'
  end.
Proof.
  intros Hi m d1. subst d1. unfold exec, Main.navItem_click. rewrite Hi.
  unfold bind, write, section_of. simpl. fold m.
  destruct (m !! (default "null" (data_section this) +:+ "-section"))
    as [e|] eqn:E; simpl; [|done].
  case_bool_decide; simpl; [|by auto].
  set (d2 := with_byId _ _).
  change ((Main.refreshOllamaModels d2).1) with (exec Main.refreshOllamaModels d2).
  rewrite refreshOllamaModels_navItems.
  split; [done|]. apply (refreshOllamaModels_byId d2).
Qed.

Lemma activate_lookup i l this :
  l !! i = Some this →
  data_section <$> Main.activate i l !! i = Some (data_section this).
Proof.
  intros H. unfold Main.activate.
  rewrite list_lookup_alter_eq, list_lookup_fmap, H. done.
Qed.

(** The store after both listeners. *)
Lemma nav_click_store d i this :
  navItems d !! i = Some this →
  let d1 := exec (Main.navItem_click i) d in
  byId (exec (Main.nav_click i) d) =
    match byId d1 !! "global-save-button" with
    | Some _ =>
        alter (set_display
                 (if bool_decide (data_section this = Some "api-config")
                  then "flex" else "none"))
              "global-save-button" (byId d1)
    | None => byId d1
    end.
Proof.
  intros Hi d1.
  destruct (main_navItem_click_store d i this Hi) as [Hnav _]. fold d1 in Hnav.
  pose proof (activate_lookup i _ _ Hi) as Hact. rewrite <- Hnav in Hact.
  destruct (byId_try_catch_console (Main.navItem_click i)
              (λ e, "Uncaught " +:+ e) d) as [Hb Hn].
  fold d1 in Hb, Hn.
  unfold Main.nav_click, dispatch.
  unfold exec at 1. unfold bind at 1.
  set (first := try_catch (Main.navItem_click i) _) in *.
  destruct (first d) as [d1' r] eqn:E1.
  assert (d1' = exec first d) as Hd1' by (unfold exec; by rewrite E1).
  assert (r = Ret tt) as ->.
  { subst first. unfold try_catch, console in E1.
    destruct (Main.navItem_click i d) as [dd [[]|e]]; by simplify_eq/=. }
  unfold bind at 1.
  unfold try_catch, FloatingSave.navItem_click.
  rewrite Hd1', Hb, Hn.
  destruct (byId d1 !! "global-save-button") as [b|]; [|by rewrite <- Hb].
  destruct (navItems d1 !! i) as [n|]; [|done].
  simpl in Hact. simplify_eq/=. rewrite Hact.
  case_bool_decide; simpl; by rewrite Hb.
Qed.

(** C8. After a click on a navigation item, on a page that has the
    floating save button, the button is displayed ([flex]) when the item's
    section identifier is [api-config] and hidden ([none]) for every other
    identifier. *)
Theorem floating_button_follows_section (d : document) (i : nat)
    (item : navItem)
    (Hitem : navItems d !! i = Some item)
    (Hbutton : present "global-save-button" d) :
  ∃ e, byId (exec (Main.nav_click i) d) !! "global-save-button" = Some e ∧
       display e = (if bool_decide (data_section item = Some "api-config")
                    then "flex" else "none") ∧
       (display e ≠ "none" ↔ data_section item = Some "api-config").
Proof.
  rewrite (nav_click_store d i item Hitem).
  assert (is_Some (byId (exec (Main.navItem_click i) d) !! "global-save-button"))
    as [b Hb].
  { destruct (main_navItem_click_store d i item Hitem) as [_ H].
    destruct Hbutton as [b0 Hb0].
    assert (is_Some (Main.hide_sections (byId d) !! "global-save-button")) as Hm.
    { unfold Main.hide_sections. rewrite lookup_fmap, Hb0. by eexists. }
    destruct (Main.hide_sections (byId d) !! section_of item) as [e|].
    - destruct H as [-> | ->].
      + rewrite lookup_insert. case_decide; [by eexists|done].
      + rewrite lookup_alter_ne by done.
        rewrite lookup_insert. case_decide; [by eexists|done].
    - by rewrite H. }
  rewrite Hb, lookup_alter_eq, Hb. simpl.
  eexists; split; [done|]. split; [done|].
  case_bool_decide; split; intros; done.
Qed.

Lemma box_of_hide_sections m id :
  box_of <$> Main.hide_sections m !! id =
  (λ e, (classList e,
         if class_contains "content-section" (classList e)
         then "none" else display e)) <$> m !! id.
Proof.
  unfold Main.hide_sections. rewrite lookup_fmap.
  destruct (m !! id) as [e|]; simpl; [|done].
  by destruct (class_contains "content-section" (classList e)).
Qed.

(** The boxes after the first listener, when the section exists. *)
Lemma main_navItem_click_boxes d i this e0 id :
  navItems d !! i = Some this →
  byId d !! section_of this = Some e0 →
  box_of <$> byId (exec (Main.navItem_click i) d) !! id =
  if decide (section_of this = id) then Some (classList e0, "block")
  else box_of <$> Main.hide_sections (byId d) !! id.
Proof.
  intros Hi He0.
  destruct (main_navItem_click_store d i this Hi) as [_ H].
  assert (∃ e1, Main.hide_sections (byId d) !! section_of this = Some e1
                ∧ classList e1 = classList e0) as (e1 & He1 & Hc).
  { unfold Main.hide_sections. rewrite lookup_fmap, He0. simpl.
    destruct (class_contains "content-section" (classList e0));
      eexists; split; done. }
  rewrite He1 in H. simpl in H.
  assert (∀ m : gmap string element,
            box_of <$> alter (busy "正在获取模型列表...") "refresh-models-btn" m !! id
            = box_of <$> m !! id) as Hbusy.
  { intros m. rewrite lookup_alter. case_decide; [|done]. subst.
    by destruct (m !! "refresh-models-btn"). }
  destruct H as [-> | ->]; rewrite ?Hbusy, lookup_insert;
    case_decide; simpl; unfold box_of; simpl; by rewrite ?Hc.
Qed.

(** C7. After a click on a navigation item whose section
    ([data-section] suffixed with [-section]) is one of the content
    sections of the page, that section is displayed ([block]) and it is the
    only content section whose display is not [none]. *)
Theorem nav_click_shows_one_section (d : document) (i : nat)
    (item : navItem)
    (Hitem : navItems d !! i = Some item)
    (Htarget : ∃ e, byId d !! section_of item = Some e ∧
                    "content-section" ∈ classList e)
    (Hfloat : ∀ e, byId d !! "global-save-button" = Some e →
                   "content-section" ∉ classList e) :
  let d' := exec (Main.nav_click i) d in
  (∃ e, byId d' !! section_of item = Some e ∧
        "content-section" ∈ classList e ∧ display e = "block") ∧
  (∀ id e, byId d' !! id = Some e → "content-section" ∈ classList e →
           (display e ≠ "none" ↔ id = section_of item)).
Proof.
  intros d'. destruct Htarget as (e0 & He0 & Hc0).
  pose proof (λ id, main_navItem_click_boxes d i item e0 id Hitem He0) as Hbox.
  (* the classes and the display of a content section after both listeners *)
  assert (∀ id e, byId d' !! id = Some e → "content-section" ∈ classList e →
            box_of <$> byId (exec (Main.navItem_click i) d) !! id
            = Some (box_of e)) as Hsame.
  { intros id e He Hc. subst d'. rewrite (nav_click_store d i item Hitem) in He.
    destruct (decide (id = "global-save-button")) as [->|Hne].
    - exfalso.
      destruct (byId (exec (Main.navItem_click i) d) !! "global-save-button")
        as [b|] eqn:Eb.
      + rewrite lookup_alter_eq, Eb in He. simplify_eq/=.
        pose proof (Hbox "global-save-button") as Hb. rewrite Eb in Hb.
        case_decide as Hd.
        * rewrite <- Hd in Hfloat. apply (Hfloat e0 He0 Hc0).
        * rewrite box_of_hide_sections in Hb.
          destruct (byId d !! "global-save-button") as [b0|] eqn:Eb0;
            simplify_eq/=.
          unfold box_of in Hb. injection Hb as Hcl _.
          apply (Hfloat b0 eq_refl). by rewrite <- Hcl.
      + rewrite Eb in He. done.
    - destruct (byId (exec (Main.navItem_click i) d) !! "global-save-button");
        [rewrite lookup_alter_ne in He by done|]; by rewrite He. }
  split.
  - pose proof (Hbox (section_of item)) as Hb. rewrite decide_True in Hb by done.
    destruct (byId (exec (Main.navItem_click i) d) !! section_of item)
      as [e1|] eqn:E1; simplify_eq/=.
    subst d'. rewrite (nav_click_store d i item Hitem).
    assert (section_of item ≠ "global-save-button") as Hne.
    { intros Heq. rewrite Heq in He0. by apply (Hfloat e0). }
    destruct (byId (exec (Main.navItem_click i) d) !! "global-save-button");
      [rewrite lookup_alter_ne by done|];
      rewrite E1; eexists; split; try done; unfold box_of in Hb;
      injection Hb as Hcl Hdisp; by rewrite Hcl.
  - intros id e He Hc. pose proof (Hsame id e He Hc) as Hs.
    rewrite Hbox in Hs. case_decide as Hd.
    + unfold box_of in Hs. simplify_eq/=. split; [done|]. intros _.
      by match goal with H : "block" = _ |- _ => rewrite <- H end.
    + rewrite box_of_hide_sections in Hs.
      destruct (byId d !! id) as [e'|]; simplify_eq/=.
      unfold box_of in Hs. simplify_eq/=.
      assert (class_contains "content-section" (classList e') = true) as Hcc.
      { apply bool_decide_eq_true.
        by match goal with H : classList e' = _ |- _ => rewrite H end. }
      rewrite Hcc in *. split; [|done].
      intros Hn. exfalso. apply Hn. congruence.
Qed.

(** ** Upload *)

Example endsWith_txt : endsWith "红楼梦.txt" ".txt" = true.
Proof. reflexivity. Qed.
Example endsWith_upper : endsWith "novel.TXT" ".txt" = false.
Proof. reflexivity. Qed.
Example endsWith_short : endsWith "txt" ".txt" = false.
Proof. reflexivity. Qed.
Example endsWith_middle : endsWith "a.txt.pdf" ".txt" = false.
Proof. reflexivity. Qed.

(** [endsWith] is the suffix test. *)
Lemma substring_whole s : String.substring 0 (String.length s) s = s.
Proof. induction s; simpl; [done|]. by rewrite IHs. Qed.

Lemma substring_after_prefix p s :
  String.substring (String.length p) (String.length s) (p +:+ s) = s.
Proof. induction p; simpl; [apply substring_whole|done]. Qed.

Lemma string_length_append p s :
  String.length (p +:+ s) = (String.length p + String.length s)%nat.
Proof. induction p; simpl; [done|]. by rewrite IHp. Qed.

Lemma substring_is_suffix s : ∀ n k,
  (n + k = String.length s)%nat → ∃ p, s = p +:+ String.substring n k s.
Proof.
  induction s as [|a s IH]; intros n k H; simpl in *.
  - destruct n, k; try done. by exists "".
  - destruct n as [|n].
    + simpl in H. subst k. exists "". simpl. by rewrite substring_whole.
    + destruct (IH n k) as [p Hp]; [lia|]. exists (String a p).
      change (String a s = String a (p +:+ String.substring n k s)).
      by f_equal.
Qed.

Lemma endsWith_spec s suffix :
  endsWith s suffix = true ↔ ∃ p, s = p +:+ suffix.
Proof.
  unfold endsWith. rewrite andb_true_iff, Nat.leb_le, String.eqb_eq. split.
  - intros [Hle Hsub].
    destruct (substring_is_suffix s (String.length s - String.length suffix)
                (String.length suffix)) as [p Hp]; [lia|].
    exists p. by rewrite Hsub in Hp.
  - intros [p ->]. rewrite string_length_append. split; [lia|].
    replace (String.length p + String.length suffix - String.length suffix)%nat
      with (String.length p) by lia.
    apply substring_after_prefix.
Qed.

(** C10. A submission of the upload form sends a request only when a file
    is selected and its name ends with [.txt], and the request is then the
    one to [/upload_novel].  On a page that has the file and title inputs,
    a submission without a file, or with a file of another name, shows one
    alert and does nothing else: no request is sent and no element
    changes, so a hidden processing card stays hidden. *)
Theorem upload_only_txt (d : document) (file title : element)
    (Hfile : byId d !! "novel-file" = Some file)
    (Htitle : byId d !! "novel-title" = Some title) :
  let d' := exec Main.novelUploadForm_submit d in
  (fetches d' ≠ fetches d →
     ∃ name, head (files file) = Some name ∧ endsWith name ".txt" = true ∧
             fetches d' = fetches d ++
               [Request "/upload_novel"
                  (FormBody [("novel_file", name);
                             ("novel_title", value title)])]) ∧
  (head (files file) = None ∨
   (∃ name, head (files file) = Some name ∧ endsWith name ".txt" = false) →
     ∃ msg, alerts d' = alerts d ++ [msg] ∧
            fetches d' = fetches d ∧ byId d' = byId d ∧
            display <$> byId d' !! "processing-card"
              = display <$> byId d !! "processing-card").
Proof.
  intros d'. subst d'.
  unfold exec, Main.novelUploadForm_submit, read, bind.
  rewrite Hfile, Htitle. simpl.
  destruct (head (files file)) as [name|] eqn:Ehead; simpl.
  - destruct (endsWith name ".txt") eqn:Eends; simpl.
    + split.
      * unfold write.
        (* without the card the listener throws before it sends *)
        destruct (byId d !! "processing-card"); simpl; [|done].
        intros _. by exists name.
      * intros [?|(n & ? & ?)]; [done|]. simplify_eq. congruence.
    + split; [intros H; by destruct H|].
      intros _. eexists. done.
  - split; [intros H; by destruct H|].
    intros _. eexists. done.
Qed.
(** ** Starting the journey *)

(** X28. On a page that has the three elements the success branch names
    (the initializing card, [narrative-card] and the transcript), the chain
    of the start button hides the initializing card, shows [narrative-card]
    and appends the system entry with the first lines to the end of the
    transcript, without any alert. *)
Lemma start_narrative_with_card (d : document) (text : string)
    (init card history : element)
    (Hinit : byId d !! "initializing-narrative-card" = Some init)
    (Hcard : byId d !! "narrative-card" = Some card)
    (Hhistory : byId d !! "narrative-history" = Some history) :
  let d' := exec (Main.startNarrativeBtn_settled (started text)) d in
  byId d' !! "initializing-narrative-card" = Some (set_display "none" init) ∧
  byId d' !! "narrative-card" = Some (set_display "flex" card) ∧
  children <$> byId d' !! "narrative-history"
    = Some (children history ++ [Main.message "ai-message" "系统" text]) ∧
  alerts d' = alerts d.
Proof.
  intros d'. subst d'.
  unfold exec, Main.startNarrativeBtn_settled, started.
  erewrite settle_fulfilled_ret; cycle 1.
  { cbn [success initial_narrative js_string default].
    erewrite bind_run by (by apply write_run).
    erewrite bind_run.
    2:{ apply write_run. cbn [byId with_byId].
        lookups. apply Hcard. }
    unfold Main.appendChild. apply write_run. cbn [byId with_byId].
    lookups. apply Hhistory. }
  rewrite try_finally_ret_tt. cbn [fst ret byId with_byId alerts with_alerts].
  lookups. done.
Qed.

(** C1. On the page the template serves, whatever the server state, a
    successful [/start_narrative] response does not reach the transcript:
    the page has no element [narrative-card] (its narrative panel is
    [narrative-view]), so the success branch throws right after hiding the
    initializing card; the [catch] callback reports the error and restores
    the button.  The transcript and the display of the narrative panel are
    what they were. *)
Theorem start_narrative_on_served_page (s : app_state) (text : string) :
  let d := exec Main.startNarrativeBtn_click (Template.index_html s) in
  let d' := exec (Main.startNarrativeBtn_settled (started text)) d in
  byId d' !! "narrative-card" = None ∧
  children <$> byId d' !! "narrative-history"
    = children <$> byId (Template.index_html s) !! "narrative-history" ∧
  display <$> byId d' !! "narrative-view"
    = display <$> byId (Template.index_html s) !! "narrative-view" ∧
  display <$> byId d' !! "initializing-narrative-card" = Some "none" ∧
  alerts d' = ["初始化叙事出错: " +:+ null_read "style"] ∧
  button_is "start-narrative-btn" false "开始旅程" d'.
Proof.
  intros d d'. subst d d'.
  repeat split; try (vm_compute; reflexivity).
  eexists. split; [vm_compute; reflexivity|]. split; reflexivity.
Qed.

(** ** What a refused request shows *)

(** Unfolds a promise chain down to its callbacks. *)
Ltac chain handler :=
  unfold exec, handler, settle, try_finally, try_catch; cbv beta.

Section Refused.

Variables (data : response) (err : string).
Hypothesis Hfail : success data = false.
Hypothesis Herr : error data = Some err.

Lemma refused_config config d :
  alerts (exec (Main.apiConfigForm_settled config (Fulfilled data)) d)
  = alerts d ++ ["保存API配置失败: " +:+ err].
Proof. chain Main.apiConfigForm_settled. by rewrite Hfail, Herr. Qed.

Lemma refused_upload d card :
  byId d !! "processing-card" = Some card →
  alerts (exec (Main.novelUploadForm_settled (Fulfilled data)) d)
  = alerts d ++ ["处理小说失败: " +:+ err].
Proof.
  intros Hcard. chain Main.novelUploadForm_settled. rewrite Hfail, Herr.
  erewrite bind_run by (by apply write_run). reflexivity.
Qed.

Lemma refused_start d :
  alerts (exec (Main.startNarrativeBtn_settled (Fulfilled data)) d)
  = alerts d ++ ["初始化叙事失败: " +:+ err].
Proof. chain Main.startNarrativeBtn_settled. by rewrite Hfail, Herr. Qed.

Lemma refused_send d :
  alerts (exec (Main.sendActionBtn_settled (Fulfilled data)) d)
  = alerts d ++ ["处理行动失败: " +:+ err].
Proof. chain Main.sendActionBtn_settled. by rewrite Hfail, Herr. Qed.

Lemma refused_save d :
  alerts (exec (Main.saveGameBtn_settled (Fulfilled data)) d)
  = alerts d ++ ["保存游戏失败: " +:+ err].
Proof. chain Main.saveGameBtn_settled. by rewrite Hfail, Herr. Qed.

Lemma refused_load i d :
  alerts (exec (Main.loadChatBtn_settled i (Fulfilled data)) d)
  = alerts d ++ ["加载历史对话失败: " +:+ err].
Proof. chain Main.loadChatBtn_settled. by rewrite Hfail, Herr. Qed.

Lemma refused_delete i d :
  alerts (exec (Main.deleteChatBtn_settled i (Fulfilled data)) d)
  = alerts d ++ ["删除历史对话失败: " +:+ err].
Proof. chain Main.deleteChatBtn_settled. by rewrite Hfail, Herr. Qed.

Lemma refused_floating config d :
  alerts (exec (FloatingSave.globalSaveButton_settled config (Fulfilled data)) d)
  = alerts d ++ ["保存全局设置失败: " +:+ err].
Proof. chain FloatingSave.globalSaveButton_settled. by rewrite Hfail, Herr. Qed.

Lemma refused_test d result :
  byId d !! "test-result" = Some result →
  let d' := exec (Main.testApiBtn_settled (Fulfilled data)) d in
  textContent <$> byId d' !! "test-result" = Some ("测试失败: " +:+ err) ∧
  alerts d' = alerts d.
Proof.
  intros Hresult. chain Main.testApiBtn_settled. rewrite Hfail, Herr.
  erewrite assign_run by done. cbn. by lookups.
Qed.

Lemma refused_settings d :
  alerts (exec (Main.settingsForm_settled (Fulfilled data)) d)
  = alerts d ++ ["保存设置失败"].
Proof. chain Main.settingsForm_settled. by rewrite Hfail. Qed.

Lemma refused_reset d :
  alerts (exec (Main.resetAppBtn_settled (Fulfilled data)) d)
  = alerts d ++ ["重置应用失败"].
Proof. chain Main.resetAppBtn_settled. by rewrite Hfail. Qed.

Lemma refused_refresh d :
  let d' := exec (Main.refreshOllamaModels_settled (Fulfilled data)) d in
  alerts d' = alerts d ∧
  consoleLog d' = consoleLog d ++ ["获取模型列表失败: " +:+ err].
Proof. chain Main.refreshOllamaModels_settled. by rewrite Hfail, Herr. Qed.

End Refused.

(** C5, as the scripts have it.  When the backend answers [success: false]
    with an error string, the handlers of the config form, the upload form,
    the start, send, save, load and delete buttons and the floating save
    button alert a fixed prefix followed by that string, and the test panel
    writes it after its prefix in the result line.  The settings form and
    the reset button alert a fixed sentence that does not carry the string,
    and the model refresh alerts nothing: it logs the string to the
    console. *)
Theorem refused_request_messages (d : document) (data : response)
    (err : string) (config : jsobject) (i : nat) (card result : element)
    (Hfail : success data = false)
    (Herr : error data = Some err)
    (Hcard : byId d !! "processing-card" = Some card)
    (Hresult : byId d !! "test-result" = Some result) :
  let o := Fulfilled data in
  alerts (exec (Main.apiConfigForm_settled config o) d)
    = alerts d ++ ["保存API配置失败: " +:+ err] ∧
  alerts (exec (Main.novelUploadForm_settled o) d)
    = alerts d ++ ["处理小说失败: " +:+ err] ∧
  alerts (exec (Main.startNarrativeBtn_settled o) d)
    = alerts d ++ ["初始化叙事失败: " +:+ err] ∧
  alerts (exec (Main.sendActionBtn_settled o) d)
    = alerts d ++ ["处理行动失败: " +:+ err] ∧
  alerts (exec (Main.saveGameBtn_settled o) d)
    = alerts d ++ ["保存游戏失败: " +:+ err] ∧
  alerts (exec (Main.loadChatBtn_settled i o) d)
    = alerts d ++ ["加载历史对话失败: " +:+ err] ∧
  alerts (exec (Main.deleteChatBtn_settled i o) d)
    = alerts d ++ ["删除历史对话失败: " +:+ err] ∧
  alerts (exec (FloatingSave.globalSaveButton_settled config o) d)
    = alerts d ++ ["保存全局设置失败: " +:+ err] ∧
  (textContent <$> byId (exec (Main.testApiBtn_settled o) d) !! "test-result"
     = Some ("测试失败: " +:+ err) ∧
   alerts (exec (Main.testApiBtn_settled o) d) = alerts d) ∧
  alerts (exec (Main.settingsForm_settled o) d) = alerts d ++ ["保存设置失败"] ∧
  alerts (exec (Main.resetAppBtn_settled o) d) = alerts d ++ ["重置应用失败"] ∧
  (alerts (exec (Main.refreshOllamaModels_settled o) d) = alerts d ∧
   consoleLog (exec (Main.refreshOllamaModels_settled o) d)
     = consoleLog d ++ ["获取模型列表失败: " +:+ err]).
Proof.
  intros o. subst o.
  split; [by apply refused_config|].
  split; [by eapply refused_upload|].
  split; [by apply refused_start|].
  split; [by apply refused_send|].
  split; [by apply refused_save|].
  split; [by apply refused_load|].
  split; [by apply refused_delete|].
  split; [by apply refused_floating|].
  split; [by eapply refused_test|].
  split; [by apply refused_settings|].
  split; [by apply refused_reset|].
  by apply refused_refresh.
Qed.

(** ** The fields of a draft *)

Lemma main_custom_model_run kind config d d' cfg :
  Main.custom_model kind config d = (d', Ret cfg) →
  d' = d ∧
  cfg = custom_fields kind
          (checkedRadio d !! (kind +:+ "-model"))
          (checkedRadio d !! (kind +:+ "-custom-type"))
          (default "" (value <$> byId d !! (kind +:+ "-ollama-model-select")))
          (default "" (value <$> byId d !! (kind +:+ "-online-model-name")))
          config.
Proof.
  unfold Main.custom_model, custom_fields, querySelector_checked, bind, read,
    throw, ret.
  destruct (checkedRadio d !! (kind +:+ "-model")) as [v|]; [|done].
  destruct (bool_decide (v = "custom")); [|by intros [= <- <-]].
  destruct (checkedRadio d !! (kind +:+ "-custom-type")) as [t|]; [|done].
  destruct (bool_decide (t = "ollama")).
  - destruct (byId d !! (kind +:+ "-ollama-model-select")); [|done].
    by intros [= <- <-].
  - destruct (byId d !! (kind +:+ "-online-model-name")); [|done].
    by intros [= <- <-].
Qed.

Lemma apiConfigForm_collect_run d d' cfg :
  Main.apiConfigForm_collect d = (d', Ret cfg) →
  d' = d ∧ cfg = main_draft d.
Proof.
  unfold Main.apiConfigForm_collect, main_draft, api_fields.
  unfold bind at 1. unfold read at 1.
  destruct (byId d !! "use-online-api") as [u|]; [|done].
  cbn [fmap option_fmap option_map default].
  destruct (checked u); unfold negb.
  - unfold bind at 1. unfold bind at 1. unfold read at 1.
    destruct (byId d !! "online-api-url") as [e1|]; [|done].
    unfold bind at 1. unfold read at 1.
    destruct (byId d !! "online-api-key") as [e2|]; [|done].
    unfold bind at 1. unfold read at 1.
    destruct (byId d !! "online-model-name") as [e3|]; [|done].
    unfold ret at 1. unfold bind at 1.
    destruct (Main.custom_model "analysis" _ d) as [d1 [c1|]] eqn:E1; [|done].
    apply main_custom_model_run in E1 as [-> ->].
    intros E2. apply main_custom_model_run in E2 as [-> ->]. done.
  - unfold bind at 1. unfold bind at 1. unfold read at 1.
    destruct (byId d !! "ollama-api-url") as [e1|]; [|done].
    unfold bind at 1. unfold getElementById at 1.
    destruct (byId d !! "ollama-model-select") as [e2|];
      unfold ret at 1; unfold bind at 1;
      (destruct (Main.custom_model "analysis" _ d) as [d1 [c1|]] eqn:E1;
         [|done]);
      apply main_custom_model_run in E1 as [-> ->];
      intros E2; apply main_custom_model_run in E2 as [-> ->]; done.
Qed.

(** The fields of a draft built from any readings. *)
Lemma draft_api_fields rw tw wo wn ra ta ao an online u sel ou ok om :
  let cfg := custom_fields "writing" rw tw wo wn
               (custom_fields "analysis" ra ta ao an
                  (api_fields online u sel ou ok om)) in
  get_field "use_online_api" cfg = Some (JBool online) ∧
  get_field "ollama_api_url" cfg
    = (if online then None else Some (JStr u)) ∧
  get_field "selected_ollama_model" cfg
    = (if online then None else JStr <$> sel) ∧
  get_field "online_api_url" cfg
    = (if online then Some (JStr ou) else None) ∧
  get_field "online_api_key" cfg
    = (if online then Some (JStr ok) else None) ∧
  get_field "online_api_model" cfg
    = (if online then Some (JStr om) else None).
Proof.
  unfold custom_fields, api_fields.
  destruct rw as [rw|]; [destruct (bool_decide (rw = "custom"));
    [destruct tw as [tw|]; [destruct (bool_decide (tw = "ollama"))|]|]|];
  (destruct ra as [ra|]; [destruct (bool_decide (ra = "custom"));
    [destruct ta as [ta|]; [destruct (bool_decide (ta = "ollama"))|]|]|]);
  destruct online; destruct sel; vm_compute; done.
Qed.

Lemma draft_model_fields rw tw wo wn ra ta ao an online u sel ou ok om :
  let cfg := custom_fields "writing" rw tw wo wn
               (custom_fields "analysis" ra ta ao an
                  (api_fields online u sel ou ok om)) in
  get_field "analysis_model_name" cfg = JStr <$> ra ∧
  get_field "writing_model_name" cfg = JStr <$> rw ∧
  has_field "analysis_custom_ollama_model" cfg
    = bool_decide (ra = Some "custom") && bool_decide (ta = Some "ollama") ∧
  has_field "analysis_custom_online_model" cfg
    = bool_decide (ra = Some "custom") && bool_decide (is_Some ta)
      && negb (bool_decide (ta = Some "ollama")) ∧
  has_field "writing_custom_ollama_model" cfg
    = bool_decide (rw = Some "custom") && bool_decide (tw = Some "ollama") ∧
  has_field "writing_custom_online_model" cfg
    = bool_decide (rw = Some "custom") && bool_decide (is_Some tw)
      && negb (bool_decide (tw = Some "ollama")).
Proof.
  unfold custom_fields, api_fields.
  assert (∀ s t : string, bool_decide (Some s = Some t) = bool_decide (s = t))
    as Hsome by (intros; apply bool_decide_ext; naive_solver).
  rewrite ?Hsome.
  destruct rw as [rw|]; [rewrite ?Hsome; destruct (bool_decide (rw = "custom"));
    [destruct tw as [tw|];
     [rewrite ?Hsome; destruct (bool_decide (tw = "ollama"))|]|]|];
  (destruct ra as [ra|]; [rewrite ?Hsome; destruct (bool_decide (ra = "custom"));
    [destruct ta as [ta|];
     [rewrite ?Hsome; destruct (bool_decide (ta = "ollama"))|]|]|]);
  destruct online; destruct sel; vm_compute; done.
Qed.

Lemma has_field_get k cfg v : get_field k cfg = Some v → has_field k cfg = true.
Proof. intros H. unfold has_field. rewrite H. by apply bool_decide_eq_true. Qed.

Lemma has_field_none k cfg : get_field k cfg = None → has_field k cfg = false.
Proof.
  intros H. unfold has_field. rewrite H. apply bool_decide_eq_false.
  by intros [? ?].
Qed.

Lemma draft_has_branches d rw tw wo wn ra ta ao an online u ou ok om :
  rw = checkedRadio d !! "writing-model" →
  tw = checkedRadio d !! "writing-custom-type" →
  ra = checkedRadio d !! "analysis-model" →
  ta = checkedRadio d !! "analysis-custom-type" →
  draft_branches d
    (custom_fields "writing" rw tw wo wn
       (custom_fields "analysis" ra ta ao an
          (api_fields online u (value <$> byId d !! "ollama-model-select")
             ou ok om))).
Proof.
  intros Hrw Htw Hra Hta.
  pose proof (draft_api_fields rw tw wo wn ra ta ao an online u
                (value <$> byId d !! "ollama-model-select") ou ok om)
    as (Huse & H1 & H2 & H3 & H4 & H5).
  pose proof (draft_model_fields rw tw wo wn ra ta ao an online u
                (value <$> byId d !! "ollama-model-select") ou ok om)
    as (_ & _ & A1 & A2 & W1 & W2).
  cbv zeta in *. set (cfg := custom_fields _ _ _ _ _ _) in *.
  assert (has_field "ollama_api_url" cfg = negb online) as F1.
  { destruct online; [by apply has_field_none|by eapply has_field_get]. }
  assert (has_field "selected_ollama_model" cfg
          = negb online && bool_decide (present "ollama-model-select" d)) as F2.
  { unfold present. destruct online; simpl; [by apply has_field_none|].
    destruct (byId d !! "ollama-model-select"); simpl in H2.
    - rewrite (has_field_get _ _ _ H2). symmetry. by apply bool_decide_eq_true.
    - rewrite (has_field_none _ _ H2). symmetry. apply bool_decide_eq_false.
      by intros [? ?]. }
  assert (has_field "online_api_url" cfg = online) as F3.
  { destruct online; [by eapply has_field_get|by apply has_field_none]. }
  assert (has_field "online_api_key" cfg = online) as F4.
  { destruct online; [by eapply has_field_get|by apply has_field_none]. }
  assert (has_field "online_api_model" cfg = online) as F5.
  { destruct online; [by eapply has_field_get|by apply has_field_none]. }
  exists online. split; [done|]. do 5 (split; [done|]).
  split.
  { unfold ollama_branch, online_branch. rewrite F1, F3.
    destruct online; simpl; [done|]. by rewrite andb_false_r. }
  unfold kind_branches. cbv [String.append].
  rewrite <- Hra, <- Hta, <- Hrw, <- Htw. rewrite A1, A2, W1, W2.
  split.
  - split; [done|]. split; [done|].
    destruct (bool_decide (ra = Some "custom")),
      (bool_decide (ta = Some "ollama")), (bool_decide (is_Some ta)); done.
  - split; [done|]. split; [done|].
    destruct (bool_decide (rw = Some "custom")),
      (bool_decide (tw = Some "ollama")), (bool_decide (is_Some tw)); done.
Qed.

(** C6, as the collectors have it.  In every draft, of the form's
    collector when it completes and of the floating button's collector
    always, [ollama_api_url] is present exactly when [use_online_api] is
    false, [selected_ollama_model] exactly when it is false and the page
    has the element [ollama-model-select], and the three online fields
    exactly when it is true; the two branches are never both there.  For
    each of analysis and writing, the custom Ollama field is present
    exactly when the model is [custom] and the checked custom type is
    [ollama], the custom online field exactly when the model is [custom]
    and another custom type is checked, and never both. *)
Theorem draft_branches_follow_flag (d : document) :
  (∀ cfg, outcome_of Main.apiConfigForm_collect d = Ret cfg →
          draft_branches d cfg) ∧
  (∃ cfg, outcome_of FloatingSave.collectGlobalConfig d = Ret cfg ∧
          draft_branches d cfg).
Proof.
  split.
  - intros cfg H. unfold outcome_of in H.
    destruct (Main.apiConfigForm_collect d) as [d' r] eqn:E.
    simpl in H. subst r. apply apiConfigForm_collect_run in E as [_ ->].
    by apply draft_has_branches.
  - exists (floating_draft d). unfold outcome_of.
    rewrite collectGlobalConfig_run. split; [done|].
    by apply draft_has_branches.
Qed.

(** C4, as the floating button's collector has it.  On every page
    [collectGlobalConfig] completes without throwing and leaves the page as
    it is.  A missing [use-online-api] reads as [false]; a missing or empty
    online URL, key or model name reads as the empty string; a missing or
    empty [ollama-api-url] reads as the address
    [http://127.0.0.1:11434]; with no checked model radio the model name is
    left out of the draft. *)
Theorem collectGlobalConfig_total (d : document) :
  ∃ cfg,
    FloatingSave.collectGlobalConfig d = (d, Ret cfg) ∧
    let online := default false (checked <$> byId d !! "use-online-api") in
    get_field "use_online_api" cfg = Some (JBool online) ∧
    get_field "ollama_api_url" cfg
      = (if online then None
         else Some (JStr (or_fallback "http://127.0.0.1:11434"
                            (value <$> byId d !! "ollama-api-url")))) ∧
    get_field "online_api_url" cfg
      = (if online
         then Some (JStr (or_fallback "" (value <$> byId d !! "online-api-url")))
         else None) ∧
    get_field "online_api_key" cfg
      = (if online
         then Some (JStr (or_fallback "" (value <$> byId d !! "online-api-key")))
         else None) ∧
    get_field "online_api_model" cfg
      = (if online
         then Some (JStr (or_fallback "" (value <$> byId d !! "online-model-name")))
         else None) ∧
    get_field "analysis_model_name" cfg
      = JStr <$> checkedRadio d !! "analysis-model" ∧
    get_field "writing_model_name" cfg
      = JStr <$> checkedRadio d !! "writing-model".
Proof.
  exists (floating_draft d). split; [apply collectGlobalConfig_run|].
  intros online. unfold floating_draft. fold online.
  match goal with
  | |- context [custom_fields "writing" ?rw ?tw ?wo ?wn
                  (custom_fields "analysis" ?ra ?ta ?ao ?an
                     (api_fields ?o ?u ?sel ?ou ?ok ?om))] =>
      pose proof (draft_api_fields rw tw wo wn ra ta ao an o u sel ou ok om)
        as (Huse & H1 & _ & H3 & H4 & H5);
      pose proof (draft_model_fields rw tw wo wn ra ta ao an o u sel ou ok om)
        as (A & W & _)
  end.
  done.
Qed.

(** The claim as the specification has it fails on the empty page: the
    form's collector throws on the first missing element, and the floating
    button's collector puts the default address, not the empty string, in
    [ollama_api_url]. *)
Lemma collectors_on_blank_page :
  outcome_of Main.apiConfigForm_collect blank = Throw (null_read "checked") ∧
  ∃ cfg, outcome_of FloatingSave.collectGlobalConfig blank = Ret cfg ∧
         get_field "ollama_api_url" cfg ≠ Some (JStr "").
Proof.
  split; [reflexivity|].
  eexists. split; [vm_compute; reflexivity|]. vm_compute. discriminate.
Qed.

(** On the served page, with the local API selected, both collectors give a
    draft with [ollama_api_url] but without [selected_ollama_model]: the
    page has no element [ollama-model-select]. *)
Lemma draft_without_selected_model :
  ∃ cfg, outcome_of Main.apiConfigForm_collect waiting_page = Ret cfg ∧
         outcome_of FloatingSave.collectGlobalConfig waiting_page = Ret cfg ∧
         get_field "use_online_api" cfg = Some (JBool false) ∧
         has_field "selected_ollama_model" cfg = false ∧
         ¬ branch_follows_flag cfg.
Proof.
  eexists. split; [vm_compute; reflexivity|].
  split; [vm_compute; reflexivity|].
  split; [vm_compute; reflexivity|].
  split; [vm_compute; reflexivity|].
  intros (online & Hflag & Hollama & _).
  vm_compute in Hflag. injection Hflag as <-.
  vm_compute in Hollama. discriminate.
Qed.

(** ** Handlers remove nothing *)

Create HintDb keeps.

Lemma keeps_ret {A} (a : A) : keeps (ret a).
Proof. by intros d. Qed.

Lemma keeps_throw {A} e : keeps (@throw A e).
Proof. by intros d. Qed.

Lemma keeps_bind {A B} (m : M A) (k : A → M B) :
  keeps m → (∀ a, keeps (k a)) → keeps (bind m k).
Proof.
  intros Hm Hk d. unfold bind. specialize (Hm d).
  destruct (m d) as [d1 [a|e]]; simpl in *; [|done].
  destruct (Hk a d1) as [H1 H2]. destruct Hm as [H3 H4].
  split; [auto|congruence].
Qed.

Lemma keeps_try_catch {A} (m : M A) h :
  keeps m → (∀ e, keeps (h e)) → keeps (try_catch m h).
Proof.
  intros Hm Hh d. unfold try_catch. specialize (Hm d).
  destruct (m d) as [d1 [a|e]]; simpl in *; [done|].
  destruct (Hh e d1) as [H1 H2]. destruct Hm as [H3 H4].
  split; [auto|congruence].
Qed.

Lemma keeps_try_finally {A} (m : M A) f :
  keeps m → keeps f → keeps (try_finally m f).
Proof.
  intros Hm Hf d. unfold try_finally. specialize (Hm d).
  destruct (m d) as [d1 r]. specialize (Hf d1).
  destruct (f d1) as [d2 [[]|e]]; simpl in *;
    destruct Hm, Hf; (split; [auto|congruence]).
Qed.

Lemma keeps_settle o onData onError onFinally :
  (∀ data, keeps (onData data)) → (∀ e, keeps (onError e)) →
  keeps onFinally → keeps (settle o onData onError onFinally).
Proof.
  intros. unfold settle. apply keeps_try_finally; [|done].
  apply keeps_try_catch; [|done]. destruct o; [done|apply keeps_throw].
Qed.

Lemma keeps_if {A} (b : bool) (m1 m2 : M A) :
  keeps m1 → keeps m2 → keeps (if b then m1 else m2).
Proof. by destruct b. Qed.

Lemma present_insert id id' e e' (m : gmap string element) :
  m !! id' = Some e' → is_Some (m !! id) → is_Some (<[id' := e]> m !! id).
Proof.
  intros H1 H2. rewrite lookup_insert. by case_decide; [eexists|].
Qed.

Lemma present_alter id id' f (m : gmap string element) :
  is_Some (m !! id) → is_Some (alter f id' m !! id).
Proof.
  intros [e He]. rewrite lookup_alter. case_decide; [|by eexists].
  subst. rewrite He. by eexists.
Qed.

Lemma keeps_write id prop f : keeps (write id prop f).
Proof.
  intros d. unfold write. destruct (byId d !! id) eqn:E; [|done].
  split; [|done]. intros id' H. by eapply present_insert.
Qed.

Lemma keeps_assign id prop f : keeps (assign id prop f).
Proof.
  intros d. unfold assign. destruct (byId d !! id) eqn:E; [|done].
  split; [|done]. intros id' H. by eapply present_insert.
Qed.

Lemma keeps_update id f : keeps (update id f).
Proof. intros d. split; [|done]. intros id' H. by apply present_alter. Qed.

Lemma keeps_read {A} id prop (f : element → A) : keeps (read id prop f).
Proof. intros d. unfold read. by destruct (byId d !! id). Qed.

Lemma keeps_getElementById id : keeps (getElementById id).
Proof. by intros d. Qed.

Lemma keeps_alert msg : keeps (alert msg).
Proof. by intros d. Qed.

Lemma keeps_console msg : keeps (console msg).
Proof. by intros d. Qed.

Lemma keeps_fetch u b : keeps (fetch u b).
Proof. by intros d. Qed.

Lemma keeps_setTimeout t ms : keeps (setTimeout t ms).
Proof. by intros d. Qed.

Lemma keeps_reload : keeps Main.reload.
Proof. by intros d. Qed.

Lemma keeps_update_load_btn i f : keeps (Main.update_load_btn i f).
Proof. intros d. split; [done|]. simpl. by rewrite length_alter. Qed.

Lemma keeps_update_delete_btn i f : keeps (Main.update_delete_btn i f).
Proof. intros d. split; [done|]. simpl. by rewrite length_alter. Qed.

Lemma keeps_appendChild id c : keeps (Main.appendChild id c).
Proof. apply keeps_write. Qed.

#[global] Hint Resolve keeps_ret keeps_throw keeps_bind keeps_try_catch
  keeps_try_finally keeps_settle keeps_if keeps_write keeps_assign
  keeps_update keeps_read keeps_getElementById keeps_alert keeps_console
  keeps_fetch keeps_setTimeout keeps_reload keeps_update_load_btn
  keeps_update_delete_btn keeps_appendChild : keeps.

Lemma keeps_refill id ms : keeps (Main.refill id ms).
Proof.
  unfold Main.refill. apply keeps_bind; [auto with keeps|].
  intros [e|]; [|auto with keeps].
  apply keeps_bind; [auto with keeps|]. intros _.
  destruct ms; auto with keeps.
Qed.

Lemma keeps_refreshOllamaModels : keeps Main.refreshOllamaModels.
Proof.
  unfold Main.refreshOllamaModels. apply keeps_bind; [auto with keeps|].
  intros u. apply keeps_if; auto with keeps.
Qed.

Lemma keeps_main_navItem_click i : keeps (Main.navItem_click i).
Proof.
  intros d. unfold Main.navItem_click.
  destruct (navItems d !! i) as [this|]; [|done].
  set (d1 := with_byId Main.hide_sections (with_navItems (Main.activate i) d)).
  assert (keeps (write (default "null" (data_section this) +:+ "-section")
                   "style" (set_display "block") ;;;
                 if bool_decide (data_section this = Some "api-config")
                 then Main.refreshOllamaModels else ret tt)) as Hk.
  { apply keeps_bind; [auto with keeps|]. intros _.
    apply keeps_if; [apply keeps_refreshOllamaModels|auto with keeps]. }
  destruct (Hk d1) as [H1 H2]. split; [|by rewrite H2].
  intros id [e He]. apply H1. unfold present, d1, Main.hide_sections. simpl.
  rewrite lookup_fmap, He. by eexists.
Qed.

Lemma keeps_floating_navItem_click i : keeps (FloatingSave.navItem_click i).
Proof.
  intros d. unfold FloatingSave.navItem_click.
  destruct (byId d !! "global-save-button"); [|done].
  destruct (navItems d !! i); [|done].
  case_bool_decide; apply keeps_update.
Qed.

Lemma keeps_nav_click i : keeps (Main.nav_click i).
Proof.
  unfold Main.nav_click, dispatch.
  pose proof (keeps_main_navItem_click i).
  pose proof (keeps_floating_navItem_click i).
  auto 10 with keeps.
Qed.

#[global] Hint Resolve keeps_refill keeps_refreshOllamaModels keeps_nav_click
  : keeps.

Lemma keeps_settled_send o : keeps (Main.sendActionBtn_settled o).
Proof. unfold Main.sendActionBtn_settled. auto 10 with keeps. Qed.

Lemma keeps_settled_save o : keeps (Main.saveGameBtn_settled o).
Proof. unfold Main.saveGameBtn_settled. auto 10 with keeps. Qed.

Lemma keeps_settled_refresh o : keeps (Main.refreshOllamaModels_settled o).
Proof. unfold Main.refreshOllamaModels_settled. auto 10 with keeps. Qed.

Lemma keeps_settled_start o : keeps (Main.startNarrativeBtn_settled o).
Proof. unfold Main.startNarrativeBtn_settled. auto 10 with keeps. Qed.

Lemma keeps_settled_load i o : keeps (Main.loadChatBtn_settled i o).
Proof.
  unfold Main.loadChatBtn_settled. apply keeps_settle; auto with keeps.
  intros data. apply keeps_if; [|auto with keeps].
  apply keeps_bind; [|auto with keeps].
  intros d. destruct (Main.find_nav "home" (navItems d)); [|done].
  apply keeps_nav_click.
Qed.

Lemma keeps_settled_delete i o : keeps (Main.deleteChatBtn_settled i o).
Proof.
  unfold Main.deleteChatBtn_settled. apply keeps_settle; auto with keeps.
  intros data. apply keeps_if; [|auto with keeps].
  apply keeps_bind.
  - intros d. split; [done|]. simpl. by rewrite length_alter.
  - intros _ d. case_bool_decide; [|done].
    by destruct (chatHistoryList d).
Qed.

(** ** What the handlers leave alone *)

Create HintDb inv.

Section Inv.

Context (Q : gmap string element → list chatItem → Prop).

Lemma inv_same {A} (m : M A) :
  (∀ d, byId (m d).1 = byId d ∧ chatItems (m d).1 = chatItems d) → inv Q m.
Proof. intros H d HQ. destruct (H d) as [-> ->]. exact HQ. Qed.

Lemma inv_ret {A} (a : A) : inv Q (ret a).
Proof. intros d HQ. exact HQ. Qed.

Lemma inv_throw {A} e : inv Q (@throw A e).
Proof. intros d HQ. exact HQ. Qed.

Lemma inv_bind {A B} (m : M A) (k : A → M B) :
  inv Q m → (∀ a, inv Q (k a)) → inv Q (bind m k).
Proof.
  intros Hm Hk d HQ. unfold bind. specialize (Hm d HQ).
  destruct (m d) as [d1 [a|e]]; simpl in *; [|exact Hm].
  by apply Hk.
Qed.

Lemma inv_try_catch {A} (m : M A) h :
  inv Q m → (∀ e, inv Q (h e)) → inv Q (try_catch m h).
Proof.
  intros Hm Hh d HQ. unfold try_catch. specialize (Hm d HQ).
  destruct (m d) as [d1 [a|e]]; simpl in *; [exact Hm|].
  by apply Hh.
Qed.

Lemma inv_try_finally {A} (m : M A) f :
  inv Q m → inv Q f → inv Q (try_finally m f).
Proof.
  intros Hm Hf d HQ. unfold try_finally. specialize (Hm d HQ).
  destruct (m d) as [d1 r]. specialize (Hf d1 Hm).
  by destruct (f d1) as [d2 [[]|e]].
Qed.

Lemma inv_settle o onData onError onFinally :
  (∀ data, inv Q (onData data)) → (∀ e, inv Q (onError e)) →
  inv Q onFinally → inv Q (settle o onData onError onFinally).
Proof.
  intros. unfold settle. apply inv_try_finally; [|done].
  apply inv_try_catch; [|done]. destruct o; [done|apply inv_throw].
Qed.

Lemma inv_if {A} (b : bool) (m1 m2 : M A) :
  inv Q m1 → inv Q m2 → inv Q (if b then m1 else m2).
Proof. by destruct b. Qed.

Lemma inv_dispatch l1 l2 : inv Q l1 → inv Q l2 → inv Q (dispatch [l1; l2]).
Proof.
  intros H1 H2. unfold dispatch.
  apply inv_bind; [apply inv_try_catch; [done|by intros e d]|]. intros _.
  apply inv_bind; [apply inv_try_catch; [done|by intros e d]|]. intros _.
  apply inv_ret.
Qed.

Lemma inv_read {A} id prop (f : element → A) : inv Q (read id prop f).
Proof. apply inv_same. intros d. unfold read. by destruct (byId d !! id). Qed.

Lemma inv_read_opt {A} id (f : element → A) : inv Q (read_opt id f).
Proof. by apply inv_same. Qed.

Lemma inv_getElementById id : inv Q (getElementById id).
Proof. by apply inv_same. Qed.

Lemma inv_querySelector_checked name : inv Q (querySelector_checked name).
Proof. by apply inv_same. Qed.

Lemma inv_alert msg : inv Q (alert msg).
Proof. by apply inv_same. Qed.

Lemma inv_console msg : inv Q (console msg).
Proof. by apply inv_same. Qed.

Lemma inv_fetch u b : inv Q (fetch u b).
Proof. by apply inv_same. Qed.

Lemma inv_setTimeout t ms : inv Q (setTimeout t ms).
Proof. by apply inv_same. Qed.

Lemma inv_reload : inv Q Main.reload.
Proof. by apply inv_same. Qed.

Lemma inv_main_updateModelDisplay config :
  inv Q (Main.updateModelDisplay config).
Proof.
  apply inv_same. intros d. unfold Main.updateModelDisplay.
  destruct (modelDisplay1 d) eqn:E1, (modelDisplay2 d) eqn:E2; simpl;
    rewrite ?E2; by split.
Qed.

Lemma inv_floating_updateModelDisplay config :
  inv Q (FloatingSave.updateModelDisplay config).
Proof.
  apply inv_same. intros d. unfold FloatingSave.updateModelDisplay.
  destruct (modelDisplay1 d) eqn:E1, (modelDisplay2 d) eqn:E2; simpl;
    rewrite ?E2; by split.
Qed.

Lemma inv_collectGlobalConfig : inv Q FloatingSave.collectGlobalConfig.
Proof. apply inv_same. intros d. by rewrite collectGlobalConfig_run. Qed.

Lemma inv_main_custom_model kind config :
  inv Q (Main.custom_model kind config).
Proof.
  unfold Main.custom_model.
  apply inv_bind; [apply inv_querySelector_checked|].
  intros [v|]; [|apply inv_throw]. apply inv_if; [|apply inv_ret].
  apply inv_bind; [apply inv_querySelector_checked|].
  intros [t|]; [|apply inv_throw].
  apply inv_if; (apply inv_bind; [apply inv_read|intros; apply inv_ret]).
Qed.

Lemma inv_apiConfigForm_submit : inv Q Main.apiConfigForm_submit.
Proof.
  unfold Main.apiConfigForm_submit, Main.apiConfigForm_collect.
  apply inv_bind.
  2:{ intros config. apply inv_bind; [apply inv_fetch|intros; apply inv_ret]. }
  apply inv_bind; [apply inv_read|]. intros online.
  apply inv_bind.
  2:{ intros config. apply inv_bind; [apply inv_main_custom_model|].
      intros. apply inv_main_custom_model. }
  apply inv_if.
  - apply inv_bind; [apply inv_read|]. intros u.
    apply inv_bind; [apply inv_getElementById|].
    intros [e|]; apply inv_ret.
  - apply inv_bind; [apply inv_read|]. intros u.
    apply inv_bind; [apply inv_read|]. intros k.
    apply inv_bind; [apply inv_read|]. intros. apply inv_ret.
Qed.

(** Writes. *)
Lemma alter_as_insert (f : element → element) id e (m : gmap string element) :
  m !! id = Some e → alter f id m = <[id := f e]> m.
Proof.
  intros H. apply map_eq. intros k. rewrite lookup_alter, lookup_insert.
  case_decide; [|done]. subst. by rewrite H.
Qed.

Lemma alter_absent (f : element → element) id (m : gmap string element) :
  m !! id = None → alter f id m = m.
Proof.
  intros H. apply map_eq. intros k. rewrite lookup_alter.
  case_decide; [|done]. subst. by rewrite H.
Qed.

Lemma inv_write id prop f : closed_at Q id f → inv Q (write id prop f).
Proof.
  intros H d HQ. unfold write. destruct (byId d !! id) as [e|] eqn:E;
    [|exact HQ].
  simpl. by apply H.
Qed.

Lemma inv_assign id prop f : closed_at Q id f → inv Q (assign id prop f).
Proof.
  intros H d HQ. unfold assign. destruct (byId d !! id) as [e|] eqn:E;
    [|exact HQ].
  simpl. by apply H.
Qed.

Lemma inv_update id f : closed_at Q id f → inv Q (update id f).
Proof.
  intros H d HQ. unfold update. simpl.
  destruct (byId d !! id) as [e|] eqn:E.
  - rewrite (alter_as_insert f id e) by done. by apply H.
  - by rewrite alter_absent.
Qed.

Lemma inv_appendChild id c :
  closed_at Q id (λ e, set_children (children e ++ [c]) e) →
  inv Q (Main.appendChild id c).
Proof. apply inv_write. Qed.

Lemma inv_update_load_btn i f :
  chat_closed_at Q i (λ c, ChatItem (attached c) (f (load_btn c))
                                    (delete_btn c)) →
  inv Q (Main.update_load_btn i f).
Proof. intros H d HQ. by apply H. Qed.

Lemma inv_update_delete_btn i f :
  chat_closed_at Q i (λ c, ChatItem (attached c) (load_btn c)
                                    (f (delete_btn c))) →
  inv Q (Main.update_delete_btn i f).
Proof. intros H d HQ. by apply H. Qed.

(** The listeners that are not written with the primitives alone. *)
Lemma inv_refill id ms :
  (∀ l v, closed_at Q id (λ e, set_children l (set_value v e))) →
  inv Q (Main.refill id ms).
Proof.
  intros H. unfold Main.refill. apply inv_bind; [apply inv_getElementById|].
  intros [e|]; [|apply inv_ret].
  apply inv_bind; [apply inv_update, H|]. intros _.
  destruct ms; [apply inv_update, H|apply inv_throw].
Qed.

Lemma inv_refreshOllamaModels :
  closed_at Q "refresh-models-btn" (busy "正在获取模型列表...") →
  inv Q Main.refreshOllamaModels.
Proof.
  intros H. unfold Main.refreshOllamaModels.
  apply inv_bind; [apply inv_read|]. intros u.
  apply inv_if; [apply inv_console|].
  apply inv_bind; [by apply inv_update|]. intros _. apply inv_fetch.
Qed.

Lemma inv_main_navItem_click i :
  (∀ m c, Q m c → Q (Main.hide_sections m) c) →
  (∀ id, closed_at Q id (set_display "block")) →
  inv Q Main.refreshOllamaModels →
  inv Q (Main.navItem_click i).
Proof.
  intros Hhide Hshow Hrefresh d HQ. unfold Main.navItem_click.
  destruct (navItems d !! i) as [this|]; [|exact HQ].
  assert (inv Q (write (default "null" (data_section this) +:+ "-section")
                   "style" (set_display "block") ;;;
                 if bool_decide (data_section this = Some "api-config")
                 then Main.refreshOllamaModels else ret tt)) as Hk.
  { apply inv_bind; [apply inv_write, Hshow|]. intros _.
    apply inv_if; [done|apply inv_ret]. }
  apply Hk. simpl. by apply Hhide.
Qed.

Lemma inv_floating_navItem_click i :
  (∀ v, closed_at Q "global-save-button" (set_display v)) →
  inv Q (FloatingSave.navItem_click i).
Proof.
  intros H d HQ. unfold FloatingSave.navItem_click.
  destruct (byId d !! "global-save-button"); [|exact HQ].
  destruct (navItems d !! i); [|exact HQ].
  case_bool_decide; by apply inv_update.
Qed.

Lemma inv_nav_click i :
  (∀ m c, Q m c → Q (Main.hide_sections m) c) →
  (∀ id v, closed_at Q id (set_display v)) →
  inv Q Main.refreshOllamaModels →
  inv Q (Main.nav_click i).
Proof.
  intros Hhide Hshow Hrefresh. unfold Main.nav_click.
  apply inv_dispatch;
    [by apply inv_main_navItem_click|by apply inv_floating_navItem_click].
Qed.

Lemma inv_fileInput_change :
  (∀ t, closed_at Q "file-name-display" (set_textContent t)) →
  inv Q Main.fileInput_change.
Proof.
  intros H d HQ. unfold Main.fileInput_change.
  destruct (byId d !! "novel-file") as [this|]; [|exact HQ].
  destruct (byId d !! "file-name-display"); [|exact HQ].
  destruct (head (files this)); by apply inv_update.
Qed.

Lemma inv_radio_change this other show hide :
  (∀ id v, closed_at Q id (set_display v)) →
  inv Q (Main.radio_change this other show hide).
Proof.
  intros H d HQ. unfold Main.radio_change.
  destruct (byId d !! this) as [radio|]; [|exact HQ].
  destruct (byId d !! other); [|exact HQ].
  destruct (checked radio); [|exact HQ].
  apply (inv_bind (write show "style" (set_display "block"))
                  (λ _, write hide "style" (set_display "none")));
    [apply inv_write, H|intros _; apply inv_write, H|exact HQ].
Qed.

Lemma inv_radio_change_hide_first this other show hide :
  (∀ id v, closed_at Q id (set_display v)) →
  inv Q (Main.radio_change_hide_first this other show hide).
Proof.
  intros H d HQ. unfold Main.radio_change_hide_first.
  destruct (byId d !! this) as [radio|]; [|exact HQ].
  destruct (byId d !! other); [|exact HQ].
  destruct (checked radio); [|exact HQ].
  apply (inv_bind (write hide "style" (set_display "none"))
                  (λ _, write show "style" (set_display "block")));
    [apply inv_write, H|intros _; apply inv_write, H|exact HQ].
Qed.

Lemma inv_modelOption_change kind this :
  (∀ id v, closed_at Q id (set_display v)) →
  inv Q (Main.modelOption_change kind this).
Proof.
  intros H d HQ. unfold Main.modelOption_change.
  destruct (byId d !! this) as [option|]; [|exact HQ].
  destruct (byId d !! (kind +:+ "-custom-settings")); [|exact HQ].
  destruct (bool_decide (value option = "custom") && checked option);
    [by apply inv_update|].
  destruct (checked option); [by apply inv_update|exact HQ].
Qed.

Lemma inv_slider_input slider valueDisplay :
  (∀ t, closed_at Q valueDisplay (set_textContent t)) →
  inv Q (Main.slider_input slider valueDisplay).
Proof.
  intros H d HQ. unfold Main.slider_input.
  destruct (byId d !! "settings-form"); [|exact HQ].
  destruct (byId d !! slider); [|exact HQ].
  destruct (byId d !! valueDisplay); [by apply inv_update|exact HQ].
Qed.

Lemma inv_loadChatBtn_click i :
  chat_closed_at Q i (λ c, ChatItem (attached c)
                             (Main.btn_busy "加载中..." (load_btn c))
                             (delete_btn c)) →
  inv Q (Main.loadChatBtn_click i).
Proof.
  intros H d HQ. unfold Main.loadChatBtn_click.
  destruct (chatItems d !! i) as [item|]; [|exact HQ].
  destruct (Main.file_path_of (load_btn item)); [|exact HQ].
  by apply H.
Qed.

Lemma inv_deleteChatBtn_click i confirmed :
  chat_closed_at Q i (λ c, ChatItem (attached c) (load_btn c)
                             (Main.btn_busy "删除中..." (delete_btn c))) →
  inv Q (Main.deleteChatBtn_click i confirmed).
Proof.
  intros H d HQ. unfold Main.deleteChatBtn_click.
  destruct (chatItems d !! i) as [item|]; [|exact HQ].
  destruct (Main.file_path_of (delete_btn item)); [|exact HQ].
  destruct confirmed; [|exact HQ].
  by apply H.
Qed.

Lemma inv_loadChatBtn_settled i o :
  (∀ j, inv Q (Main.nav_click j)) →
  (∀ id v, closed_at Q id (set_display v)) →
  chat_closed_at Q i (λ c, ChatItem (attached c)
                             (Main.btn_idle "加载" (load_btn c))
                             (delete_btn c)) →
  inv Q (Main.loadChatBtn_settled i o).
Proof.
  intros Hnav Hshow Hidle. unfold Main.loadChatBtn_settled.
  apply inv_settle.
  - intros data. apply inv_if; [|apply inv_alert].
    apply inv_bind; [|intros _; apply inv_write, Hshow].
    intros d HQ. destruct (Main.find_nav "home" (navItems d)); [|exact HQ].
    by apply Hnav.
  - intros e. apply inv_alert.
  - by apply inv_update_load_btn.
Qed.

Lemma inv_deleteChatBtn_settled i o :
  (∀ data, o = Fulfilled data → success data = true →
     chat_closed_at Q i (λ c, ChatItem false (load_btn c) (delete_btn c))) →
  chat_closed_at Q i (λ c, ChatItem (attached c) (load_btn c)
                             (Main.btn_idle "删除" (delete_btn c))) →
  inv Q (Main.deleteChatBtn_settled i o).
Proof.
  intros Hdetach Hidle. unfold Main.deleteChatBtn_settled, settle.
  apply inv_try_finally; [|by apply inv_update_delete_btn].
  apply inv_try_catch; [|intros e; apply inv_alert].
  destruct o as [data|reason]; [|apply inv_throw].
  destruct (success data) eqn:Hok; [|apply inv_alert].
  apply inv_bind.
  - intros d HQ. by eapply Hdetach.
  - intros _ d HQ. case_bool_decide; [|exact HQ].
    by destruct (chatHistoryList d).
Qed.

Lemma inv_globalSaveButton_click :
  closed_at Q "global-save-button"
    (λ e, set_classList (class_add "saving" (classList e)) e) →
  inv Q FloatingSave.globalSaveButton_click.
Proof.
  intros H d HQ. unfold FloatingSave.globalSaveButton_click.
  destruct (FloatingSave.saving d); [exact HQ|].
  revert d HQ. apply inv_bind; [by apply inv_update|]. intros _.
  apply inv_bind; [apply inv_collectGlobalConfig|]. intros config.
  apply inv_bind; [apply inv_fetch|]. intros _. apply inv_ret.
Qed.

End Inv.

#[global] Hint Resolve inv_ret inv_throw inv_bind inv_try_catch
  inv_try_finally inv_settle inv_if inv_read inv_read_opt inv_getElementById
  inv_querySelector_checked inv_alert inv_console inv_fetch inv_setTimeout
  inv_reload inv_main_updateModelDisplay inv_floating_updateModelDisplay
  inv_collectGlobalConfig inv_main_custom_model inv_apiConfigForm_submit
  inv_write inv_assign inv_update inv_appendChild inv_update_load_btn
  inv_update_delete_btn inv_refill inv_refreshOllamaModels inv_nav_click
  inv_fileInput_change inv_radio_change inv_radio_change_hide_first
  inv_modelOption_change inv_slider_input inv_loadChatBtn_click
  inv_deleteChatBtn_click inv_loadChatBtn_settled inv_deleteChatBtn_settled
  inv_globalSaveButton_click : inv.

(** *** What an element shows *)

Lemma shows_button_is id dis text d :
  button_is id dis text d ↔ shows id (dis, text) (byId d) (chatItems d).
Proof.
  unfold button_is, shows, label_of. split.
  - intros (e & -> & <- & <-). reflexivity.
  - destruct (byId d !! id) as [e|]; simpl; [|done].
    intros [= <- <-]. by exists e.
Qed.

Lemma shows_closed_keep id v id' f :
  (∀ e, label_of (f e) = label_of e) → closed_at (shows id v) id' f.
Proof.
  intros H m c e He. unfold shows. rewrite lookup_insert.
  case_decide; [|done]. subst. rewrite He. simpl. by rewrite H.
Qed.

Lemma shows_closed_other id v id' f :
  id' ≠ id → closed_at (shows id v) id' f.
Proof.
  intros H m c e He. unfold shows. by rewrite lookup_insert_ne.
Qed.

Lemma shows_closed_set id v id' f :
  (∀ e, label_of (f e) = v) → closed_at (shows id v) id' f.
Proof.
  intros H m c e He. unfold shows. rewrite lookup_insert.
  case_decide; [|done]. simpl. by rewrite H.
Qed.

Lemma shows_hide_sections id v m c :
  shows id v m c → shows id v (Main.hide_sections m) c.
Proof.
  unfold shows, Main.hide_sections. rewrite lookup_fmap.
  destruct (m !! id) as [e|]; simpl; [|done].
  by destruct (class_contains "content-section" (classList e)).
Qed.

Lemma shows_chat_closed id v i g : chat_closed_at (shows id v) i g.
Proof. by intros m c. Qed.

(** Two ids that are written out are told apart by comparing them. *)
Ltac distinct_ids :=
  lazymatch goal with
  | |- ?a ≠ ?b =>
      let a' := eval vm_compute in a in
      let b' := eval vm_compute in b in
      change (a' ≠ b'); intros ?; discriminate
  end.

#[global] Hint Resolve shows_closed_keep shows_closed_set shows_closed_other
  shows_hide_sections shows_chat_closed : inv.
#[global] Hint Extern 1 (∀ e : element, label_of _ = _) =>
  (intros; reflexivity) : inv.
#[global] Hint Extern 1 (_ ≠ _) => distinct_ids : inv.

(** *** What a history item shows *)

Lemma chat_shows_closed_keep which i v j g :
  (∀ c, btn_label_of (which (g c)) = btn_label_of (which c)) →
  chat_closed_at (chat_shows which i v) j g.
Proof.
  intros H m c. unfold chat_shows.
  destruct (decide (j = i)) as [->|Hne].
  - rewrite list_lookup_alter_eq. destruct (c !! i); simpl; [|done].
    by rewrite H.
  - by rewrite list_lookup_alter_ne.
Qed.

Lemma chat_shows_closed_set which i v j g :
  (∀ c, btn_label_of (which (g c)) = v) →
  chat_closed_at (chat_shows which i v) j g.
Proof.
  intros H m c. unfold chat_shows.
  destruct (decide (j = i)) as [->|Hne].
  - rewrite list_lookup_alter_eq. destruct (c !! i); simpl; [|done].
    by rewrite H.
  - by rewrite list_lookup_alter_ne.
Qed.

Lemma chat_shows_closed_other which i v j g :
  j ≠ i → chat_closed_at (chat_shows which i v) j g.
Proof. intros H m c. unfold chat_shows. by rewrite list_lookup_alter_ne. Qed.

Lemma attached_is_closed_keep i b j g :
  (∀ c, attached (g c) = attached c) → chat_closed_at (attached_is i b) j g.
Proof.
  intros H m c. unfold attached_is.
  destruct (decide (j = i)) as [->|Hne].
  - rewrite list_lookup_alter_eq. destruct (c !! i); simpl; [|done].
    by rewrite H.
  - by rewrite list_lookup_alter_ne.
Qed.

Lemma attached_is_closed_other i b j g :
  j ≠ i → chat_closed_at (attached_is i b) j g.
Proof. intros H m c. unfold attached_is. by rewrite list_lookup_alter_ne. Qed.

Lemma chat_shows_closed which i v id f : closed_at (chat_shows which i v) id f.
Proof. by intros m c e. Qed.

Lemma attached_is_closed i b id f : closed_at (attached_is i b) id f.
Proof. by intros m c e. Qed.

Lemma chat_shows_hide_sections which i v m c :
  chat_shows which i v m c → chat_shows which i v (Main.hide_sections m) c.
Proof. done. Qed.

Lemma attached_is_hide_sections i b m c :
  attached_is i b m c → attached_is i b (Main.hide_sections m) c.
Proof. done. Qed.

#[global] Hint Resolve chat_shows_closed_keep chat_shows_closed_set
  chat_shows_closed_other chat_shows_closed attached_is_closed_keep
  attached_is_closed_other attached_is_closed
  chat_shows_hide_sections attached_is_hide_sections : inv.
#[global] Hint Extern 1 (∀ c : chatItem, btn_label_of _ = _) =>
  (intros; reflexivity) : inv.
#[global] Hint Extern 1 (∀ c : chatItem, attached _ = _) =>
  (intros; reflexivity) : inv.

(** *** Every event *)

(** The handlers of the events, unfolded down to the listeners above. *)
Ltac handlers :=
  unfold Main.useOnlineApi_change, Main.useLocalApi_change,
    Main.customOnline_change, Main.customOllama_change,
    Main.refreshOllamaModels_settled, Main.apiConfigForm_settled,
    Main.testApiBtn_click, Main.testApiBtn_settled,
    Main.settingsForm_submit, Main.settingsForm_settled,
    Main.resetAppBtn_click, Main.resetAppBtn_settled,
    Main.novelUploadForm_settled,
    Main.startNarrativeBtn_click, Main.startNarrativeBtn_settled,
    Main.sendActionBtn_click, Main.sendActionBtn_settled,
    Main.saveGameBtn_click, Main.saveGameBtn_settled,
    Main.closeNarrativeBtn_click,
    FloatingSave.globalSaveButton_settled, FloatingSave.showSaveToast,
    FloatingSave.hideToast.

Lemma inv_novelUploadForm_submit Q :
  closed_at Q "processing-card" (set_display "flex") →
  inv Q Main.novelUploadForm_submit.
Proof.
  intros H. unfold Main.novelUploadForm_submit.
  apply inv_bind; [apply inv_read|]. intros file.
  apply inv_bind; [apply inv_read|]. intros title.
  destruct file; [|apply inv_alert].
  apply inv_if; [apply inv_alert|].
  apply inv_bind; [apply inv_write, H|]. intros _. apply inv_fetch.
Qed.

#[global] Hint Resolve inv_novelUploadForm_submit : inv.

(** An element shows what it shows through every event that is not the
    settling of its own request.  The click that disables it is among these
    events: it sets what the element already shows. *)
Ltac each_event :=
  match goal with
  | e : event |- _ =>
      destruct e; simpl; intros Hs; try discriminate Hs;
      repeat match goal with
             | s : slider |- _ => destruct s
             | b : bool |- _ => destruct b
             end;
      handlers
  end.

Lemma send_button_shows e :
  settles SendButton e = false →
  inv (shows "send-action-btn" (true, "处理中...")) (handle e).
Proof. each_event; auto 30 with inv. Qed.

Lemma save_button_shows e :
  settles SaveButton e = false →
  inv (shows "save-game-btn" (true, "保存中...")) (handle e).
Proof. each_event; auto 30 with inv. Qed.

Lemma refresh_button_shows e :
  settles RefreshButton e = false →
  inv (shows "refresh-models-btn" (true, "正在获取模型列表...")) (handle e).
Proof. each_event; auto 30 with inv. Qed.

Lemma start_button_shows e :
  settles StartButton e = false →
  inv (shows "start-narrative-btn" (true, "初始化中...")) (handle e).
Proof. each_event; auto 30 with inv. Qed.

Lemma load_button_shows i e :
  settles (LoadButton i) e = false →
  inv (chat_shows load_btn i (true, "加载中...")) (handle e).
Proof.
  each_event; try apply bool_decide_eq_false in Hs; auto 30 with inv.
Qed.

Lemma delete_button_shows i e :
  settles (DeleteButton i) e = false →
  inv (chat_shows delete_btn i (true, "删除中...")) (handle e).
Proof.
  each_event; try apply bool_decide_eq_false in Hs; auto 30 with inv.
Qed.

(** A history item stays attached, or detached, through every event that is
    not the settling of a confirmed deletion of that item. *)
Lemma item_stays i b e :
  deletes i e = false → inv (attached_is i b) (handle e).
Proof.
  destruct e; simpl; intros Hs;
    repeat match goal with
           | s : slider |- _ => destruct s
           | b : bool |- _ => destruct b
           end;
    handlers; auto 30 with inv.
  apply inv_deleteChatBtn_settled; [|auto with inv].
  intros data -> Hok. rewrite Hok, andb_true_r in Hs.
  apply bool_decide_eq_false in Hs. auto with inv.
Qed.

(** Through a run of events. *)
Lemma inv_fire Q e : inv Q (handle e) → inv Q (λ d, (fire e d, Ret tt)).
Proof.
  intros H d HQ. unfold fire, exec. simpl.
  apply (inv_try_catch Q (handle e)); [done|intros err; apply inv_console|done].
Qed.

Lemma inv_run Q (allowed : event → bool) es d :
  (∀ e, allowed e = true → inv Q (handle e)) →
  forallb allowed es = true →
  Q (byId d) (chatItems d) →
  Q (byId (run es d)) (chatItems (run es d)).
Proof.
  intros H. revert d. induction es as [|e es IH]; intros d Hes HQ; [done|].
  simpl in Hes. apply andb_true_iff in Hes as [He Hes].
  simpl. apply IH; [done|]. by apply (inv_fire Q e (H e He) d).
Qed.

Lemma pending_run c id v es d :
  (∀ e, settles c e = false → inv (shows id v) (handle e)) →
  pending c es = true →
  button_is id v.1 v.2 d → button_is id v.1 v.2 (run es d).
Proof.
  intros H Hes Hd. destruct v as [dis text]. simpl in *.
  apply shows_button_is. apply shows_button_is in Hd.
  eapply inv_run; [|exact Hes|exact Hd].
  intros e He. apply andb_true_iff in He as [He _].
  apply H. by apply negb_true_iff.
Qed.

Lemma chat_button_is_shows which i dis text d :
  chat_button_is which i dis text d
  ↔ chat_shows which i (dis, text) (byId d) (chatItems d).
Proof.
  unfold chat_button_is, chat_shows, btn_label_of. split.
  - intros (c & -> & <- & <-). reflexivity.
  - destruct (chatItems d !! i) as [c|]; simpl; [|done].
    intros [= <- <-]. by exists c.
Qed.

Lemma pending_run_chat c which i v es d :
  (∀ e, settles c e = false → inv (chat_shows which i v) (handle e)) →
  pending c es = true →
  chat_button_is which i v.1 v.2 d → chat_button_is which i v.1 v.2 (run es d).
Proof.
  intros H Hes Hd. destruct v as [dis text]. simpl in *.
  apply chat_button_is_shows. apply chat_button_is_shows in Hd.
  eapply inv_run; [|exact Hes|exact Hd].
  intros e He. apply andb_true_iff in He as [He _].
  apply H. by apply negb_true_iff.
Qed.
(** ** Busy states *)

Lemma no_request_sent {A} (m : M A) d :
  fetches (exec m d) = fetches d → ¬ sends m d.
Proof.
  intros H [r Hr]. rewrite H in Hr.
  apply (f_equal length) in Hr. rewrite length_app in Hr. simpl in Hr. lia.
Qed.

Lemma not_own_extension {A} (l : list A) r : l = l ++ [r] → False.
Proof.
  intros H. apply (f_equal length) in H. rewrite length_app in H.
  simpl in H. lia.
Qed.

(** A button restored in [finally] is idle once the chain is over. *)
Lemma settle_restores o onData onError id label d :
  (∀ data, keeps (onData data)) → (∀ e, keeps (onError e)) →
  present id d →
  button_is id false label
    (exec (settle o onData onError (update id (idle label))) d).
Proof.
  intros Hdata Herror Hid. unfold settle.
  rewrite exec_try_finally_update.
  set (m := try_catch _ _).
  assert (keeps m) as Hm.
  { apply keeps_try_catch; [|done]. destruct o; [done|apply keeps_throw]. }
  destruct (Hm d) as [Hp _]. destruct (Hp id Hid) as [e He].
  exists (idle label e). rewrite lookup_update.
  unfold exec. by rewrite He.
Qed.

Lemma settle_restores_chat (load : bool) o onData onError i label d :
  (∀ data, keeps (onData data)) → (∀ e, keeps (onError e)) →
  is_Some (chatItems d !! i) →
  chat_button_is (if load then load_btn else delete_btn) i false label
    (exec (settle o onData onError
             (if load then Main.update_load_btn i (Main.btn_idle label)
              else Main.update_delete_btn i (Main.btn_idle label))) d).
Proof.
  intros Hdata Herror Hi. unfold settle, exec, try_finally.
  set (m := try_catch _ _).
  assert (keeps m) as Hm.
  { apply keeps_try_catch; [|done]. destruct o; [done|apply keeps_throw]. }
  destruct (Hm d) as [_ Hlen]. destruct (m d) as [d1 r]. simpl in Hlen.
  assert (is_Some (chatItems d1 !! i)) as [c Hc].
  { apply lookup_lt_is_Some. rewrite Hlen. by apply lookup_lt_is_Some. }
  destruct load; simpl; unfold chat_button_is; simpl;
    rewrite list_lookup_alter_eq, Hc; simpl; eexists; done.
Qed.

Lemma sendActionBtn_click_busy d :
  present "send-action-btn" d →
  sends Main.sendActionBtn_click d →
  button_is "send-action-btn" true "处理中..." (exec Main.sendActionBtn_click d).
Proof.
  intros [b Hb] Hsends. revert Hsends.
  unfold Main.sendActionBtn_click.
  destruct (byId d !! "user-action") as [input|] eqn:Einput.
  2:{ intros H. exfalso. revert H. apply no_request_sent.
      unfold exec. by erewrite bind_throw by (unfold read; by rewrite Einput). }
  destruct (is_empty (value input)) eqn:Eempty.
  { intros H. exfalso. revert H. apply no_request_sent.
    unfold exec. erewrite bind_run by (by apply read_run).
    by rewrite Eempty. }
  destruct (byId d !! "narrative-history") as [history|] eqn:Ehistory.
  2:{ intros H. exfalso. revert H. apply no_request_sent.
      unfold exec. erewrite bind_run by (by apply read_run). rewrite Eempty.
      erewrite bind_run by reflexivity.
      by erewrite bind_throw
        by (unfold Main.appendChild; apply write_throw;
            cbn [byId with_byId]; by lookups). }
  intros _. unfold exec.
  erewrite bind_run by (by apply read_run). rewrite Eempty.
  erewrite bind_run by reflexivity.
  erewrite bind_run.
  2:{ unfold Main.appendChild. apply write_run.
      cbn [byId with_byId]. lookups. done. }
  erewrite bind_run.
  2:{ apply assign_run. cbn [byId with_byId]. lookups. done. }
  unfold fetch, button_is. cbn [fst byId with_byId with_fetches].
  lookups. rewrite Hb. eexists. done.
Qed.

Lemma saveGameBtn_click_busy d :
  present "save-game-btn" d →
  sends Main.saveGameBtn_click d ∧
  button_is "save-game-btn" true "保存中..." (exec Main.saveGameBtn_click d).
Proof.
  intros [b Hb]. split; [by eexists|].
  unfold button_is, exec, Main.saveGameBtn_click, bind, update, fetch.
  cbn [fst byId with_byId with_fetches]. lookups. rewrite Hb. eexists. done.
Qed.

Lemma startNarrativeBtn_click_busy d :
  present "start-narrative-btn" d →
  sends Main.startNarrativeBtn_click d ∧
  button_is "start-narrative-btn" true "初始化中..."
    (exec Main.startNarrativeBtn_click d).
Proof.
  intros [b Hb]. split; [by eexists|].
  unfold button_is, exec, Main.startNarrativeBtn_click, bind, update, fetch.
  cbn [fst byId with_byId with_fetches]. lookups. rewrite Hb. eexists. done.
Qed.

Lemma refreshOllamaModels_busy d :
  present "refresh-models-btn" d →
  sends Main.refreshOllamaModels d →
  button_is "refresh-models-btn" true "正在获取模型列表..."
    (exec Main.refreshOllamaModels d).
Proof.
  intros [b Hb]. unfold Main.refreshOllamaModels.
  destruct (byId d !! "ollama-api-url") as [input|] eqn:Einput.
  2:{ intros H. exfalso. revert H. apply no_request_sent.
      unfold exec. by erewrite bind_throw by (unfold read; by rewrite Einput). }
  destruct (is_empty (value input)) eqn:Eempty.
  { intros H. exfalso. revert H. apply no_request_sent.
    unfold exec. erewrite bind_run by (by apply read_run).
    by rewrite Eempty. }
  intros _. unfold exec.
  erewrite bind_run by (by apply read_run). rewrite Eempty.
  unfold button_is, bind, update, fetch.
  cbn [fst byId with_byId with_fetches]. lookups. rewrite Hb. eexists. done.
Qed.

Lemma loadChatBtn_click_busy i d :
  sends (Main.loadChatBtn_click i) d →
  chat_button_is load_btn i true "加载中..." (exec (Main.loadChatBtn_click i) d).
Proof.
  unfold chat_button_is, sends, exec, Main.loadChatBtn_click. cbv beta.
  destruct (chatItems d !! i) as [c|] eqn:Ec.
  2:{ intros [r Hr]. by apply not_own_extension in Hr. }
  destruct (Main.file_path_of (load_btn c)).
  2:{ intros [r Hr]. by apply not_own_extension in Hr. }
  intros _. unfold bind, Main.update_load_btn, fetch.
  cbn [fst chatItems with_chatItems with_fetches].
  rewrite list_lookup_alter_eq, Ec. eexists. done.
Qed.

Lemma deleteChatBtn_click_busy i confirmed d :
  sends (Main.deleteChatBtn_click i confirmed) d →
  chat_button_is delete_btn i true "删除中..."
    (exec (Main.deleteChatBtn_click i confirmed) d).
Proof.
  unfold chat_button_is, sends, exec, Main.deleteChatBtn_click. cbv beta.
  destruct (chatItems d !! i) as [c|] eqn:Ec.
  2:{ intros [r Hr]. by apply not_own_extension in Hr. }
  destruct (Main.file_path_of (delete_btn c)).
  2:{ intros [r Hr]. by apply not_own_extension in Hr. }
  destruct confirmed.
  2:{ intros [r Hr]. by apply not_own_extension in Hr. }
  intros _. unfold bind, Main.update_delete_btn, fetch.
  cbn [fst chatItems with_chatItems with_fetches].
  rewrite list_lookup_alter_eq, Ec. eexists. done.
Qed.

Create HintDb quiet.

(** Handlers without a busy state. *)
Lemma labels_kept_refl d : labels_kept d d.
Proof. by split. Qed.

Lemma labels_kept_trans d1 d2 d3 :
  labels_kept d1 d2 → labels_kept d2 d3 → labels_kept d1 d3.
Proof. intros [H1 H2] [H3 H4]. split; [intros id|]; congruence. Qed.

Lemma quiet_ret {A} (a : A) : quiet (ret a).
Proof. intros d. apply labels_kept_refl. Qed.

Lemma quiet_throw {A} e : quiet (@throw A e).
Proof. intros d. apply labels_kept_refl. Qed.

Lemma quiet_bind {A B} (m : M A) (k : A → M B) :
  quiet m → (∀ a, quiet (k a)) → quiet (bind m k).
Proof.
  intros Hm Hk d. unfold bind. specialize (Hm d).
  destruct (m d) as [d1 [a|e]]; simpl in *; [|done].
  eapply labels_kept_trans; [done|apply Hk].
Qed.

Lemma quiet_if {A} (b : bool) (m1 m2 : M A) :
  quiet m1 → quiet m2 → quiet (if b then m1 else m2).
Proof. by destruct b. Qed.

Lemma quiet_read {A} id prop (f : element → A) : quiet (read id prop f).
Proof.
  intros d. unfold read. destruct (byId d !! id); apply labels_kept_refl.
Qed.

Lemma quiet_getElementById id : quiet (getElementById id).
Proof. intros d. apply labels_kept_refl. Qed.

Lemma quiet_querySelector_checked name : quiet (querySelector_checked name).
Proof. intros d. apply labels_kept_refl. Qed.

Lemma quiet_fetch u b : quiet (fetch u b).
Proof. by intros d. Qed.

Lemma quiet_alert msg : quiet (alert msg).
Proof. by intros d. Qed.

Lemma quiet_write_display id prop v : quiet (write id prop (set_display v)).
Proof.
  intros d. unfold write. destruct (byId d !! id) as [e|] eqn:E;
    [|apply labels_kept_refl].
  split; [|done]. intros id'. simpl. rewrite lookup_insert.
  case_decide; [|done]. subst. by rewrite E.
Qed.

#[global] Hint Resolve quiet_ret quiet_throw quiet_bind quiet_if quiet_read
  quiet_getElementById quiet_querySelector_checked quiet_fetch quiet_alert
  quiet_write_display : quiet.

Lemma quiet_main_custom_model kind config :
  quiet (Main.custom_model kind config).
Proof.
  unfold Main.custom_model. apply quiet_bind; [auto with quiet|].
  intros [v|]; [|auto with quiet]. apply quiet_if; [|auto with quiet].
  apply quiet_bind; [auto with quiet|].
  intros [t|]; [|auto with quiet]. apply quiet_if; auto with quiet.
Qed.

Lemma quiet_apiConfigForm_submit : quiet Main.apiConfigForm_submit.
Proof.
  pose proof quiet_main_custom_model.
  unfold Main.apiConfigForm_submit, Main.apiConfigForm_collect.
  apply quiet_bind; [|auto with quiet].
  apply quiet_bind; [auto with quiet|]. intros online.
  apply quiet_bind; [|auto with quiet].
  apply quiet_if.
  - apply quiet_bind; [auto with quiet|]. intros u.
    apply quiet_bind; [auto with quiet|]. intros [e|]; auto with quiet.
  - auto 10 with quiet.
Qed.

Lemma quiet_settingsForm_submit : quiet Main.settingsForm_submit.
Proof. unfold Main.settingsForm_submit. auto 20 with quiet. Qed.

Lemma quiet_resetAppBtn_click confirmed :
  quiet (Main.resetAppBtn_click confirmed).
Proof. unfold Main.resetAppBtn_click. auto with quiet. Qed.

Lemma quiet_novelUploadForm_submit : quiet Main.novelUploadForm_submit.
Proof.
  unfold Main.novelUploadForm_submit.
  apply quiet_bind; [auto with quiet|]. intros file.
  apply quiet_bind; [auto with quiet|]. intros title.
  destruct file; auto 10 with quiet.
Qed.

(** The chain of the start button. *)
Lemma startNarrativeBtn_failed d o :
  failed o → present "start-narrative-btn" d →
  button_is "start-narrative-btn" false "开始旅程"
    (exec (Main.startNarrativeBtn_settled o) d).
Proof.
  intros Hfailed [b Hb]. chain Main.startNarrativeBtn_settled.
  destruct o as [data|reason]; simpl in Hfailed.
  - rewrite Hfailed. unfold button_is, bind, alert, update.
    cbn [fst ret byId with_byId with_alerts]. lookups. rewrite Hb.
    eexists. done.
  - unfold button_is, throw, bind, alert, update.
    cbn [fst ret byId with_byId with_alerts]. lookups. rewrite Hb.
    eexists. done.
Qed.

Lemma startNarrativeBtn_success d data init card history :
  success data = true →
  byId d !! "initializing-narrative-card" = Some init →
  byId d !! "narrative-card" = Some card →
  byId d !! "narrative-history" = Some history →
  byId (exec (Main.startNarrativeBtn_settled (Fulfilled data)) d)
    !! "start-narrative-btn" = byId d !! "start-narrative-btn".
Proof.
  intros Hok Hinit Hcard Hhistory.
  unfold exec, Main.startNarrativeBtn_settled.
  erewrite settle_fulfilled_ret; cycle 1.
  { rewrite Hok.
    erewrite bind_run by (by apply write_run).
    erewrite bind_run.
    2:{ apply write_run. cbn [byId with_byId]. lookups. apply Hcard. }
    unfold Main.appendChild. apply write_run. cbn [byId with_byId].
    lookups. apply Hhistory. }
  rewrite try_finally_ret_tt. cbn [fst ret byId with_byId]. by lookups.
Qed.

Lemma quiet_try_catch {A} (m : M A) h :
  quiet m → (∀ e, quiet (h e)) → quiet (try_catch m h).
Proof.
  intros Hm Hh d. unfold try_catch. specialize (Hm d).
  destruct (m d) as [d1 [a|e]]; simpl in *; [done|].
  eapply labels_kept_trans; [done|apply Hh].
Qed.

Lemma quiet_settle o onData onError :
  (∀ data, quiet (onData data)) → (∀ e, quiet (onError e)) →
  quiet (settle o onData onError (ret tt)).
Proof.
  intros Hdata Herror d. unfold settle. rewrite try_finally_ret_tt.
  apply quiet_try_catch; [|done]. destruct o; [done|apply quiet_throw].
Qed.

Lemma quiet_main_updateModelDisplay config :
  quiet (Main.updateModelDisplay config).
Proof.
  intros d. unfold Main.updateModelDisplay.
  destruct (modelDisplay1 d) eqn:E1, (modelDisplay2 d) eqn:E2; simpl;
    rewrite ?E2; by split.
Qed.

Lemma quiet_reload : quiet Main.reload.
Proof. by intros d. Qed.

#[global] Hint Resolve quiet_settle quiet_main_updateModelDisplay quiet_reload
  : quiet.

(** The chains of the handlers without a busy state. *)
Lemma quiet_apiConfigForm_settled config o :
  quiet (Main.apiConfigForm_settled config o).
Proof. unfold Main.apiConfigForm_settled. auto 10 with quiet. Qed.

Lemma quiet_settingsForm_settled o : quiet (Main.settingsForm_settled o).
Proof. unfold Main.settingsForm_settled. auto 10 with quiet. Qed.

Lemma quiet_resetAppBtn_settled o : quiet (Main.resetAppBtn_settled o).
Proof. unfold Main.resetAppBtn_settled. auto 10 with quiet. Qed.

Lemma quiet_novelUploadForm_settled o :
  quiet (Main.novelUploadForm_settled o).
Proof. unfold Main.novelUploadForm_settled. auto 10 with quiet. Qed.

(** A request in flight: the button that its click has disabled stays as it
    is through every event that does not settle a request of that button,
    and the settling enables it again. *)
Lemma busy_until_settled c id busy_label idle_label o onData onError es d :
  (∀ e, settles c e = false →
        inv (shows id (true, busy_label)) (handle e)) →
  (∀ data, keeps (onData data)) → (∀ e, keeps (onError e)) →
  pending c es = true →
  button_is id true busy_label d →
  button_is id true busy_label (run es d) ∧
  button_is id false idle_label
    (exec (settle o onData onError (update id (idle idle_label))) (run es d)).
Proof.
  intros Hinv Hdata Herror Hes Hd.
  assert (button_is id true busy_label (run es d)) as Hbusy
    by (by apply (pending_run c id (true, busy_label))).
  split; [done|]. apply settle_restores; [done..|].
  destruct Hbusy as (e & He & _). by exists e.
Qed.

Lemma busy_until_settled_chat (load : bool) c i busy_label idle_label o
    onData onError es d :
  (∀ e, settles c e = false →
        inv (chat_shows (if load then load_btn else delete_btn) i
                        (true, busy_label)) (handle e)) →
  (∀ data, keeps (onData data)) → (∀ e, keeps (onError e)) →
  pending c es = true →
  chat_button_is (if load then load_btn else delete_btn) i true busy_label d →
  chat_button_is (if load then load_btn else delete_btn) i true busy_label
    (run es d) ∧
  chat_button_is (if load then load_btn else delete_btn) i false idle_label
    (exec (settle o onData onError
             (if load then Main.update_load_btn i (Main.btn_idle idle_label)
              else Main.update_delete_btn i (Main.btn_idle idle_label)))
          (run es d)).
Proof.
  intros Hinv Hdata Herror Hes Hd.
  assert (chat_button_is (if load then load_btn else delete_btn) i true
            busy_label (run es d)) as Hbusy
    by (by apply (pending_run_chat c _ i (true, busy_label))).
  split; [done|]. apply settle_restores_chat; [done..|].
  destruct Hbusy as (x & Hx & _). by exists x.
Qed.

Lemma keeps_load_data data :
  keeps (if success data
         then (λ d, match Main.find_nav "home" (navItems d) with
                    | None => (d, Throw (null_read "click"))
                    | Some j => Main.nav_click j d
                    end) ;;;
              write "initializing-narrative-card" "style" (set_display "flex")
         else alert ("加载历史对话失败: " +:+ js_string (error data))).
Proof.
  apply keeps_if; [|auto with keeps].
  apply keeps_bind; [|auto with keeps].
  intros d0. destruct (Main.find_nav "home" (navItems d0)); [|done].
  apply keeps_nav_click.
Qed.

Lemma keeps_delete_data i data :
  keeps (if success data
         then (λ d, (with_chatItems
                       (alter (λ c, ChatItem false (load_btn c) (delete_btn c))
                              i) d, Ret tt)) ;;;
              (λ d, if bool_decide
                         (filter (λ c, attached c = true) (chatItems d) = [])
                    then match chatHistoryList d with
                         | None => (d, Throw (null_read "appendChild"))
                         | Some l =>
                             (with_chatHistoryList
                                (Some (l ++ [Main.emptyState])) d, Ret tt)
                         end
                    else (d, Ret tt))
         else alert ("删除历史对话失败: " +:+ js_string (error data))).
Proof.
  apply keeps_if; [|auto with keeps].
  apply keeps_bind.
  - intros d0. split; [done|]. simpl. by rewrite length_alter.
  - intros _ d0. case_bool_decide; [|done].
    by destruct (chatHistoryList d0).
Qed.


(** ** What a failed action leaves behind *)

(** The page after a click on the send button that goes through. *)
Lemma sendActionBtn_click_run d input history :
  byId d !! "user-action" = Some input →
  is_empty (value input) = false →
  byId d !! "narrative-history" = Some history →
  exec Main.sendActionBtn_click d
  = with_fetches
      (λ l, l ++ [Request "/process_action"
                    (JsonBody [("action", JStr (value input))])])
      (with_byId
         (λ m, <["user-action" := set_value "" input]>
                 (<["narrative-history" :=
                      set_children
                        (children history ++
                           [Main.message "user-message" "用户" (value input)])
                        history]>
                    (alter (busy "处理中...") "send-action-btn" m)))
         d).
Proof.
  intros Hinput Htyped Hhistory. unfold exec, Main.sendActionBtn_click.
  erewrite bind_run by (by apply read_run). rewrite Htyped.
  erewrite bind_run by reflexivity.
  erewrite bind_run.
  2:{ unfold Main.appendChild. apply write_run.
      cbn [byId with_byId]. lookups. done. }
  erewrite bind_run.
  2:{ apply assign_run. cbn [byId with_byId]. lookups. done. }
  reflexivity.
Qed.

(** The chain of the send button after a failure: an alert, then the
    button. *)
Lemma sendActionBtn_failed_run d o :
  failed o →
  ∃ msg, exec (Main.sendActionBtn_settled o) d
         = with_byId (alter (idle "发送") "send-action-btn")
             (with_alerts (λ l, l ++ [msg]) d).
Proof.
  intros Hfailed. chain Main.sendActionBtn_settled.
  destruct o as [data|reason]; simpl in Hfailed.
  - rewrite Hfailed. by eexists.
  - by eexists.
Qed.

(** The [finally] block of a chain runs last, whatever it is. *)
Lemma exec_try_finally {A} (m : M A) f d :
  exec (try_finally m f) d = exec f (exec m d).
Proof.
  unfold exec, try_finally. destruct (m d) as [d' r]. simpl.
  by destruct (f d') as [d'' [[]|e]].
Qed.

(** A chain whose two failure callbacks only alert: after a failure it has
    shown one alert and run its [finally] block. *)
Lemma failed_chain o (onOk : response → M unit) (refusal : response → string)
    (rejection : string → string) onFinally d :
  failed o →
  ∃ msg,
    exec (settle o (λ data, if success data then onOk data
                            else alert (refusal data))
                 (λ error, alert (rejection error)) onFinally) d
    = exec onFinally (with_alerts (λ l, l ++ [msg]) d).
Proof.
  intros Hfailed. unfold settle. rewrite exec_try_finally.
  destruct o as [data|reason]; simpl in Hfailed.
  - exists (refusal data). unfold exec, try_catch. by rewrite Hfailed.
  - by exists (rejection reason).
Qed.

Lemma same_but_alert ids msg d :
  same_but ids d (with_alerts (λ l, l ++ [msg]) d).
Proof. by repeat split. Qed.

Lemma same_but_update id f ids d d' :
  id ∈ ids → same_but ids d d' → same_but ids d (exec (update id f) d').
Proof.
  intros Hid (H1 & H2). split; [|exact H2].
  intros id' Hid'. rewrite byId_update, lookup_alter_ne; [by apply H1|].
  by intros ->.
Qed.

Lemma failed_button_chain o onOk refusal rejection id f d :
  failed o →
  let d' := exec (settle o (λ data, if success data then onOk data
                                    else alert (refusal data))
                         (λ error, alert (rejection error))
                         (update id f)) d in
  same_but [id] d d' ∧ byId d' !! id = f <$> byId d !! id.
Proof.
  intros Hfailed d'. subst d'.
  destruct (failed_chain o onOk refusal rejection (update id f) d Hfailed)
    as [msg ->].
  split; [|by rewrite lookup_update].
  apply same_but_update; [set_solver|apply same_but_alert].
Qed.

(** The start button restores itself in both failure callbacks. *)
Lemma startNarrativeBtn_failed_frame o d :
  failed o →
  let d' := exec (Main.startNarrativeBtn_settled o) d in
  same_but ["start-narrative-btn"] d d' ∧
  byId d' !! "start-narrative-btn"
    = idle "开始旅程" <$> byId d !! "start-narrative-btn".
Proof.
  intros Hfailed d'. subst d'. chain Main.startNarrativeBtn_settled.
  assert (∀ msg,
    let d' := (alert msg ;;; update "start-narrative-btn" (idle "开始旅程")) d in
    same_but ["start-narrative-btn"] d d'.1 ∧
    byId d'.1 !! "start-narrative-btn"
      = idle "开始旅程" <$> byId d !! "start-narrative-btn") as H.
  { intros msg. simpl. split; [|by rewrite lookup_alter_eq].
    split; [|by repeat split]. intros id Hid. simpl.
    rewrite lookup_alter_ne; [done|set_solver]. }
  destruct o as [data|reason]; simpl in Hfailed.
  - rewrite Hfailed. apply H.
  - apply H.
Qed.

(** The refresh logs the failure instead of alerting it. *)
Lemma refreshOllamaModels_failed_frame o d :
  failed o →
  let d' := exec (Main.refreshOllamaModels_settled o) d in
  same_but ["refresh-models-btn"] d d' ∧
  byId d' !! "refresh-models-btn"
    = idle "刷新模型列表" <$> byId d !! "refresh-models-btn".
Proof.
  intros Hfailed d'. subst d'. unfold Main.refreshOllamaModels_settled, settle.
  rewrite exec_try_finally.
  assert (∃ msg, exec (try_catch
            match o with
            | Fulfilled data =>
                if success data
                then Main.refill "analysis-ollama-model-select" (models data) ;;;
                     Main.refill "writing-ollama-model-select" (models data) ;;;
                     console "模型列表已更新"
                else console ("获取模型列表失败: " +:+ js_string (error data))
            | Rejected reason => throw reason
            end
            (λ error, console ("获取模型列表出错: " +:+ error))) d
          = with_consoleLog (λ l, l ++ [msg]) d) as [msg ->].
  { destruct o as [data|reason]; simpl in Hfailed.
    - eexists. unfold exec, try_catch. by rewrite Hfailed.
    - by eexists. }
  split; [|by rewrite lookup_update].
  apply same_but_update; [set_solver|]. by repeat split.
Qed.

(** The upload hides its overlay in both failure callbacks, before the
    alert; on a page without the overlay the callbacks throw at once. *)
Lemma novelUploadForm_failed_frame o d :
  failed o →
  let d' := exec (Main.novelUploadForm_settled o) d in
  same_but ["processing-card"] d d' ∧
  byId d' !! "processing-card"
    = set_display "none" <$> byId d !! "processing-card".
Proof.
  intros Hfailed d'. subst d'. chain Main.novelUploadForm_settled.
  destruct (byId d !! "processing-card") as [card|] eqn:E.
  - assert (∀ msg,
      (write "processing-card" "style" (set_display "none") ;;; alert msg) d
      = (with_alerts (λ l, l ++ [msg])
           (with_byId <["processing-card" := set_display "none" card]> d),
         Ret tt)) as Hrun.
    { intros msg. unfold bind, write, alert. by rewrite E. }
    assert (∀ msg,
      let d' := with_alerts (λ l, l ++ [msg])
                  (with_byId
                     <["processing-card" := set_display "none" card]> d) in
      same_but ["processing-card"] d d' ∧
      byId d' !! "processing-card" = Some (set_display "none" card))
      as Hframe.
    { intros msg. simpl. split; [|by rewrite lookup_insert_eq].
      split; [|by repeat split]. intros id Hid. simpl.
      rewrite lookup_insert_ne; [done|set_solver]. }
    destruct o as [data|reason]; simpl in Hfailed.
    + rewrite Hfailed, Hrun. apply Hframe.
    + unfold throw. rewrite Hrun. apply Hframe.
  - assert (∀ msg,
      (write "processing-card" "style" (set_display "none") ;;; alert msg) d
      = (d, Throw (null_read "style"))) as Hrun.
    { intros msg. unfold bind, write. by rewrite E. }
    destruct o as [data|reason]; simpl in Hfailed.
    + rewrite Hfailed, Hrun, Hrun. simpl. rewrite E. by repeat split.
    + unfold throw. rewrite Hrun. simpl. rewrite E. by repeat split.
Qed.

(** The test panel writes the failure into its result line. *)
Lemma testApiBtn_failed_frame o d :
  failed o →
  let d' := exec (Main.testApiBtn_settled o) d in
  same_but ["test-api-btn"; "test-result"] d d' ∧
  byId d' !! "test-api-btn" = idle "测试连接" <$> byId d !! "test-api-btn" ∧
  ∃ msg, byId d' !! "test-result"
         = set_textContent msg <$> byId d !! "test-result".
Proof.
  intros Hfailed d'. subst d'. unfold Main.testApiBtn_settled, settle.
  rewrite exec_try_finally.
  assert (∃ msg, exec (try_catch
            match o with
            | Fulfilled data =>
                if success data
                then assign "test-result" "textContent"
                       (set_textContent
                          ("测试成功！响应: " +:+ js_string (response_text data)))
                else assign "test-result" "textContent"
                       (set_textContent
                          ("测试失败: " +:+ js_string (error data)))
            | Rejected reason => throw reason
            end
            (λ error, assign "test-result" "textContent"
                        (set_textContent ("测试出错: " +:+ error)))) d
          = with_byId (alter (set_textContent msg) "test-result") d)
    as [msg ->].
  { destruct (byId d !! "test-result") as [e|] eqn:E.
    - assert (∀ msg,
        assign "test-result" "textContent" (set_textContent msg) d
        = (with_byId (alter (set_textContent msg) "test-result") d, Ret tt))
        as Hrun.
      { intros msg. unfold assign. rewrite E. unfold with_byId.
        by rewrite (alter_as_insert _ _ e). }
      destruct o as [data|reason]; simpl in Hfailed.
      + eexists. unfold exec, try_catch. rewrite Hfailed, Hrun. reflexivity.
      + eexists. unfold exec, try_catch, throw. rewrite Hrun. reflexivity.
    - assert (∀ msg,
        assign "test-result" "textContent" (set_textContent msg) d
        = (d, Throw (null_write "textContent"))) as Hrun.
      { intros msg. unfold assign. by rewrite E. }
      exists "".
      assert (with_byId (alter (set_textContent "") "test-result") d = d)
        as ->.
      { unfold with_byId. rewrite alter_absent by done. by destruct d. }
      destruct o as [data|reason]; simpl in Hfailed.
      + unfold exec, try_catch. rewrite Hfailed, Hrun, Hrun. reflexivity.
      + unfold exec, try_catch, throw. rewrite Hrun. reflexivity. }
  split; [|split].
  - apply same_but_update; [set_solver|].
    split; [|by repeat split]. intros id Hid. simpl.
    rewrite lookup_alter_ne; [done|set_solver].
  - rewrite lookup_update. simpl. by rewrite lookup_alter_ne.
  - exists msg. rewrite byId_update. simpl.
    rewrite lookup_alter_ne by done. by rewrite lookup_alter_eq.
Qed.

(** The buttons of the history list. *)
Lemma chat_failed_frame o onOk refusal rejection
    (f : list chatItem → list chatItem) d :
  failed o →
  let d' := exec (settle o (λ data, if success data then onOk data
                                    else alert (refusal data))
                         (λ error, alert (rejection error))
                         (λ d, (with_chatItems f d, Ret tt))) d in
  same_page d d' ∧ chatItems d' = f (chatItems d).
Proof.
  intros Hfailed d'. subst d'.
  destruct (failed_chain o onOk refusal rejection
              (λ d, (with_chatItems f d, Ret tt)) d Hfailed) as [msg ->].
  by repeat split.
Qed.

(** *** From the click to the end of a failed chain *)

Create HintDb frames.

Lemma dom_but_refl ids d : dom_but ids d d.
Proof. by repeat split. Qed.

Lemma dom_but_trans ids d1 d2 d3 :
  dom_but ids d1 d2 → dom_but ids d2 d3 → dom_but ids d1 d3.
Proof.
  intros (H1 & H2 & H3 & H4 & H5 & H6 & H7) (K1 & K2 & K3 & K4 & K5 & K6 & K7).
  split; [intros id Hid; by rewrite K1, H1|].
  repeat split; congruence.
Qed.

Lemma same_but_dom_but ids d d' : same_but ids d d' → dom_but ids d d'.
Proof.
  intros (H1 & H2 & H3 & H4 & H5 & H6 & H7 & _). by repeat split.
Qed.

Section Frames.

Context (ids : list string).

Lemma frames_ret {A} (a : A) : frames ids (ret a).
Proof. intros d. apply dom_but_refl. Qed.

Lemma frames_throw {A} e : frames ids (@throw A e).
Proof. intros d. apply dom_but_refl. Qed.

Lemma frames_bind {A B} (m : M A) (k : A → M B) :
  frames ids m → (∀ a, frames ids (k a)) → frames ids (bind m k).
Proof.
  intros Hm Hk d. unfold bind. specialize (Hm d).
  destruct (m d) as [d1 [a|e]]; simpl in *; [|done].
  eapply dom_but_trans; [done|apply Hk].
Qed.

Lemma frames_if {A} (b : bool) (m1 m2 : M A) :
  frames ids m1 → frames ids m2 → frames ids (if b then m1 else m2).
Proof. by destruct b. Qed.

Lemma frames_read {A} id prop (f : element → A) : frames ids (read id prop f).
Proof.
  intros d. unfold read. destruct (byId d !! id); apply dom_but_refl.
Qed.

Lemma frames_getElementById id : frames ids (getElementById id).
Proof. intros d. apply dom_but_refl. Qed.

Lemma frames_querySelector_checked name :
  frames ids (querySelector_checked name).
Proof. intros d. apply dom_but_refl. Qed.

Lemma frames_alert msg : frames ids (alert msg).
Proof. intros d. by repeat split. Qed.

Lemma frames_console msg : frames ids (console msg).
Proof. intros d. by repeat split. Qed.

Lemma frames_fetch u b : frames ids (fetch u b).
Proof. intros d. by repeat split. Qed.

Lemma frames_write id prop f : id ∈ ids → frames ids (write id prop f).
Proof.
  intros Hid d. unfold write. destruct (byId d !! id) as [e|];
    [|apply dom_but_refl].
  split; [|by repeat split]. intros id' Hid'. simpl.
  rewrite lookup_insert_ne; [done|]. by intros ->.
Qed.

Lemma frames_assign id prop f : id ∈ ids → frames ids (assign id prop f).
Proof.
  intros Hid d. unfold assign. destruct (byId d !! id) as [e|];
    [|apply dom_but_refl].
  split; [|by repeat split]. intros id' Hid'. simpl.
  rewrite lookup_insert_ne; [done|]. by intros ->.
Qed.

Lemma frames_update id f : id ∈ ids → frames ids (update id f).
Proof.
  intros Hid d. split; [|by repeat split]. intros id' Hid'. simpl.
  rewrite lookup_alter_ne; [done|]. by intros ->.
Qed.

Lemma frames_appendChild id c : id ∈ ids → frames ids (Main.appendChild id c).
Proof. apply frames_write. Qed.

End Frames.

#[global] Hint Resolve frames_ret frames_throw frames_bind frames_if
  frames_read frames_getElementById frames_querySelector_checked
  frames_alert frames_console frames_fetch frames_write frames_assign
  frames_update frames_appendChild : frames.
#[global] Hint Extern 1 (_ ∈ _) =>
  solve [repeat first [apply list_elem_of_here | apply list_elem_of_further]]
  : frames.

Lemma frames_novelUploadForm_submit :
  frames ["processing-card"] Main.novelUploadForm_submit.
Proof.
  unfold Main.novelUploadForm_submit.
  apply frames_bind; [auto with frames|]. intros file.
  apply frames_bind; [auto with frames|]. intros title.
  destruct file; auto 10 with frames.
Qed.

(** What a click left of the element it wrote to. *)
Lemma moved_closed_other id g x id' f :
  id' ≠ id → closed_at (moved id g x) id' f.
Proof.
  intros H m c e He. unfold moved. by rewrite lookup_insert_ne.
Qed.

Lemma moved_closed_same id g x :
  (∀ e, g (g e) = g e) → closed_at (moved id g x) id g.
Proof.
  intros H m c e He Hm. unfold moved in *. rewrite lookup_insert_eq.
  rewrite He in Hm. right. destruct Hm as [<-|Hm]; [done|].
  destruct x as [e0|]; simplify_eq/=. by rewrite H.
Qed.

Lemma moved_chat_closed id g x i h : chat_closed_at (moved id g x) i h.
Proof. by intros m c. Qed.

#[global] Hint Resolve moved_closed_same moved_closed_other moved_chat_closed
  : inv.
#[global] Hint Extern 2 (∀ e : element, _ = _) => (intros; reflexivity) : inv.

(** A click and the failed chain of its request, put together. *)
Lemma click_then_fail ids id g f {A} (click : M A) d d2 :
  frames ids click →
  inv (moved id g (byId d !! id)) click →
  (∀ e, f (g e) = f e) →
  same_but ids (exec click d) d2 →
  byId d2 !! id = f <$> byId (exec click d) !! id →
  dom_but ids d d2 ∧ byId d2 !! id = f <$> byId d !! id.
Proof.
  intros Hframes Hmoved Hfg Hchain Hid. split.
  - eapply dom_but_trans; [apply Hframes|by apply same_but_dom_but].
  - rewrite Hid. unfold exec.
    destruct (Hmoved d) as [Hm|Hm]; [by left|by rewrite Hm|].
    rewrite Hm. destruct (byId d !! id); simpl; [|done]. by rewrite Hfg.
Qed.

Lemma class_remove_add c cs :
  class_contains c cs = false → class_remove c (class_add c cs) = cs.
Proof.
  intros H. unfold class_add. rewrite H. unfold class_remove.
  rewrite filter_app. unfold class_contains in H.
  apply bool_decide_eq_false in H.
  assert (filter (λ x, x ≠ c) cs = cs) as ->.
  { induction cs as [|x cs IH]; [done|].
    rewrite filter_cons. destruct (decide (x ≠ c)) as [Hx|Hx].
    - f_equal. apply IH. set_solver.
    - exfalso. apply H. apply dec_stable in Hx. set_solver. }
  rewrite filter_cons. destruct (decide (c ≠ c)); [done|].
  by rewrite filter_nil, app_nil_r.
Qed.

(** The floating button: a click that sends a request adds the class that
    the failed chain removes. *)
Lemma globalSaveButton_round_trip o d d1 cfg :
  failed o →
  FloatingSave.globalSaveButton_click d = (d1, Ret (Some cfg)) →
  dom_but [] d (exec (FloatingSave.globalSaveButton_settled cfg o) d1).
Proof.
  intros Hfailed Hclick. unfold FloatingSave.globalSaveButton_click in Hclick.
  destruct (FloatingSave.saving d) eqn:Hsaving; [done|].
  unfold bind, update in Hclick. rewrite collectGlobalConfig_run in Hclick.
  unfold fetch, ret in Hclick. injection Hclick as <- <-.
  match goal with
  | |- dom_but _ _ (exec (FloatingSave.globalSaveButton_settled ?cfg _) ?p) =>
      unfold FloatingSave.globalSaveButton_settled;
      destruct (failed_chain o
        (λ _, FloatingSave.updateModelDisplay cfg ;;;
              FloatingSave.showSaveToast)
        (λ data, "保存全局设置失败: " +:+ js_string (error data))
        (λ error, "保存全局设置出错: " +:+ error)
        (update "global-save-button"
           (λ e, set_classList (class_remove "saving" (classList e)) e))
        p Hfailed) as [msg ->]
  end.
  split; [|by repeat split]. intros id _. simpl.
  rewrite !lookup_alter. case_decide; [|done]. subst.
  unfold FloatingSave.saving in Hsaving.
  destruct (byId d !! "global-save-button") as [e|]; simpl; [|done].
  f_equal. destruct e as [cs ? ? ? ? ? ? ?]. unfold set_classList. simpl in *.
  by rewrite class_remove_add.
Qed.

(** The buttons of the history list. *)
Lemma list_alter_twice {A} (f g : A → A) i (l : list A) :
  (∀ x, f (g x) = f x) → alter f i (alter g i l) = alter f i l.
Proof.
  intros H. rewrite list_alter_alter_eq. apply list_eq. intros j.
  destruct (decide (i = j)) as [->|Hne].
  - rewrite !list_lookup_alter_eq. destruct (l !! j); simpl; [|done].
    by rewrite H.
  - by rewrite !list_lookup_alter_ne.
Qed.

Lemma loadChatBtn_round_trip i o d :
  failed o →
  let d2 := exec (Main.loadChatBtn_settled i o)
                 (exec (Main.loadChatBtn_click i) d) in
  byId d2 = byId d ∧ dom_rest d d2 ∧
  chatItems d2
  = alter (λ c, ChatItem (attached c) (Main.btn_idle "加载" (load_btn c))
                         (delete_btn c)) i (chatItems d).
Proof.
  intros Hfailed d2. subst d2.
  unfold Main.loadChatBtn_settled, Main.update_load_btn.
  destruct (chat_failed_frame o
    (λ _, (λ d, match Main.find_nav "home" (navItems d) with
                | None => (d, Throw (null_read "click"))
                | Some j => Main.nav_click j d
                end) ;;;
          write "initializing-narrative-card" "style" (set_display "flex"))
    (λ data, "加载历史对话失败: " +:+ js_string (error data))
    (λ error, "加载历史对话出错: " +:+ error)
    (alter (λ c, ChatItem (attached c) (Main.btn_idle "加载" (load_btn c))
                          (delete_btn c)) i)
    (exec (Main.loadChatBtn_click i) d) Hfailed)
    as ((H1 & H2 & H3 & H4 & H5 & H6 & _) & ->).
  rewrite H1. unfold dom_rest. rewrite H2, H3, H4, H5, H6.
  unfold exec, Main.loadChatBtn_click.
  destruct (chatItems d !! i) as [item|]; [|by repeat split].
  destruct (Main.file_path_of (load_btn item)); [|by repeat split].
  simpl. split; [done|]. split; [by repeat split|].
  by apply list_alter_twice.
Qed.

Lemma deleteChatBtn_round_trip i confirmed o d :
  failed o →
  let d2 := exec (Main.deleteChatBtn_settled i o)
                 (exec (Main.deleteChatBtn_click i confirmed) d) in
  byId d2 = byId d ∧ dom_rest d d2 ∧
  chatItems d2
  = alter (λ c, ChatItem (attached c) (load_btn c)
                         (Main.btn_idle "删除" (delete_btn c))) i
      (chatItems d).
Proof.
  intros Hfailed d2. subst d2.
  unfold Main.deleteChatBtn_settled, Main.update_delete_btn.
  destruct (chat_failed_frame o
    (λ _, (λ d, (with_chatItems
                   (alter (λ c, ChatItem false (load_btn c) (delete_btn c)) i)
                   d, Ret tt)) ;;;
          (λ d, if bool_decide
                     (filter (λ c, attached c = true) (chatItems d) = [])
                then match chatHistoryList d with
                     | None => (d, Throw (null_read "appendChild"))
                     | Some l =>
                         (with_chatHistoryList
                            (Some (l ++ [Main.emptyState])) d, Ret tt)
                     end
                else (d, Ret tt)))
    (λ data, "删除历史对话失败: " +:+ js_string (error data))
    (λ error, "删除历史对话出错: " +:+ error)
    (alter (λ c, ChatItem (attached c) (load_btn c)
                          (Main.btn_idle "删除" (delete_btn c))) i)
    (exec (Main.deleteChatBtn_click i confirmed) d) Hfailed)
    as ((H1 & H2 & H3 & H4 & H5 & H6 & _) & ->).
  rewrite H1. unfold dom_rest. rewrite H2, H3, H4, H5, H6.
  unfold exec, Main.deleteChatBtn_click.
  destruct (chatItems d !! i) as [item|]; [|by repeat split].
  destruct (Main.file_path_of (delete_btn item)); [|by repeat split].
  destruct confirmed; [|by repeat split].
  simpl. split; [done|]. split; [by repeat split|].
  by apply list_alter_twice.
Qed.

(** C3, as the scripts have it.  When a request ends in a failure, reported
    by the backend or by the network, the page is afterwards what it was
    before the click, and what it was when the response arrived, apart from
    the alert or the log line that reports the failure and from the control
    of the request: the start, send, save, refresh and test buttons and
    the buttons of the history items are enabled with their idle label, the
    floating button does not carry the class [saving], and the processing
    overlay of the upload is hidden.  The config form, the settings form and
    the reset button leave nothing else behind.  Two handlers leave more
    than that.  The API test reports in its result line: beside its button
    that line is the one element that is not what it was, and the chain
    changes nothing of it but its text.  And the send button does not give
    the page before the click back: its listener appended the user's entry
    to the transcript and emptied the input field before it sent the
    request, and the failed chain leaves both as they are. *)
Theorem failed_request_frame (d : document) (o : outcome) (i : nat)
    (config : jsobject)
    (Hfailed : failed o) :
  (same_but [] d (exec (Main.apiConfigForm_settled config o) d) ∧
   ∀ d1 cfg, Main.apiConfigForm_submit d = (d1, Ret cfg) →
             dom_but [] d (exec (Main.apiConfigForm_settled cfg o) d1)) ∧
  (same_but [] d (exec (Main.settingsForm_settled o) d) ∧
   dom_but [] d (exec (Main.settingsForm_settled o)
                      (exec Main.settingsForm_submit d))) ∧
  (same_but [] d (exec (Main.resetAppBtn_settled o) d) ∧
   ∀ confirmed,
     dom_but [] d (exec (Main.resetAppBtn_settled o)
                        (exec (Main.resetAppBtn_click confirmed) d))) ∧
  (let d' := exec (Main.startNarrativeBtn_settled o) d in
   let d2 := exec (Main.startNarrativeBtn_settled o)
                  (exec Main.startNarrativeBtn_click d) in
   (same_but ["start-narrative-btn"] d d' ∧
    byId d' !! "start-narrative-btn"
      = idle "开始旅程" <$> byId d !! "start-narrative-btn") ∧
   (dom_but ["start-narrative-btn"] d d2 ∧
    byId d2 !! "start-narrative-btn"
      = idle "开始旅程" <$> byId d !! "start-narrative-btn")) ∧
  (let d' := exec (Main.sendActionBtn_settled o) d in
   same_but ["send-action-btn"] d d' ∧
   byId d' !! "send-action-btn" = idle "发送" <$> byId d !! "send-action-btn") ∧
  (let d' := exec (Main.saveGameBtn_settled o) d in
   let d2 := exec (Main.saveGameBtn_settled o)
                  (exec Main.saveGameBtn_click d) in
   (same_but ["save-game-btn"] d d' ∧
    byId d' !! "save-game-btn"
      = idle "保存游戏" <$> byId d !! "save-game-btn") ∧
   (dom_but ["save-game-btn"] d d2 ∧
    byId d2 !! "save-game-btn"
      = idle "保存游戏" <$> byId d !! "save-game-btn")) ∧
  (let d' := exec (Main.refreshOllamaModels_settled o) d in
   let d2 := exec (Main.refreshOllamaModels_settled o)
                  (exec Main.refreshOllamaModels d) in
   (same_but ["refresh-models-btn"] d d' ∧
    byId d' !! "refresh-models-btn"
      = idle "刷新模型列表" <$> byId d !! "refresh-models-btn") ∧
   (dom_but ["refresh-models-btn"] d d2 ∧
    byId d2 !! "refresh-models-btn"
      = idle "刷新模型列表" <$> byId d !! "refresh-models-btn")) ∧
  (let d' := exec (Main.loadChatBtn_settled i o) d in
   let d2 := exec (Main.loadChatBtn_settled i o)
                  (exec (Main.loadChatBtn_click i) d) in
   let enabled c := ChatItem (attached c) (Main.btn_idle "加载" (load_btn c))
                             (delete_btn c) in
   (same_page d d' ∧ chatItems d' = alter enabled i (chatItems d)) ∧
   (byId d2 = byId d ∧ dom_rest d d2 ∧
    chatItems d2 = alter enabled i (chatItems d))) ∧
  (let d' := exec (Main.deleteChatBtn_settled i o) d in
   let enabled c := ChatItem (attached c) (load_btn c)
                             (Main.btn_idle "删除" (delete_btn c)) in
   (same_page d d' ∧ chatItems d' = alter enabled i (chatItems d)) ∧
   ∀ confirmed,
     let d2 := exec (Main.deleteChatBtn_settled i o)
                    (exec (Main.deleteChatBtn_click i confirmed) d) in
     byId d2 = byId d ∧ dom_rest d d2 ∧
     chatItems d2 = alter enabled i (chatItems d)) ∧
  (let d' := exec (FloatingSave.globalSaveButton_settled config o) d in
   (same_but ["global-save-button"] d d' ∧
    byId d' !! "global-save-button"
      = (λ e, set_classList (class_remove "saving" (classList e)) e)
          <$> byId d !! "global-save-button") ∧
   ∀ d1 cfg,
     FloatingSave.globalSaveButton_click d = (d1, Ret (Some cfg)) →
     dom_but [] d (exec (FloatingSave.globalSaveButton_settled cfg o) d1)) ∧
  (let d' := exec (Main.novelUploadForm_settled o) d in
   let d2 := exec (Main.novelUploadForm_settled o)
                  (exec Main.novelUploadForm_submit d) in
   (same_but ["processing-card"] d d' ∧
    byId d' !! "processing-card"
      = set_display "none" <$> byId d !! "processing-card") ∧
   (dom_but ["processing-card"] d d2 ∧
    byId d2 !! "processing-card"
      = set_display "none" <$> byId d !! "processing-card")) ∧
  (let d' := exec (Main.testApiBtn_settled o) d in
   let d2 := exec (Main.testApiBtn_settled o)
                  (exec Main.testApiBtn_click d) in
   (same_but ["test-api-btn"; "test-result"] d d' ∧
    byId d' !! "test-api-btn" = idle "测试连接" <$> byId d !! "test-api-btn" ∧
    ∃ msg, byId d' !! "test-result"
           = set_textContent msg <$> byId d !! "test-result") ∧
   (dom_but ["test-api-btn"; "test-result"] d d2 ∧
    byId d2 !! "test-api-btn"
      = idle "测试连接" <$> byId d !! "test-api-btn")) ∧
  (∀ input history button,
     byId d !! "user-action" = Some input →
     is_empty (value input) = false →
     byId d !! "narrative-history" = Some history →
     byId d !! "send-action-btn" = Some button →
     let d1 := exec Main.sendActionBtn_click d in
     let d2 := exec (Main.sendActionBtn_settled o) d1 in
     same_but ["send-action-btn"] d1 d2 ∧
     (∃ msg, alerts d2 = alerts d1 ++ [msg]) ∧
     button_is "send-action-btn" false "发送" d2 ∧
     children <$> byId d2 !! "narrative-history"
       = Some (children history ++
                 [Main.message "user-message" "用户" (value input)]) ∧
     value <$> byId d2 !! "user-action" = Some "" ∧
     dom_but ["send-action-btn"; "narrative-history"; "user-action"] d d2).
Proof.
  assert (∀ p cfg, same_but [] p (exec (Main.apiConfigForm_settled cfg o) p))
    as Hconfig.
  { intros p cfg. unfold Main.apiConfigForm_settled.
    destruct (failed_chain o
      (λ _, Main.updateModelDisplay cfg ;;; alert "API配置已保存")
      (λ data, "保存API配置失败: " +:+ js_string (error data))
      (λ error, "保存API配置出错: " +:+ error) (ret tt) p Hfailed) as [msg ->].
    apply same_but_alert. }
  assert (∀ p, same_but [] p (exec (Main.settingsForm_settled o) p))
    as Hsettings.
  { intros p. unfold Main.settingsForm_settled.
    destruct (failed_chain o (λ _, alert "设置已保存") (λ _, "保存设置失败")
      (λ error, "保存设置出错: " +:+ error) (ret tt) p Hfailed) as [msg ->].
    apply same_but_alert. }
  assert (∀ p, same_but [] p (exec (Main.resetAppBtn_settled o) p))
    as Hreset.
  { intros p. unfold Main.resetAppBtn_settled.
    destruct (failed_chain o (λ _, alert "应用已重置" ;;; Main.reload)
      (λ _, "重置应用失败")
      (λ error, "重置应用出错: " +:+ error) (ret tt) p Hfailed) as [msg ->].
    apply same_but_alert. }
  assert (∀ p, let p' := exec (Main.sendActionBtn_settled o) p in
               same_but ["send-action-btn"] p p' ∧
               byId p' !! "send-action-btn"
                 = idle "发送" <$> byId p !! "send-action-btn") as Hsend.
  { intros p.
    apply (failed_button_chain o
             (λ data, Main.appendChild "narrative-history"
                        (Main.message "ai-message" "系统"
                           (js_string (response_text data))))
             (λ data, "处理行动失败: " +:+ js_string (error data))
             (λ error, "处理行动出错: " +:+ error)); done. }
  assert (∀ p, let p' := exec (Main.saveGameBtn_settled o) p in
               same_but ["save-game-btn"] p p' ∧
               byId p' !! "save-game-btn"
                 = idle "保存游戏" <$> byId p !! "save-game-btn") as Hsave.
  { intros p.
    apply (failed_button_chain o (λ _, alert "游戏已保存")
             (λ data, "保存游戏失败: " +:+ js_string (error data))
             (λ error, "保存游戏出错: " +:+ error)); done. }
  split.
  { split; [apply Hconfig|]. intros d1 cfg Hsubmit.
    unfold Main.apiConfigForm_submit, bind in Hsubmit.
    destruct (Main.apiConfigForm_collect d) as [d0 [c|e]] eqn:E; [|done].
    apply apiConfigForm_collect_run in E as [-> ->].
    unfold fetch, ret in Hsubmit. simplify_eq/=.
    eapply dom_but_trans; [|apply same_but_dom_but, Hconfig].
    by repeat split. }
  split.
  { split; [apply Hsettings|].
    eapply dom_but_trans; [|apply same_but_dom_but, Hsettings].
    assert (frames [] Main.settingsForm_submit) as H
      by (unfold Main.settingsForm_submit; auto 20 with frames).
    apply H. }
  split.
  { split; [apply Hreset|]. intros confirmed.
    eapply dom_but_trans; [|apply same_but_dom_but, Hreset].
    destruct confirmed; by repeat split. }
  split.
  { split; [by apply startNarrativeBtn_failed_frame|].
    apply (click_then_fail _ _ (busy "初始化中...") _
             Main.startNarrativeBtn_click); [| |done|..];
      [unfold Main.startNarrativeBtn_click; auto with frames
      |unfold Main.startNarrativeBtn_click; auto 10 with inv
      |by apply startNarrativeBtn_failed_frame..]. }
  split; [apply Hsend|].
  split.
  { split; [apply Hsave|].
    apply (click_then_fail _ _ (busy "保存中...") _ Main.saveGameBtn_click); [| |done|..];
      [unfold Main.saveGameBtn_click; auto with frames
      |unfold Main.saveGameBtn_click; auto 10 with inv
      |apply Hsave..]. }
  split.
  { split; [by apply refreshOllamaModels_failed_frame|].
    apply (click_then_fail _ _ (busy "正在获取模型列表...") _
             Main.refreshOllamaModels); [| |done|..];
      [unfold Main.refreshOllamaModels; auto 10 with frames
      |auto 10 with inv
      |by apply refreshOllamaModels_failed_frame..]. }
  split.
  { split; [|by apply loadChatBtn_round_trip].
    unfold Main.loadChatBtn_settled, Main.update_load_btn.
    apply (chat_failed_frame o
             (λ _, (λ d, match Main.find_nav "home" (navItems d) with
                         | None => (d, Throw (null_read "click"))
                         | Some j => Main.nav_click j d
                         end) ;;;
                   write "initializing-narrative-card" "style"
                         (set_display "flex"))
             (λ data, "加载历史对话失败: " +:+ js_string (error data))
             (λ error, "加载历史对话出错: " +:+ error)); done. }
  split.
  { split; [|intros confirmed; by apply deleteChatBtn_round_trip].
    unfold Main.deleteChatBtn_settled, Main.update_delete_btn.
    apply (chat_failed_frame o
             (λ _, (λ d, (with_chatItems
                            (alter (λ c, ChatItem false (load_btn c)
                                                  (delete_btn c)) i) d,
                          Ret tt)) ;;;
                   (λ d, if bool_decide
                              (filter (λ c, attached c = true) (chatItems d)
                               = [])
                         then match chatHistoryList d with
                              | None => (d, Throw (null_read "appendChild"))
                              | Some l =>
                                  (with_chatHistoryList
                                     (Some (l ++ [Main.emptyState])) d, Ret tt)
                              end
                         else (d, Ret tt)))
             (λ data, "删除历史对话失败: " +:+ js_string (error data))
             (λ error, "删除历史对话出错: " +:+ error)); done. }
  split.
  { split; [|intros d1 cfg; by apply globalSaveButton_round_trip].
    apply (failed_button_chain o
             (λ _, FloatingSave.updateModelDisplay config ;;;
                   FloatingSave.showSaveToast)
             (λ data, "保存全局设置失败: " +:+ js_string (error data))
             (λ error, "保存全局设置出错: " +:+ error)); done. }
  split.
  { split; [by apply novelUploadForm_failed_frame|].
    apply (click_then_fail _ _ (set_display "flex") _
             Main.novelUploadForm_submit); [| |done|..];
      [apply frames_novelUploadForm_submit
      |auto 10 with inv
      |by apply novelUploadForm_failed_frame..]. }
  split.
  { split; [by apply testApiBtn_failed_frame|].
    destruct (testApiBtn_failed_frame o (exec Main.testApiBtn_click d) Hfailed)
      as (H1 & H2 & _).
    apply (click_then_fail _ _ (busy "测试中...") _ Main.testApiBtn_click); [| |done|done..];
      [unfold Main.testApiBtn_click; auto 10 with frames
      |unfold Main.testApiBtn_click; auto 10 with inv]. }
  intros input history button Hinput Htyped Hhistory Hbutton d1 d2.
  destruct (sendActionBtn_failed_run d1 o Hfailed) as [msg Hd2].
  fold d2 in Hd2.
  pose proof (sendActionBtn_click_run d input history Hinput Htyped Hhistory)
    as Hd1. fold d1 in Hd1.
  assert (same_but ["send-action-btn"] d1 d2) as Hsame.
  { rewrite Hd2. split; [|done].
    intros id Hid. cbn [byId with_byId with_alerts].
    rewrite lookup_alter_ne; [done|]. intros <-. apply Hid.
    apply list_elem_of_here. }
  split; [done|].
  split; [exists msg; by rewrite Hd2|].
  assert (dom_but ["send-action-btn"; "narrative-history"; "user-action"]
            d d2) as Hdom.
  { eapply dom_but_trans.
    - assert (frames ["send-action-btn"; "narrative-history"; "user-action"]
                Main.sendActionBtn_click) as H
        by (unfold Main.sendActionBtn_click; auto 10 with frames).
      apply H.
    - apply same_but_dom_but. destruct Hsame as [H1 H2].
      split; [|done]. intros id Hid. apply H1. intros Hin. apply Hid.
      apply list_elem_of_singleton in Hin as ->. apply list_elem_of_here. }
  rewrite Hd2, Hd1. unfold button_is.
  cbn [byId with_byId with_alerts with_fetches].
  split; [|split; [|split]].
  - lookups. rewrite Hbutton. eexists. done.
  - by lookups.
  - by lookups.
  - rewrite Hd2, Hd1 in Hdom. exact Hdom.
Qed.

(** On the page of a running story, with an action typed in, a refused
    request leaves a transcript and an input field that are not the ones
    before the click. *)
Lemma failed_action_changes_page :
  let d := narrating_page in
  let d1 := exec Main.sendActionBtn_click d in
  let d2 := exec (Main.sendActionBtn_settled (refused "模型不可用")) d1 in
  children <$> byId d2 !! "narrative-history"
    ≠ children <$> byId d !! "narrative-history" ∧
  value <$> byId d2 !! "user-action" ≠ value <$> byId d !! "user-action".
Proof. split; vm_compute; discriminate. Qed.

(** The settings form alerts its fixed sentence: the reason the backend
    gave is nowhere in what the user is shown. *)
Lemma settings_failure_hides_reason :
  let d := exec (Main.settingsForm_settled (refused "数据库被锁定"))
             waiting_page in
  alerts d = ["保存设置失败"] ∧
  existsb (includes "数据库被锁定") (alerts d) = false.
Proof. split; vm_compute; reflexivity. Qed.
(** ** The theorems at work on the served pages *)

Lemma floating_save_two_states_witness :
  let d := with_byId
             (alter (λ e, set_classList ["floating-save-button"; "saving"] e)
                    "global-save-button") waiting_page in
  FloatingSave.saving d = true ∧
  FloatingSave.globalSaveButton_click d = (d, Ret None).
Proof.
  intros d. split; [vm_compute; reflexivity|].
  apply (proj1 (floating_save_two_states d [] (Rejected "offline"))).
  vm_compute. reflexivity.
Defined.

Lemma floating_button_follows_section_witness :
  ∃ e, byId (exec (Main.nav_click 2) waiting_page) !! "global-save-button"
         = Some e ∧
       display e = "flex" ∧
       (display e ≠ "none" ↔ Some "api-config" = Some "api-config").
Proof.
  apply (floating_button_follows_section waiting_page 2
           (NavItem (Some "api-config") ["nav-item"])).
  - vm_compute. reflexivity.
  - eexists. vm_compute. reflexivity.
Defined.

Lemma nav_click_shows_one_section_witness :
  let item := NavItem (Some "chat") ["nav-item"] in
  let d' := exec (Main.nav_click 1) waiting_page in
  (∃ e, byId d' !! section_of item = Some e ∧
        "content-section" ∈ classList e ∧ display e = "block") ∧
  (∀ id e, byId d' !! id = Some e → "content-section" ∈ classList e →
           (display e ≠ "none" ↔ id = section_of item)).
Proof.
  apply (nav_click_shows_one_section waiting_page 1
           (NavItem (Some "chat") ["nav-item"])).
  - vm_compute. reflexivity.
  - eexists. split; [vm_compute; reflexivity|].
    apply (bool_decide_unpack _). vm_compute. exact I.
  - intros e He. vm_compute in He. injection He as <-.
    apply (bool_decide_unpack _). vm_compute. exact I.
Defined.

Lemma upload_only_txt_witness :
  let d := with_byId
             (alter (λ e, Element (classList e) (display e) (disabled e)
                            (textContent e) (value e) (checked e)
                            ["封面.pdf"] (children e)) "novel-file")
             waiting_page in
  ∃ msg, alerts (exec Main.novelUploadForm_submit d) = alerts d ++ [msg] ∧
         fetches (exec Main.novelUploadForm_submit d) = fetches d ∧
         byId (exec Main.novelUploadForm_submit d) = byId d ∧
         display <$> byId (exec Main.novelUploadForm_submit d) !! "processing-card"
           = display <$> byId d !! "processing-card".
Proof.
  intros d.
  refine (proj2 (upload_only_txt d
                   (Element ["file-upload-input"] "" false "" "" false
                            ["封面.pdf"] [])
                   (Template.input ["form-control"] "") _ _) _).
  - vm_compute. reflexivity.
  - vm_compute. reflexivity.
  - right. eexists. split; vm_compute; reflexivity.
Defined.

Lemma refused_request_messages_witness :
  alerts (exec (Main.saveGameBtn_settled (refused "磁盘已满")) waiting_page)
  = alerts waiting_page ++ ["保存游戏失败: " +:+ "磁盘已满"].
Proof.
  refine (proj1 (proj2 (proj2 (proj2 (proj2
            (refused_request_messages waiting_page
               (Response false (Some "磁盘已满") None None None) "磁盘已满"
               [] 0
               (Template.box ["processing-overlay"] "none")
               (Template.box ["test-result"] "none") _ _ _ _)))))).
  - reflexivity.
  - reflexivity.
  - vm_compute. reflexivity.
  - vm_compute. reflexivity.
Defined.

Lemma draft_branches_follow_flag_witness :
  ∃ cfg, outcome_of FloatingSave.collectGlobalConfig waiting_page = Ret cfg ∧
         draft_branches waiting_page cfg.
Proof. apply (proj2 (draft_branches_follow_flag waiting_page)). Defined.


Lemma failed_request_frame_witness :
  let d1 := exec Main.sendActionBtn_click narrating_page in
  let d2 := exec (Main.sendActionBtn_settled (refused "模型不可用")) d1 in
  children <$> byId d2 !! "narrative-history"
    = Some ([Main.message "ai-message" "系统" "你在一间书房里醒来。"] ++
            [Main.message "user-message" "用户" "推开门"]) ∧
  value <$> byId d2 !! "user-action" = Some "".
Proof.
  assert (failed (refused "模型不可用")) as Hfailed by reflexivity.
  pose proof (failed_request_frame narrating_page (refused "模型不可用") 0 []
                Hfailed) as H.
  do 12 (apply proj2 in H).
  specialize (H (Template.input ["form-control"] "推开门")
                (Element ["narrative-history"] "" false "" "" false []
                   [Main.message "ai-message" "系统" "你在一间书房里醒来。"])
                (Template.button ["btn"; "btn-primary"] "发送")).
  destruct H as (_ & _ & _ & H4 & H5 & _).
  - vm_compute. reflexivity.
  - reflexivity.
  - vm_compute. reflexivity.
  - vm_compute. reflexivity.
  - split; [exact H4|exact H5].
Defined.
(** ** Every event *)

Lemma keeps_querySelector_checked name : keeps (querySelector_checked name).
Proof. by intros d. Qed.

Lemma keeps_read_opt {A} id (f : element → A) : keeps (read_opt id f).
Proof. by intros d. Qed.

Lemma keeps_main_updateModelDisplay config :
  keeps (Main.updateModelDisplay config).
Proof.
  intros d. unfold Main.updateModelDisplay.
  destruct (modelDisplay1 d) eqn:E1, (modelDisplay2 d) eqn:E2; simpl;
    rewrite ?E2; (split; [intros id H; exact H|reflexivity]).
Qed.

Lemma keeps_floating_updateModelDisplay config :
  keeps (FloatingSave.updateModelDisplay config).
Proof.
  intros d. unfold FloatingSave.updateModelDisplay.
  destruct (modelDisplay1 d) eqn:E1, (modelDisplay2 d) eqn:E2; simpl;
    rewrite ?E2; (split; [intros id H; exact H|reflexivity]).
Qed.

#[global] Hint Resolve keeps_querySelector_checked keeps_read_opt
  keeps_main_updateModelDisplay keeps_floating_updateModelDisplay : keeps.

Lemma keeps_main_custom_model kind config :
  keeps (Main.custom_model kind config).
Proof.
  unfold Main.custom_model. apply keeps_bind; [auto with keeps|].
  intros [v|]; [|auto with keeps]. apply keeps_if; [|auto with keeps].
  apply keeps_bind; [auto with keeps|].
  intros [t|]; [|auto with keeps]. apply keeps_if; auto with keeps.
Qed.

Lemma keeps_apiConfigForm_submit : keeps Main.apiConfigForm_submit.
Proof.
  pose proof keeps_main_custom_model.
  unfold Main.apiConfigForm_submit, Main.apiConfigForm_collect.
  apply keeps_bind; [|auto with keeps].
  apply keeps_bind; [auto with keeps|]. intros online.
  apply keeps_bind; [|auto with keeps].
  apply keeps_if.
  - apply keeps_bind; [auto with keeps|]. intros u.
    apply keeps_bind; [auto with keeps|]. intros [e|]; auto with keeps.
  - auto 10 with keeps.
Qed.

Lemma keeps_collectGlobalConfig : keeps FloatingSave.collectGlobalConfig.
Proof. intros d. by rewrite collectGlobalConfig_run. Qed.

Lemma keeps_globalSaveButton_click : keeps FloatingSave.globalSaveButton_click.
Proof.
  pose proof keeps_collectGlobalConfig.
  intros d. unfold FloatingSave.globalSaveButton_click.
  destruct (FloatingSave.saving d); [done|].
  revert d. change (keeps
    (update "global-save-button"
       (λ e, set_classList (class_add "saving" (classList e)) e) ;;;
     let* config := FloatingSave.collectGlobalConfig in
     fetch "/api/update_api_config" (JsonBody config) ;;; ret (Some config))).
  auto 10 with keeps.
Qed.

Lemma keeps_fileInput_change : keeps Main.fileInput_change.
Proof.
  intros d. unfold Main.fileInput_change.
  destruct (byId d !! "novel-file") as [this|]; [|done].
  destruct (byId d !! "file-name-display"); [|done].
  destruct (head (files this)); apply keeps_update.
Qed.

Lemma keeps_radio_change this other show hide :
  keeps (Main.radio_change this other show hide).
Proof.
  intros d. unfold Main.radio_change.
  destruct (byId d !! this) as [radio|]; [|done].
  destruct (byId d !! other); [|done].
  destruct (checked radio); [|done].
  revert d. change (keeps (write show "style" (set_display "block") ;;;
                           write hide "style" (set_display "none"))).
  auto with keeps.
Qed.

Lemma keeps_radio_change_hide_first this other show hide :
  keeps (Main.radio_change_hide_first this other show hide).
Proof.
  intros d. unfold Main.radio_change_hide_first.
  destruct (byId d !! this) as [radio|]; [|done].
  destruct (byId d !! other); [|done].
  destruct (checked radio); [|done].
  revert d. change (keeps (write hide "style" (set_display "none") ;;;
                           write show "style" (set_display "block"))).
  auto with keeps.
Qed.

Lemma keeps_modelOption_change kind this :
  keeps (Main.modelOption_change kind this).
Proof.
  intros d. unfold Main.modelOption_change.
  destruct (byId d !! this) as [option|]; [|done].
  destruct (byId d !! (kind +:+ "-custom-settings")); [|done].
  destruct (bool_decide (value option = "custom") && checked option);
    [apply keeps_update|].
  destruct (checked option); [apply keeps_update|done].
Qed.

Lemma keeps_slider_input slider valueDisplay :
  keeps (Main.slider_input slider valueDisplay).
Proof.
  intros d. unfold Main.slider_input.
  destruct (byId d !! "settings-form"); [|done].
  destruct (byId d !! slider); [|done].
  destruct (byId d !! valueDisplay); [apply keeps_update|done].
Qed.

Lemma keeps_loadChatBtn_click i : keeps (Main.loadChatBtn_click i).
Proof.
  intros d. unfold Main.loadChatBtn_click.
  destruct (chatItems d !! i) as [item|]; [|done].
  destruct (Main.file_path_of (load_btn item)); [|done].
  split; [done|]. simpl. by rewrite length_alter.
Qed.

Lemma keeps_deleteChatBtn_click i confirmed :
  keeps (Main.deleteChatBtn_click i confirmed).
Proof.
  intros d. unfold Main.deleteChatBtn_click.
  destruct (chatItems d !! i) as [item|]; [|done].
  destruct (Main.file_path_of (delete_btn item)); [|done].
  destruct confirmed; [|done].
  split; [done|]. simpl. by rewrite length_alter.
Qed.

Lemma keeps_handle e : keeps (handle e).
Proof.
  destruct e; simpl.
  - apply keeps_nav_click.
  - apply keeps_fileInput_change.
  - destruct online;
      [apply keeps_radio_change_hide_first|apply keeps_radio_change].
  - apply keeps_modelOption_change.
  - destruct online;
      [apply keeps_radio_change_hide_first|apply keeps_radio_change].
  - apply keeps_slider_input.
  - apply keeps_refreshOllamaModels.
  - apply keeps_settled_refresh.
  - pose proof keeps_apiConfigForm_submit. auto with keeps.
  - unfold Main.apiConfigForm_settled. auto 10 with keeps.
  - unfold Main.testApiBtn_click. auto 10 with keeps.
  - unfold Main.testApiBtn_settled. auto 10 with keeps.
  - unfold Main.settingsForm_submit. auto 20 with keeps.
  - unfold Main.settingsForm_settled. auto 10 with keeps.
  - unfold Main.resetAppBtn_click. auto with keeps.
  - unfold Main.resetAppBtn_settled. auto 10 with keeps.
  - unfold Main.novelUploadForm_submit.
    apply keeps_bind; [auto with keeps|]. intros file.
    apply keeps_bind; [auto with keeps|]. intros title.
    destruct file; auto 10 with keeps.
  - unfold Main.novelUploadForm_settled. auto 10 with keeps.
  - unfold Main.startNarrativeBtn_click. auto with keeps.
  - apply keeps_settled_start.
  - unfold Main.sendActionBtn_click. auto 10 with keeps.
  - apply keeps_settled_send.
  - unfold Main.saveGameBtn_click. auto with keeps.
  - apply keeps_settled_save.
  - unfold Main.closeNarrativeBtn_click. auto with keeps.
  - apply keeps_loadChatBtn_click.
  - apply keeps_settled_load.
  - apply keeps_deleteChatBtn_click.
  - apply keeps_settled_delete.
  - pose proof keeps_globalSaveButton_click. auto with keeps.
  - unfold FloatingSave.globalSaveButton_settled, FloatingSave.showSaveToast.
    auto 10 with keeps.
  - unfold FloatingSave.hideToast. auto with keeps.
Qed.

(** The transcript under the handlers. *)
Create HintDb grows.

Lemma extend_nil {A} (o : option (list A)) : (λ l, l ++ []) <$> o = o.
Proof. destruct o; simpl; [by rewrite app_nil_r|done]. Qed.

Lemma extend_twice {A} (o : option (list A)) l1 l2 :
  (λ l, l ++ l2) <$> ((λ l, l ++ l1) <$> o) = (λ l, l ++ (l1 ++ l2)) <$> o.
Proof. destruct o; simpl; [by rewrite app_assoc|done]. Qed.

Lemma grows_same {A} (m : M A) :
  (∀ d, transcript (m d).1 = transcript d) → grows m.
Proof. intros H d. exists []. by rewrite extend_nil. Qed.

Lemma grows_ret {A} (a : A) : grows (ret a).
Proof. by apply grows_same. Qed.

Lemma grows_throw {A} e : grows (@throw A e).
Proof. by apply grows_same. Qed.

Lemma grows_bind {A B} (m : M A) (k : A → M B) :
  grows m → (∀ a, grows (k a)) → grows (bind m k).
Proof.
  intros Hm Hk d. unfold bind. destruct (Hm d) as [l1 H1].
  destruct (m d) as [d1 [a|e]]; simpl in *; [|by exists l1].
  destruct (Hk a d1) as [l2 H2]. exists (l1 ++ l2).
  by rewrite H2, H1, extend_twice.
Qed.

Lemma grows_try_catch {A} (m : M A) h :
  grows m → (∀ e, grows (h e)) → grows (try_catch m h).
Proof.
  intros Hm Hh d. unfold try_catch. destruct (Hm d) as [l1 H1].
  destruct (m d) as [d1 [a|e]]; simpl in *; [by exists l1|].
  destruct (Hh e d1) as [l2 H2]. exists (l1 ++ l2).
  by rewrite H2, H1, extend_twice.
Qed.

Lemma grows_try_finally {A} (m : M A) f :
  grows m → grows f → grows (try_finally m f).
Proof.
  intros Hm Hf d. unfold try_finally. destruct (Hm d) as [l1 H1].
  destruct (m d) as [d1 r]. destruct (Hf d1) as [l2 H2].
  exists (l1 ++ l2). simpl in *.
  destruct (f d1) as [d2 [[]|e]]; simpl in *; by rewrite H2, H1, extend_twice.
Qed.

Lemma grows_settle o onData onError onFinally :
  (∀ data, grows (onData data)) → (∀ e, grows (onError e)) →
  grows onFinally → grows (settle o onData onError onFinally).
Proof.
  intros. unfold settle. apply grows_try_finally; [|done].
  apply grows_try_catch; [|done]. destruct o; [done|apply grows_throw].
Qed.

Lemma grows_if {A} (b : bool) (m1 m2 : M A) :
  grows m1 → grows m2 → grows (if b then m1 else m2).
Proof. by destruct b. Qed.

Lemma transcript_insert id e e' (d : document) :
  byId d !! id = Some e → children e' = children e →
  transcript (with_byId <[id := e']> d) = transcript d.
Proof.
  intros He Hc. unfold transcript. simpl. rewrite lookup_insert.
  case_decide; [|done]. subst. rewrite He. simpl. by rewrite Hc.
Qed.

Lemma transcript_alter id f (d : document) :
  (∀ e, children (f e) = children e) →
  transcript (with_byId (alter f id) d) = transcript d.
Proof.
  intros Hc. unfold transcript. simpl. rewrite lookup_alter.
  case_decide; [|done]. subst.
  destruct (byId d !! "narrative-history"); simpl; [by rewrite Hc|done].
Qed.

Lemma grows_write id prop f :
  (∀ e, children (f e) = children e) → grows (write id prop f).
Proof.
  intros Hc. apply grows_same. intros d. unfold write.
  destruct (byId d !! id) eqn:E; [|done].
  eapply transcript_insert; [exact E|apply Hc].
Qed.

Lemma grows_assign id prop f :
  (∀ e, children (f e) = children e) → grows (assign id prop f).
Proof.
  intros Hc. apply grows_same. intros d. unfold assign.
  destruct (byId d !! id) eqn:E; [|done].
  eapply transcript_insert; [exact E|apply Hc].
Qed.

Lemma grows_update id f :
  (∀ e, children (f e) = children e) → grows (update id f).
Proof. intros Hc. apply grows_same. intros d. by apply transcript_alter. Qed.

Lemma grows_update_other id f :
  id ≠ "narrative-history" → grows (update id f).
Proof.
  intros Hid. apply grows_same. intros d. unfold transcript. simpl.
  by rewrite lookup_alter_ne.
Qed.

Lemma grows_appendChild id c : grows (Main.appendChild id c).
Proof.
  intros d. unfold Main.appendChild, write, transcript.
  destruct (byId d !! id) as [e|] eqn:E; simpl.
  - rewrite lookup_insert. case_decide.
    + subst. rewrite E. by exists [c].
    + exists []. by rewrite extend_nil.
  - exists []. by rewrite extend_nil.
Qed.

Lemma grows_read {A} id prop (f : element → A) : grows (read id prop f).
Proof.
  apply grows_same. intros d. unfold read. by destruct (byId d !! id).
Qed.

Lemma grows_read_opt {A} id (f : element → A) : grows (read_opt id f).
Proof. by apply grows_same. Qed.

Lemma grows_getElementById id : grows (getElementById id).
Proof. by apply grows_same. Qed.

Lemma grows_querySelector_checked name : grows (querySelector_checked name).
Proof. by apply grows_same. Qed.

Lemma grows_alert msg : grows (alert msg).
Proof. by apply grows_same. Qed.

Lemma grows_console msg : grows (console msg).
Proof. by apply grows_same. Qed.

Lemma grows_fetch u b : grows (fetch u b).
Proof. by apply grows_same. Qed.

Lemma grows_setTimeout t ms : grows (setTimeout t ms).
Proof. by apply grows_same. Qed.

Lemma grows_reload : grows Main.reload.
Proof. by apply grows_same. Qed.

Lemma grows_update_load_btn i f : grows (Main.update_load_btn i f).
Proof. by apply grows_same. Qed.

Lemma grows_update_delete_btn i f : grows (Main.update_delete_btn i f).
Proof. by apply grows_same. Qed.

Lemma grows_main_updateModelDisplay config :
  grows (Main.updateModelDisplay config).
Proof.
  apply grows_same. intros d. unfold Main.updateModelDisplay.
  destruct (modelDisplay1 d) eqn:E1, (modelDisplay2 d) eqn:E2; simpl;
    by rewrite ?E2.
Qed.

Lemma grows_floating_updateModelDisplay config :
  grows (FloatingSave.updateModelDisplay config).
Proof.
  apply grows_same. intros d. unfold FloatingSave.updateModelDisplay.
  destruct (modelDisplay1 d) eqn:E1, (modelDisplay2 d) eqn:E2; simpl;
    by rewrite ?E2.
Qed.

#[global] Hint Resolve grows_ret grows_throw grows_bind grows_try_catch
  grows_try_finally grows_settle grows_if grows_write grows_assign
  grows_update grows_appendChild grows_read grows_read_opt
  grows_getElementById grows_querySelector_checked grows_alert grows_console
  grows_fetch grows_setTimeout grows_reload grows_update_load_btn
  grows_update_delete_btn grows_main_updateModelDisplay
  grows_floating_updateModelDisplay : grows.

#[global] Hint Extern 1 (∀ e : element, children _ = children e) =>
  (intros; reflexivity) : grows.

Lemma grows_refill id ms :
  id ≠ "narrative-history" → grows (Main.refill id ms).
Proof.
  intros Hid. unfold Main.refill. apply grows_bind; [auto with grows|].
  intros [e|]; [|auto with grows].
  apply grows_bind; [by apply grows_update_other|]. intros _.
  destruct ms; [by apply grows_update_other|auto with grows].
Qed.

Lemma grows_refreshOllamaModels : grows Main.refreshOllamaModels.
Proof. unfold Main.refreshOllamaModels. auto 10 with grows. Qed.

Lemma grows_main_navItem_click i : grows (Main.navItem_click i).
Proof.
  pose proof grows_refreshOllamaModels.
  intros d. unfold Main.navItem_click.
  destruct (navItems d !! i) as [this|]; [|exists []; by rewrite extend_nil].
  set (d1 := with_byId Main.hide_sections (with_navItems (Main.activate i) d)).
  assert (transcript d1 = transcript d) as <-.
  { unfold transcript, d1, Main.hide_sections. simpl. rewrite lookup_fmap.
    destruct (byId d !! "narrative-history") as [e|]; simpl; [|done].
    by destruct (class_contains "content-section" (classList e)). }
  revert d1. generalize (with_byId Main.hide_sections
                           (with_navItems (Main.activate i) d)).
  change (grows (write (default "null" (data_section this) +:+ "-section")
                   "style" (set_display "block") ;;;
                 if bool_decide (data_section this = Some "api-config")
                 then Main.refreshOllamaModels else ret tt)).
  auto 10 with grows.
Qed.

Lemma grows_floating_navItem_click i : grows (FloatingSave.navItem_click i).
Proof.
  intros d. unfold FloatingSave.navItem_click.
  destruct (byId d !! "global-save-button");
    [|exists []; by rewrite extend_nil].
  destruct (navItems d !! i); [|exists []; by rewrite extend_nil].
  case_bool_decide; by apply grows_update.
Qed.

Lemma grows_nav_click i : grows (Main.nav_click i).
Proof.
  unfold Main.nav_click, dispatch.
  pose proof (grows_main_navItem_click i).
  pose proof (grows_floating_navItem_click i).
  auto 10 with grows.
Qed.

Lemma grows_main_custom_model kind config :
  grows (Main.custom_model kind config).
Proof.
  unfold Main.custom_model. apply grows_bind; [auto with grows|].
  intros [v|]; [|auto with grows]. apply grows_if; [|auto with grows].
  apply grows_bind; [auto with grows|].
  intros [t|]; [|auto with grows]. apply grows_if; auto with grows.
Qed.

Lemma grows_apiConfigForm_submit : grows Main.apiConfigForm_submit.
Proof.
  pose proof grows_main_custom_model.
  unfold Main.apiConfigForm_submit, Main.apiConfigForm_collect.
  apply grows_bind; [|auto with grows].
  apply grows_bind; [auto with grows|]. intros online.
  apply grows_bind; [|auto with grows].
  apply grows_if.
  - apply grows_bind; [auto with grows|]. intros u.
    apply grows_bind; [auto with grows|]. intros [e|]; auto with grows.
  - auto 10 with grows.
Qed.

Lemma grows_globalSaveButton_click : grows FloatingSave.globalSaveButton_click.
Proof.
  assert (grows FloatingSave.collectGlobalConfig) as Hc.
  { apply grows_same. intros d. by rewrite collectGlobalConfig_run. }
  intros d. unfold FloatingSave.globalSaveButton_click.
  destruct (FloatingSave.saving d); [exists []; by rewrite extend_nil|].
  revert d. change (grows
    (update "global-save-button"
       (λ e, set_classList (class_add "saving" (classList e)) e) ;;;
     let* config := FloatingSave.collectGlobalConfig in
     fetch "/api/update_api_config" (JsonBody config) ;;; ret (Some config))).
  auto 10 with grows.
Qed.

Lemma grows_radio_change this other show hide :
  grows (Main.radio_change this other show hide).
Proof.
  intros d. unfold Main.radio_change.
  destruct (byId d !! this) as [radio|]; [|exists []; by rewrite extend_nil].
  destruct (byId d !! other); [|exists []; by rewrite extend_nil].
  destruct (checked radio); [|exists []; by rewrite extend_nil].
  revert d. change (grows (write show "style" (set_display "block") ;;;
                           write hide "style" (set_display "none"))).
  auto with grows.
Qed.

Lemma grows_radio_change_hide_first this other show hide :
  grows (Main.radio_change_hide_first this other show hide).
Proof.
  intros d. unfold Main.radio_change_hide_first.
  destruct (byId d !! this) as [radio|]; [|exists []; by rewrite extend_nil].
  destruct (byId d !! other); [|exists []; by rewrite extend_nil].
  destruct (checked radio); [|exists []; by rewrite extend_nil].
  revert d. change (grows (write hide "style" (set_display "none") ;;;
                           write show "style" (set_display "block"))).
  auto with grows.
Qed.

Lemma grows_handle e : grows (handle e).
Proof.
  destruct e; simpl.
  - apply grows_nav_click.
  - intros d. unfold Main.fileInput_change.
    destruct (byId d !! "novel-file") as [this|];
      [|exists []; by rewrite extend_nil].
    destruct (byId d !! "file-name-display");
      [|exists []; by rewrite extend_nil].
    destruct (head (files this)); by apply grows_update.
  - destruct online;
      [apply grows_radio_change_hide_first|apply grows_radio_change].
  - intros d. unfold Main.modelOption_change.
    destruct (byId d !! this) as [option|];
      [|exists []; by rewrite extend_nil].
    destruct (byId d !! (kind +:+ "-custom-settings"));
      [|exists []; by rewrite extend_nil].
    destruct (bool_decide (value option = "custom") && checked option);
      [by apply grows_update|].
    destruct (checked option);
      [by apply grows_update|exists []; by rewrite extend_nil].
  - destruct online;
      [apply grows_radio_change_hide_first|apply grows_radio_change].
  - intros d. unfold Main.slider_input.
    destruct (byId d !! "settings-form"); [|exists []; by rewrite extend_nil].
    destruct (byId d !! slider_id s); [|exists []; by rewrite extend_nil].
    destruct (byId d !! (slider_id s +:+ "-value"));
      [by apply grows_update|exists []; by rewrite extend_nil].
  - apply grows_refreshOllamaModels.
  - unfold Main.refreshOllamaModels_settled.
    pose proof (grows_refill "analysis-ollama-model-select").
    pose proof (grows_refill "writing-ollama-model-select").
    apply grows_settle; [|auto with grows..].
    intros data. apply grows_if; [|auto with grows].
    apply grows_bind; [auto|]. intros _.
    apply grows_bind; [auto|]. auto with grows.
  - pose proof grows_apiConfigForm_submit. auto with grows.
  - unfold Main.apiConfigForm_settled. auto 10 with grows.
  - unfold Main.testApiBtn_click. auto 10 with grows.
  - unfold Main.testApiBtn_settled. auto 10 with grows.
  - unfold Main.settingsForm_submit. auto 20 with grows.
  - unfold Main.settingsForm_settled. auto 10 with grows.
  - unfold Main.resetAppBtn_click. auto with grows.
  - unfold Main.resetAppBtn_settled. auto 10 with grows.
  - unfold Main.novelUploadForm_submit.
    apply grows_bind; [auto with grows|]. intros file.
    apply grows_bind; [auto with grows|]. intros title.
    destruct file; auto 10 with grows.
  - unfold Main.novelUploadForm_settled. auto 10 with grows.
  - unfold Main.startNarrativeBtn_click. auto with grows.
  - unfold Main.startNarrativeBtn_settled. auto 10 with grows.
  - unfold Main.sendActionBtn_click. auto 10 with grows.
  - unfold Main.sendActionBtn_settled. auto 10 with grows.
  - unfold Main.saveGameBtn_click. auto with grows.
  - unfold Main.saveGameBtn_settled. auto 10 with grows.
  - unfold Main.closeNarrativeBtn_click. auto with grows.
  - apply grows_same. intros d. unfold Main.loadChatBtn_click.
    destruct (chatItems d !! i) as [item|]; [|done].
    by destruct (Main.file_path_of (load_btn item)).
  - unfold Main.loadChatBtn_settled. apply grows_settle; auto with grows.
    intros data. apply grows_if; [|auto with grows].
    apply grows_bind; [|auto with grows].
    intros d. destruct (Main.find_nav "home" (navItems d));
      [apply grows_nav_click|exists []; by rewrite extend_nil].
  - apply grows_same. intros d. unfold Main.deleteChatBtn_click.
    destruct (chatItems d !! i) as [item|]; [|done].
    destruct (Main.file_path_of (delete_btn item)); [|done].
    by destruct confirmed.
  - unfold Main.deleteChatBtn_settled. apply grows_settle; auto with grows.
    intros data. apply grows_if; [|auto with grows].
    apply grows_bind; [by apply grows_same|].
    intros _. apply grows_same. intros d. case_bool_decide; [|done].
    by destruct (chatHistoryList d).
  - pose proof grows_globalSaveButton_click. auto with grows.
  - unfold FloatingSave.globalSaveButton_settled, FloatingSave.showSaveToast.
    auto 10 with grows.
  - unfold FloatingSave.hideToast. auto with grows.
Qed.

Lemma run_keeps es d id : present id d → present id (run es d).
Proof.
  revert d. induction es as [|e es IH]; intros d Hid; [done|].
  simpl. apply IH.
  assert (keeps (try_catch (handle e)
                   (λ err, console ("Uncaught " +:+ err)))) as Hk
    by (apply keeps_try_catch; [apply keeps_handle|auto with keeps]).
  by apply (Hk d).
Qed.

Lemma run_grows es d :
  ∃ l', transcript (run es d) = (λ l, l ++ l') <$> transcript d.
Proof.
  revert d. induction es as [|e es IH]; intros d.
  { exists []. by rewrite extend_nil. }
  simpl. destruct (IH (fire e d)) as [l2 H2].
  assert (grows (try_catch (handle e)
                   (λ err, console ("Uncaught " +:+ err)))) as Hg
    by (apply grows_try_catch; [apply grows_handle|auto with grows]).
  destruct (Hg d) as [l1 G]. exists (l1 ++ l2).
  unfold fire, exec in *. by rewrite H2, G, extend_twice.
Qed.

(** X1. Through every sequence of listener calls, settled requests and
    timer callbacks, in any order, that does not reload the page, the
    listeners of the two scripts remove no element that has an id, the
    transcript is only ever extended at its end (its earlier entries stay,
    in their order), and a history item is attached after the sequence
    exactly if it was before, unless the sequence holds the settling of a
    deletion of that very item that the backend confirmed.  (The markup a
    listener assigns through [innerHTML] is recorded as the listener wrote
    it; what a browser makes of markup inside a response is not part of the
    scripts.) *)
Theorem scripts_only_append (es : list event) (d : document)
    (Hes : forallb (λ e, negb (reloads e)) es = true) :
  (∀ id, present id d → present id (run es d)) ∧
  (∃ l', transcript (run es d) = (λ l, l ++ l') <$> transcript d) ∧
  (∀ i, forallb (λ e, negb (deletes i e)) es = true →
        attached <$> chatItems (run es d) !! i
        = attached <$> chatItems d !! i).
Proof.
  split; [intros id; apply run_keeps|]. split; [apply run_grows|].
  intros i Hi.
  apply (inv_run (attached_is i (attached <$> chatItems d !! i))
                 (λ e, negb (deletes i e)) es d); [|exact Hi|done].
  intros e He. apply item_stays. by apply negb_true_iff.
Qed.

Lemma scripts_only_append_witness :
  let es := [SaveClick; NavClick 1; DeleteClick 0 true;
             DeleteSettled 0 (refused "文件不存在")] in
  (∃ l', transcript (run es waiting_page)
         = (λ l, l ++ l') <$> transcript waiting_page) ∧
  attached <$> chatItems (run es waiting_page) !! 0
  = attached <$> chatItems waiting_page !! 0.
Proof.
  intros es.
  assert (forallb (λ e, negb (reloads e)) es = true) as Hes by reflexivity.
  pose proof (scripts_only_append es waiting_page Hes) as (_ & H2 & H3).
  split; [exact H2|]. apply H3. reflexivity.
Defined.
(** ** Saving the game, sending an action *)

(** X2. The chain of the save button touches nothing but the alert list
    and the button itself: whatever the outcome, it shows exactly one alert
    (the confirmation, the backend's error after its prefix, or the
    rejection reason after its prefix), the button is enabled again with
    its label, and the transcript is what it was. *)
Theorem save_game_settles_quietly (d : document) (o : outcome)
    (Hbutton : present "save-game-btn" d) :
  let d' := exec (Main.saveGameBtn_settled o) d in
  same_but ["save-game-btn"] d d' ∧
  transcript d' = transcript d ∧
  button_is "save-game-btn" false "保存游戏" d' ∧
  alerts d' = alerts d ++
    [match o with
     | Fulfilled data =>
         if success data then "游戏已保存"
         else "保存游戏失败: " +:+ js_string (error data)
     | Rejected reason => "保存游戏出错: " +:+ reason
     end].
Proof.
  destruct Hbutton as [b Hb]. intros d'. subst d'.
  assert (∃ msg, exec (Main.saveGameBtn_settled o) d
                 = with_byId (alter (idle "保存游戏") "save-game-btn")
                     (with_alerts (λ l, l ++ [msg]) d) ∧
                 msg = match o with
                       | Fulfilled data =>
                           if success data then "游戏已保存"
                           else "保存游戏失败: " +:+ js_string (error data)
                       | Rejected reason => "保存游戏出错: " +:+ reason
                       end) as (msg & -> & ->).
  { chain Main.saveGameBtn_settled.
    destruct o as [data|reason]; [destruct (success data)|]; by eexists. }
  split.
  { split; [|done]. intros id Hid. cbn [byId with_byId with_alerts].
    rewrite lookup_alter_ne; [done|]. set_solver. }
  split.
  { unfold transcript. cbn [byId with_byId with_alerts]. by lookups. }
  split; [|done].
  unfold button_is. cbn [byId with_byId with_alerts]. lookups.
  rewrite Hb. eexists. done.
Qed.

Lemma save_game_settles_quietly_witness :
  let d' := exec (Main.saveGameBtn_settled (Rejected "TypeError: Failed to fetch"))
                 narrating_page in
  transcript d' = transcript narrating_page ∧
  button_is "save-game-btn" false "保存游戏" d'.
Proof.
  intros d'.
  destruct (save_game_settles_quietly narrating_page
              (Rejected "TypeError: Failed to fetch")) as (_ & H1 & H2 & _).
  - eexists. vm_compute. reflexivity.
  - split; [exact H1|exact H2].
Defined.

(** X3. An action that the backend answers: after the click and the
    successful response, the transcript is the old one followed by the
    user's entry and then the system's entry, the input field is empty, the
    button is enabled with its label, exactly one request carried the
    action, and no alert was shown. *)
Theorem action_round_trip (d : document) (data : response)
    (input history button : element)
    (Hok : success data = true)
    (Hinput : byId d !! "user-action" = Some input)
    (Htyped : is_empty (value input) = false)
    (Hhistory : byId d !! "narrative-history" = Some history)
    (Hbutton : byId d !! "send-action-btn" = Some button) :
  let d1 := exec Main.sendActionBtn_click d in
  let d2 := exec (Main.sendActionBtn_settled (Fulfilled data)) d1 in
  transcript d2
    = Some (children history ++
              [Main.message "user-message" "用户" (value input);
               Main.message "ai-message" "系统"
                            (js_string (response_text data))]) ∧
  value <$> byId d2 !! "user-action" = Some "" ∧
  button_is "send-action-btn" false "发送" d2 ∧
  fetches d2 = fetches d ++
    [Request "/process_action" (JsonBody [("action", JStr (value input))])] ∧
  alerts d2 = alerts d.
Proof.
  intros d1 d2.
  pose proof (sendActionBtn_click_run d input history Hinput Htyped Hhistory)
    as Hd1. fold d1 in Hd1.
  assert (∃ h1, byId d1 !! "narrative-history" = Some h1 ∧
                children h1 = children history ++
                  [Main.message "user-message" "用户" (value input)])
    as (h1 & Hh1 & Hc1).
  { rewrite Hd1. cbn [byId with_byId with_fetches]. lookups.
    eexists. split; [done|]. done. }
  assert (d2 = with_byId (alter (idle "发送") "send-action-btn")
                 (with_byId
                    <["narrative-history" :=
                        set_children
                          (children h1 ++
                             [Main.message "ai-message" "系统"
                                (js_string (response_text data))]) h1]>
                    d1)) as Hd2.
  { subst d2. unfold exec, Main.sendActionBtn_settled.
    erewrite settle_fulfilled_ret; cycle 1.
    { rewrite Hok. unfold Main.appendChild. by apply write_run. }
    reflexivity. }
  rewrite Hd2. unfold transcript, button_is.
  cbn [byId with_byId alerts fetches].
  split; [lookups; simpl; by rewrite Hc1, <- app_assoc|].
  rewrite Hd1. cbn [byId with_byId with_fetches alerts fetches].
  split; [by lookups|]. split; [|done].
  lookups. rewrite Hbutton. eexists. done.
Qed.

Lemma action_round_trip_witness :
  let d1 := exec Main.sendActionBtn_click narrating_page in
  let d2 := exec (Main.sendActionBtn_settled
                    (Fulfilled (Response true None None None (Some "门开了。"))))
                 d1 in
  transcript d2
    = Some [Main.message "ai-message" "系统" "你在一间书房里醒来。";
            Main.message "user-message" "用户" "推开门";
            Main.message "ai-message" "系统" "门开了。"].
Proof.
  refine (proj1 (action_round_trip narrating_page
            (Response true None None None (Some "门开了。"))
            (Template.input ["form-control"] "推开门")
            (Element ["narrative-history"] "" false "" "" false []
               [Main.message "ai-message" "系统" "你在一间书房里醒来。"])
            (Template.button ["btn"; "btn-primary"] "发送") _ _ _ _ _)).
  - reflexivity.
  - vm_compute. reflexivity.
  - reflexivity.
  - vm_compute. reflexivity.
  - vm_compute. reflexivity.
Defined.

(** X4. A click on the send button with an empty input field shows the
    alert and nothing else: no request, no entry in the transcript, the
    button stays as it is. *)
Theorem empty_action_is_refused (d : document) (input : element)
    (Hinput : byId d !! "user-action" = Some input)
    (Hempty : value input = "") :
  Main.sendActionBtn_click d
  = (with_alerts (λ l, l ++ ["请输入您的行动"]) d, Ret tt).
Proof.
  unfold Main.sendActionBtn_click.
  erewrite bind_run by (by apply read_run). by rewrite Hempty.
Qed.

Lemma empty_action_is_refused_witness :
  fetches (exec Main.sendActionBtn_click waiting_page) = [] ∧
  alerts (exec Main.sendActionBtn_click waiting_page) = ["请输入您的行动"].
Proof.
  unfold exec.
  rewrite (empty_action_is_refused waiting_page
             (Template.input ["form-control"] "")).
  - split; reflexivity.
  - vm_compute. reflexivity.
  - reflexivity.
Defined.
(** ** Deleting a conversation *)

Lemma filter_nil_Forall {A} (P : A → Prop) `{∀ x, Decision (P x)} (l : list A) :
  filter P l = [] ↔ Forall (λ x, ¬ P x) l.
Proof.
  induction l as [|x l IH]; [by split; [constructor|]|].
  rewrite filter_cons. destruct (decide (P x)).
  - split; [done|]. by inversion 1.
  - rewrite IH. split; [by constructor|by inversion 1].
Qed.

(** X5. A deletion the backend confirms takes the item of the clicked
    button out of the list, and the button, though detached with its item,
    is still enabled again with its label.  When no other item is left in
    the list, the empty-state placeholder is appended to it; when another
    item is left, the list gets nothing. *)
Theorem delete_confirmed (d : document) (i : nat) (item : chatItem)
    (placed : list child) (data : response)
    (Hok : success data = true)
    (Hitem : chatItems d !! i = Some item)
    (Hlist : chatHistoryList d = Some placed) :
  let d' := exec (Main.deleteChatBtn_settled i (Fulfilled data)) d in
  attached <$> chatItems d' !! i = Some false ∧
  chat_button_is delete_btn i false "删除" d' ∧
  (∀ j, j ≠ i → chatItems d' !! j = chatItems d !! j) ∧
  alerts d' = alerts d ∧
  ((∀ j c, j ≠ i → chatItems d !! j = Some c → attached c = false) →
     chatHistoryList d' = Some (placed ++ [Main.emptyState])) ∧
  ((∃ j c, j ≠ i ∧ chatItems d !! j = Some c ∧ attached c = true) →
     chatHistoryList d' = Some placed).
Proof.
  intros d'.
  set (items := alter (λ c, ChatItem false (load_btn c) (delete_btn c)) i
                  (chatItems d)).
  set (empty := bool_decide (filter (λ c, attached c = true) items = [])).
  assert (d' = with_chatItems
                 (alter (λ c, ChatItem (attached c) (load_btn c)
                                (Main.btn_idle "删除" (delete_btn c))) i)
                 (if empty
                  then with_chatHistoryList (Some (placed ++ [Main.emptyState]))
                         (with_chatItems (λ _, items) d)
                  else with_chatItems (λ _, items) d)) as Hd'.
  { subst d'. unfold exec, Main.deleteChatBtn_settled.
    destruct empty eqn:Eempty.
    - erewrite settle_fulfilled_ret; cycle 1.
      { rewrite Hok. erewrite bind_run by reflexivity.
        cbn [chatItems with_chatItems chatHistoryList]. fold items.
        fold empty. rewrite Eempty, Hlist. reflexivity. }
      reflexivity.
    - erewrite settle_fulfilled_ret; cycle 1.
      { rewrite Hok. erewrite bind_run by reflexivity.
        cbn [chatItems with_chatItems chatHistoryList]. fold items.
        fold empty. rewrite Eempty. reflexivity. }
      reflexivity. }
  assert (chatItems d' = alter (λ c, ChatItem (attached c) (load_btn c)
                                  (Main.btn_idle "删除" (delete_btn c))) i items)
    as Hitems by (rewrite Hd'; by destruct empty).
  assert (items !! i = Some (ChatItem false (load_btn item) (delete_btn item)))
    as Hi by (unfold items; by rewrite list_lookup_alter_eq, Hitem).
  split; [by rewrite Hitems, list_lookup_alter_eq, Hi|].
  split.
  { unfold chat_button_is. rewrite Hitems, list_lookup_alter_eq, Hi.
    eexists. done. }
  split.
  { intros j Hj. rewrite Hitems. unfold items.
    by rewrite !list_lookup_alter_ne. }
  split; [rewrite Hd'; by destruct empty|].
  split.
  - intros Hothers. assert (empty = true) as ->; [|by rewrite Hd'].
    apply bool_decide_eq_true, filter_nil_Forall, Forall_lookup.
    intros j c Hc. destruct (decide (j = i)) as [->|Hne].
    + rewrite Hi in Hc. by injection Hc as <-.
    + unfold items in Hc. rewrite list_lookup_alter_ne in Hc by done.
      by rewrite (Hothers j c Hne Hc).
  - intros (j & c & Hne & Hc & Hatt).
    assert (empty = false) as ->; [|by rewrite Hd'].
    apply bool_decide_eq_false. rewrite filter_nil_Forall, Forall_lookup.
    intros Hall. apply (Hall j c); [|done].
    unfold items. by rewrite list_lookup_alter_ne.
Qed.

Lemma delete_confirmed_witness :
  chatHistoryList
    (exec (Main.deleteChatBtn_settled 0
             (Fulfilled (Response true None None None None))) waiting_page)
  = Some [Main.emptyState].
Proof.
  refine (proj1 (proj2 (proj2 (proj2 (proj2
            (delete_confirmed waiting_page 0
               (Template.rendered_history (History "history/a.json")) []
               (Response true None None None None) _ _ _))))) _).
  - reflexivity.
  - reflexivity.
  - reflexivity.
  - intros [|j] c Hj Hc; [done|]. vm_compute in Hc. discriminate.
Defined.

(** ** The two collectors *)

Create HintDb reads.

Lemma reads_only_ret {A} (a : A) : reads_only (ret a).
Proof. by intros d. Qed.

Lemma reads_only_throw {A} e : reads_only (@throw A e).
Proof. by intros d. Qed.

Lemma reads_only_bind {A B} (m : M A) (k : A → M B) :
  reads_only m → (∀ a, reads_only (k a)) → reads_only (bind m k).
Proof.
  intros Hm Hk d. unfold bind. specialize (Hm d).
  destruct (m d) as [d1 [a|e]]; simpl in *; subst; [apply Hk|done].
Qed.

Lemma reads_only_if {A} (b : bool) (m1 m2 : M A) :
  reads_only m1 → reads_only m2 → reads_only (if b then m1 else m2).
Proof. by destruct b. Qed.

Lemma reads_only_read {A} id prop (f : element → A) :
  reads_only (read id prop f).
Proof. intros d. unfold read. by destruct (byId d !! id). Qed.

Lemma reads_only_getElementById id : reads_only (getElementById id).
Proof. by intros d. Qed.

Lemma reads_only_querySelector_checked name :
  reads_only (querySelector_checked name).
Proof. by intros d. Qed.

#[global] Hint Resolve reads_only_ret reads_only_throw reads_only_bind
  reads_only_if reads_only_read reads_only_getElementById
  reads_only_querySelector_checked : reads.

Lemma reads_only_main_custom_model kind config :
  reads_only (Main.custom_model kind config).
Proof.
  unfold Main.custom_model. apply reads_only_bind; [auto with reads|].
  intros [v|]; [|auto with reads]. apply reads_only_if; [|auto with reads].
  apply reads_only_bind; [auto with reads|].
  intros [t|]; [|auto with reads]. apply reads_only_if; auto with reads.
Qed.

Lemma reads_only_apiConfigForm_collect : reads_only Main.apiConfigForm_collect.
Proof.
  pose proof reads_only_main_custom_model.
  unfold Main.apiConfigForm_collect.
  apply reads_only_bind; [auto with reads|]. intros online.
  apply reads_only_bind; [|auto with reads].
  apply reads_only_if.
  - apply reads_only_bind; [auto with reads|]. intros u.
    apply reads_only_bind; [auto with reads|]. intros [e|]; auto with reads.
  - auto 10 with reads.
Qed.

(** X6. Collecting a draft never changes the page, not even when the
    form's collector throws half-way; so collecting again right away gives
    the same draft, or the same exception.  This holds for the collector of
    the form and for the collector of the floating button. *)
Theorem collecting_is_idempotent (d : document) :
  (Main.apiConfigForm_collect d).1 = d ∧
  Main.apiConfigForm_collect (Main.apiConfigForm_collect d).1
    = Main.apiConfigForm_collect d ∧
  (FloatingSave.collectGlobalConfig d).1 = d ∧
  FloatingSave.collectGlobalConfig (FloatingSave.collectGlobalConfig d).1
    = FloatingSave.collectGlobalConfig d.
Proof.
  pose proof (reads_only_apiConfigForm_collect d) as H.
  split; [done|]. split; [by rewrite H|].
  rewrite collectGlobalConfig_run. cbn [fst]. split; [done|].
  apply collectGlobalConfig_run.
Qed.

Lemma get_field_set_field k k' v o :
  get_field k (set_field k' v o)
  = if decide (k' = k) then Some v else get_field k o.
Proof.
  induction o as [|[k0 v0] o IH]; simpl.
  - by destruct (decide (k' = k)).
  - destruct (decide (k0 = k')) as [->|Hne]; simpl.
    + by destruct (decide (k' = k)).
    + destruct (decide (k0 = k)) as [->|Hne'].
      * by rewrite decide_False by done.
      * apply IH.
Qed.

Lemma get_field_custom_fields k kind model custom_type m1 m2 c1 c2 :
  get_field k c1 = get_field k c2 →
  get_field k (custom_fields kind model custom_type m1 m2 c1)
  = get_field k (custom_fields kind model custom_type m1 m2 c2).
Proof.
  intros H. unfold custom_fields.
  destruct model as [v|]; [|done].
  destruct (bool_decide (v = "custom"));
    [|by rewrite !get_field_set_field, H].
  destruct custom_type as [t|]; [|by rewrite !get_field_set_field, H].
  destruct (bool_decide (t = "ollama")); by rewrite !get_field_set_field, H.
Qed.

Lemma or_fallback_empty o : or_fallback "" o = default "" o.
Proof.
  destruct o as [s|]; simpl; [|done].
  unfold is_empty. destruct (String.eqb_spec s ""); by subst.
Qed.

(** X7. Whenever the form's collector completes, the floating button's
    collector gives the very same draft on the same page, provided the
    online API is selected or the Ollama address field is not empty.  (With
    the local API and an empty address the form sends the empty string and
    the floating button the default address.) *)
Theorem collectors_agree (d d' : document) (cfg : jsobject)
    (Hform : Main.apiConfigForm_collect d = (d', Ret cfg))
    (Hurl : default false (checked <$> byId d !! "use-online-api") = true ∨
            ∃ e, byId d !! "ollama-api-url" = Some e ∧
                 is_empty (value e) = false) :
  d' = d ∧ FloatingSave.collectGlobalConfig d = (d, Ret cfg).
Proof.
  apply apiConfigForm_collect_run in Hform as [-> ->]. split; [done|].
  rewrite collectGlobalConfig_run. do 2 f_equal.
  unfold floating_draft, main_draft. rewrite !or_fallback_empty.
  do 2 f_equal. destruct Hurl as [-> | (e & -> & He)].
  - reflexivity.
  - simpl. by rewrite He.
Qed.

Lemma collectors_agree_witness :
  FloatingSave.collectGlobalConfig waiting_page
  = (waiting_page,
     Ret [("use_online_api", JBool false);
          ("ollama_api_url", JStr "http://127.0.0.1:11434");
          ("analysis_model_name", JStr "llama3");
          ("writing_model_name", JStr "llama3")]).
Proof.
  refine (proj2 (collectors_agree waiting_page waiting_page _ _ _)).
  - reflexivity.
  - right.
    exists (Template.input ["form-control"] "http://127.0.0.1:11434").
    split; reflexivity.
Defined.

(** X8. With the local API selected and the address field present but
    empty, the two collectors disagree on one field only: the form's draft
    carries the empty string in [ollama_api_url], the floating button's
    draft the default address. *)
Theorem collectors_differ_on_empty_address (d d' : document)
    (cfg : jsobject) (e : element)
    (Hform : Main.apiConfigForm_collect d = (d', Ret cfg))
    (Hlocal : default false (checked <$> byId d !! "use-online-api") = false)
    (Haddress : byId d !! "ollama-api-url" = Some e)
    (Hempty : value e = "") :
  get_field "ollama_api_url" cfg = Some (JStr "") ∧
  ∃ cfg', FloatingSave.collectGlobalConfig d = (d, Ret cfg') ∧
          get_field "ollama_api_url" cfg'
            = Some (JStr "http://127.0.0.1:11434") ∧
          ∀ k, k ≠ "ollama_api_url" → get_field k cfg' = get_field k cfg.
Proof.
  apply apiConfigForm_collect_run in Hform as [-> ->].
  assert (or_fallback "http://127.0.0.1:11434"
            (value <$> byId d !! "ollama-api-url")
          = "http://127.0.0.1:11434") as Hf.
  { rewrite Haddress. simpl. by rewrite Hempty. }
  assert (default "" (value <$> byId d !! "ollama-api-url") = "") as Hm.
  { rewrite Haddress. simpl. exact Hempty. }
  split; [|exists (floating_draft d); split; [apply collectGlobalConfig_run|];
           split].
  - unfold main_draft. rewrite Hlocal, Hm.
    match goal with
    | |- context [custom_fields "writing" ?rw ?tw ?wo ?wn
                    (custom_fields "analysis" ?ra ?ta ?ao ?an
                       (api_fields ?o ?u ?sel ?ou ?ok ?om))] =>
        exact (proj1 (proj2
          (draft_api_fields rw tw wo wn ra ta ao an o u sel ou ok om)))
    end.
  - unfold floating_draft. rewrite Hlocal, Hf.
    match goal with
    | |- context [custom_fields "writing" ?rw ?tw ?wo ?wn
                    (custom_fields "analysis" ?ra ?ta ?ao ?an
                       (api_fields ?o ?u ?sel ?ou ?ok ?om))] =>
        exact (proj1 (proj2
          (draft_api_fields rw tw wo wn ra ta ao an o u sel ou ok om)))
    end.
  - intros k Hk. unfold floating_draft, main_draft.
    rewrite !or_fallback_empty, Hlocal, Hf, Hm.
    apply get_field_custom_fields, get_field_custom_fields.
    unfold api_fields.
    destruct (value <$> byId d !! "ollama-model-select");
      rewrite !get_field_set_field; by repeat case_decide.
Qed.

Lemma collectors_differ_on_empty_address_witness :
  let d := exec (type_into "ollama-api-url" "") waiting_page in
  let cfg := [("use_online_api", JBool false); ("ollama_api_url", JStr "");
              ("analysis_model_name", JStr "llama3");
              ("writing_model_name", JStr "llama3")] in
  Main.apiConfigForm_collect d = (d, Ret cfg) ∧
  get_field "ollama_api_url" cfg = Some (JStr "").
Proof.
  intros d cfg. split; [reflexivity|].
  refine (proj1 (collectors_differ_on_empty_address d d cfg
                   (Template.input ["form-control"] "") _ _ _ _)).
  - reflexivity.
  - reflexivity.
  - reflexivity.
  - reflexivity.
Defined.
(** ** Refreshing the model lists *)

(** X9. A successful refresh with a model list replaces the options of
    both model selects by one option per model, in the order of the
    response, and each select then shows the first model of the list,
    whatever it showed before (nothing, for an empty list).  The refresh
    button is enabled again and the console gets the confirmation. *)
Theorem refresh_refills_selects (d : document) (data : response)
    (l : list string) (a w : element)
    (Hok : success data = true)
    (Hmodels : models data = Some l)
    (Ha : byId d !! "analysis-ollama-model-select" = Some a)
    (Hw : byId d !! "writing-ollama-model-select" = Some w)
    (Hbutton : present "refresh-models-btn" d) :
  let d' := exec (Main.refreshOllamaModels_settled (Fulfilled data)) d in
  byId d' !! "analysis-ollama-model-select"
    = Some (set_children (Main.option_child <$> l)
              (set_value (default "" (head l)) a)) ∧
  byId d' !! "writing-ollama-model-select"
    = Some (set_children (Main.option_child <$> l)
              (set_value (default "" (head l)) w)) ∧
  button_is "refresh-models-btn" false "刷新模型列表" d' ∧
  consoleLog d' = consoleLog d ++ ["模型列表已更新"] ∧
  alerts d' = alerts d.
Proof.
  destruct Hbutton as [b Hb]. intros d'. subst d'.
  unfold exec, Main.refreshOllamaModels_settled.
  erewrite settle_fulfilled_ret; cycle 1.
  { rewrite Hok, Hmodels. unfold Main.refill.
    erewrite bind_run.
    2:{ erewrite bind_run by reflexivity. rewrite Ha.
        erewrite bind_run by reflexivity. reflexivity. }
    erewrite bind_run.
    2:{ erewrite bind_run by reflexivity.
        cbn [byId with_byId]. lookups. rewrite Hw.
        erewrite bind_run by reflexivity. reflexivity. }
    reflexivity. }
  unfold try_finally, ret, update, console, button_is.
  cbn [fst byId with_byId with_consoleLog consoleLog alerts].
  lookups. rewrite Ha, Hw, Hb. simpl.
  split; [done|]. split; [done|]. split; [eexists; done|]. done.
Qed.

Lemma refresh_refills_selects_witness :
  value <$> byId (exec (Main.refreshOllamaModels_settled
                          (Fulfilled (Response true None
                                        (Some ["qwen2"; "llama3"]) None None)))
                       waiting_page)
              !! "analysis-ollama-model-select" = Some "qwen2".
Proof.
  pose proof (refresh_refills_selects waiting_page
                (Response true None (Some ["qwen2"; "llama3"]) None None)
                ["qwen2"; "llama3"]
                (Template.select ["llama3"; "mistral"] "")
                (Template.select ["llama3"; "mistral"] "")) as H.
  destruct H as (H & _).
  - reflexivity.
  - reflexivity.
  - vm_compute. reflexivity.
  - vm_compute. reflexivity.
  - eexists. vm_compute. reflexivity.
  - cbv zeta in H. rewrite H. reflexivity.
Defined.

(** X10. A response that reports success but carries no model list leaves
    the first select emptied: its options are removed before the list is
    read, the read throws, the [catch] callback logs the error, and the
    second select is not reached.  The button is enabled again all the
    same, and nothing is alerted. *)
Theorem refresh_without_models (d : document) (data : response)
    (a : element)
    (Hok : success data = true)
    (Hmodels : models data = None)
    (Ha : byId d !! "analysis-ollama-model-select" = Some a)
    (Hbutton : present "refresh-models-btn" d) :
  let d' := exec (Main.refreshOllamaModels_settled (Fulfilled data)) d in
  byId d' !! "analysis-ollama-model-select"
    = Some (set_children [] (set_value "" a)) ∧
  byId d' !! "writing-ollama-model-select"
    = byId d !! "writing-ollama-model-select" ∧
  button_is "refresh-models-btn" false "刷新模型列表" d' ∧
  consoleLog d' = consoleLog d ++
    ["获取模型列表出错: " +:+ undefined_read "forEach"] ∧
  alerts d' = alerts d.
Proof.
  destruct Hbutton as [b Hb]. intros d'. subst d'.
  unfold exec, Main.refreshOllamaModels_settled.
  erewrite settle_fulfilled_throw; cycle 1.
  { rewrite Hok, Hmodels. unfold Main.refill.
    erewrite bind_throw; [reflexivity|].
    erewrite bind_run by reflexivity. rewrite Ha.
    erewrite bind_run by reflexivity. reflexivity. }
  unfold try_finally, ret, update, console, button_is.
  cbn [fst byId with_byId with_consoleLog consoleLog alerts].
  lookups. rewrite Ha, Hb. simpl.
  split; [done|]. split; [done|]. split; [eexists; done|]. done.
Qed.

Lemma refresh_without_models_witness :
  children <$> byId (exec (Main.refreshOllamaModels_settled
                             (Fulfilled (Response true None None None None)))
                          waiting_page)
                 !! "analysis-ollama-model-select" = Some [].
Proof.
  pose proof (refresh_without_models waiting_page
                (Response true None None None None)
                (Template.select ["llama3"; "mistral"] "")) as H.
  destruct H as (H & _).
  - reflexivity.
  - reflexivity.
  - vm_compute. reflexivity.
  - eexists. vm_compute. reflexivity.
  - cbv zeta in H. rewrite H. reflexivity.
Defined.

(** ** More on navigation *)

Lemma nav_click_navItems d i this :
  navItems d !! i = Some this →
  navItems (exec (Main.nav_click i) d) = Main.activate i (navItems d).
Proof.
  intros Hi.
  destruct (main_navItem_click_store d i this Hi) as [Hnav _].
  destruct (byId_try_catch_console (Main.navItem_click i)
              (λ e, "Uncaught " +:+ e) d) as [_ Hn].
  unfold Main.nav_click, dispatch, exec, bind.
  set (first := try_catch (Main.navItem_click i) _) in *.
  unfold exec in Hn, Hnav. destruct (first d) as [d1 r] eqn:E1.
  simpl in Hn. rewrite <- Hnav, <- Hn.
  assert (r = Ret tt) as ->.
  { subst first. unfold try_catch, console in E1.
    destruct (Main.navItem_click i d) as [dd [[]|e]]; by simplify_eq/=. }
  unfold try_catch.
  assert (navItems (FloatingSave.navItem_click i d1).1 = navItems d1) as Hf.
  { unfold FloatingSave.navItem_click.
    destruct (byId d1 !! "global-save-button"); [|done].
    destruct (navItems d1 !! i); [|done]. by case_bool_decide. }
  destruct (FloatingSave.navItem_click i d1) as [d2 [[]|e]]; simpl in *; done.
Qed.

(** X11. After a click on a navigation item, that item carries the class
    [active] and no other item does, whether or not the section it names
    exists; the [data-section] attributes are what they were. *)
Theorem nav_click_marks_one_item (d : document) (i : nat) (item : navItem)
    (Hitem : navItems d !! i = Some item) :
  let d' := exec (Main.nav_click i) d in
  (∀ j n, navItems d' !! j = Some n →
          ("active" ∈ nav_classes n ↔ j = i)) ∧
  data_section <$> navItems d' = data_section <$> navItems d.
Proof.
  intros d'. subst d'. rewrite (nav_click_navItems d i item Hitem).
  unfold Main.activate. split.
  - intros j n Hn. destruct (decide (j = i)) as [->|Hne].
    + rewrite list_lookup_alter_eq, list_lookup_fmap, Hitem in Hn.
      simpl in Hn. injection Hn as <-. simpl. split; [done|]. intros _.
      pose proof (class_add_present "active"
                    (class_remove "active" (nav_classes item))) as H.
      by apply bool_decide_eq_true in H.
    + rewrite list_lookup_alter_ne, list_lookup_fmap in Hn by done.
      destruct (navItems d !! j) as [n0|]; [|done]. simpl in Hn.
      injection Hn as <-. simpl. split; [|done]. intros Hin. exfalso.
      pose proof (class_remove_absent "active" (nav_classes n0)) as H.
      by apply bool_decide_eq_false in H.
  - apply list_eq. intros j. rewrite !list_lookup_fmap.
    destruct (decide (j = i)) as [->|Hne].
    + rewrite list_lookup_alter_eq, list_lookup_fmap, Hitem. done.
    + rewrite list_lookup_alter_ne, list_lookup_fmap by done.
      by destruct (navItems d !! j).
Qed.

Lemma nav_click_marks_one_item_witness :
  nav_classes <$> navItems (exec (Main.nav_click 3) waiting_page)
  = [["nav-item"]; ["nav-item"]; ["nav-item"]; ["nav-item"; "active"]] ∧
  ∀ j n, navItems (exec (Main.nav_click 3) waiting_page) !! j = Some n →
         ("active" ∈ nav_classes n ↔ j = 3).
Proof.
  split; [vm_compute; reflexivity|].
  refine (proj1 (nav_click_marks_one_item waiting_page 3
                   (NavItem (Some "settings") ["nav-item"]) _)).
  vm_compute. reflexivity.
Defined.

(** X12. A click on a navigation item whose section does not exist leaves
    every content section hidden: the sections are hidden before the
    missing one is looked up.  The exception is reported, no request is
    sent, and the second listener still sets the floating button. *)
Theorem nav_click_without_section (d : document) (i : nat) (item : navItem)
    (Hitem : navItems d !! i = Some item)
    (Hmissing : byId d !! section_of item = None) :
  let d' := exec (Main.nav_click i) d in
  (∀ id e, byId d' !! id = Some e → id ≠ "global-save-button" →
           "content-section" ∈ classList e → display e = "none") ∧
  consoleLog d' = consoleLog d ++ ["Uncaught " +:+ null_read "style"] ∧
  fetches d' = fetches d ∧
  (present "global-save-button" d →
     display <$> byId d' !! "global-save-button"
       = Some (if bool_decide (data_section item = Some "api-config")
               then "flex" else "none")).
Proof.
  intros d'.
  set (d0 := with_byId Main.hide_sections (with_navItems (Main.activate i) d)).
  assert (Main.navItem_click i d = (d0, Throw (null_read "style"))) as Hmain.
  { unfold Main.navItem_click. rewrite Hitem. fold d0.
    apply bind_throw, write_throw. unfold d0, Main.hide_sections. simpl.
    fold (section_of item). by rewrite lookup_fmap, Hmissing. }
  set (d1 := with_consoleLog
               (λ l, l ++ ["Uncaught " +:+ null_read "style"]) d0).
  assert (d' = exec (FloatingSave.navItem_click i) d1) as Hd'.
  { subst d'. unfold Main.nav_click, dispatch, exec, bind, try_catch.
    rewrite Hmain. unfold console at 1. fold d1.
    destruct (FloatingSave.navItem_click i d1) as [d2 [[]|e]] eqn:E; [done|].
    exfalso. unfold FloatingSave.navItem_click in E.
    destruct (byId d1 !! "global-save-button"); [|done].
    destruct (navItems d1 !! i); [|done].
    by case_bool_decide. }
  assert (navItems d1 !! i
          = Some (NavItem (data_section item)
                    (class_add "active"
                       (class_remove "active" (nav_classes item))))) as Hn.
  { unfold d1, d0, Main.activate. simpl.
    by rewrite list_lookup_alter_eq, list_lookup_fmap, Hitem. }
  assert (∀ id, byId d1 !! id
                = (λ e, if class_contains "content-section" (classList e)
                        then set_display "none" e else e) <$> byId d !! id)
    as Hhidden.
  { intros id. unfold d1, d0, Main.hide_sections. simpl.
    by rewrite lookup_fmap. }
  assert (consoleLog d1
          = consoleLog d ++ ["Uncaught " +:+ null_read "style"]) as Hlog
    by done.
  assert (fetches d1 = fetches d) as Hfetch by done.
  clearbody d1. clear Hmain. clearbody d0.
  rewrite Hd'. unfold exec, FloatingSave.navItem_click. rewrite Hn.
  cbn [data_section].
  assert (∀ v, (update "global-save-button" (set_display v) d1).1
               = with_byId (alter (set_display v) "global-save-button") d1)
    as Hupd by done.
  split.
  { intros id e He Hne Hc.
    assert (byId d1 !! id = Some e) as He1.
    { destruct (byId d1 !! "global-save-button"); [|done].
      case_bool_decide; rewrite Hupd in He; cbn [byId with_byId] in He;
        by rewrite lookup_alter_ne in He by done. }
    rewrite Hhidden in He1. destruct (byId d !! id) as [e0|]; [|done].
    simpl in He1.
    destruct (class_contains "content-section" (classList e0)) eqn:Ecc;
      simplify_eq; [done|].
    by apply bool_decide_eq_false in Ecc. }
  split.
  { destruct (byId d1 !! "global-save-button"); [|done].
    case_bool_decide; by rewrite Hupd. }
  split.
  { destruct (byId d1 !! "global-save-button"); [|done].
    case_bool_decide; by rewrite Hupd. }
  intros [b Hb]. pose proof (Hhidden "global-save-button") as Hg.
  rewrite Hb in Hg. simpl in Hg. rewrite Hg.
  case_bool_decide; rewrite Hupd; cbn [byId with_byId]; lookups;
    by rewrite Hg.
Qed.

Lemma nav_click_without_section_witness :
  let d := with_navItems (λ l, l ++ [NavItem (Some "about") ["nav-item"]])
             waiting_page in
  consoleLog (exec (Main.nav_click 4) d)
  = ["Uncaught " +:+ null_read "style"].
Proof.
  intros d.
  refine (proj1 (proj2 (nav_click_without_section d 4
                          (NavItem (Some "about") ["nav-item"]) _ _))).
  - reflexivity.
  - vm_compute. reflexivity.
Defined.
(** X13. A click on a navigation item whose section exists sends a request
    exactly when the item is [api-config] and the Ollama address field is
    not empty: the request to refresh the model list, carrying the address
    of the field.  Every other click sends nothing. *)
Theorem nav_click_requests_models (d : document) (i : nat) (item : navItem)
    (sec address : element)
    (Hitem : navItems d !! i = Some item)
    (Hsection : byId d !! section_of item = Some sec)
    (Haddress : byId d !! "ollama-api-url" = Some address) :
  fetches (exec (Main.nav_click i) d)
  = fetches d ++
    (if bool_decide (data_section item = Some "api-config")
        && negb (is_empty (value address))
     then [Request "/api/refresh_ollama_models"
             (JsonBody [("api_url", JStr (value address))])]
     else []).
Proof.
  (* the second listener and the report of an exception send nothing *)
  assert (fetches (exec (Main.nav_click i) d)
          = fetches (exec (Main.navItem_click i) d)) as ->.
  { unfold Main.nav_click, dispatch, exec, bind, try_catch.
    destruct (Main.navItem_click i d) as [d1 [[]|e]]; simpl.
    - assert (fetches (FloatingSave.navItem_click i d1).1 = fetches d1) as Hf.
      { unfold FloatingSave.navItem_click.
        destruct (byId d1 !! "global-save-button"); [|done].
        destruct (navItems d1 !! i); [|done]. by case_bool_decide. }
      destruct (FloatingSave.navItem_click i d1) as [d2 [[]|e]]; by simpl in *.
    - set (d1' := with_consoleLog _ d1).
      assert (fetches (FloatingSave.navItem_click i d1').1 = fetches d1) as Hf.
      { unfold FloatingSave.navItem_click.
        destruct (byId d1' !! "global-save-button"); [|done].
        destruct (navItems d1' !! i); [|done]. by case_bool_decide. }
      destruct (FloatingSave.navItem_click i d1') as [d2 [[]|e']];
        by simpl in *. }
  unfold exec, Main.navItem_click. rewrite Hitem.
  set (d0 := with_byId Main.hide_sections (with_navItems (Main.activate i) d)).
  assert (∃ sec0, byId d0 !! section_of item = Some sec0) as [sec0 Hsec0].
  { unfold d0, Main.hide_sections. simpl. rewrite lookup_fmap, Hsection.
    by eexists. }
  erewrite bind_run by (by apply write_run).
  set (d2 := with_byId _ d0).
  assert (fetches d2 = fetches d) as Hf2 by done.
  assert (∃ a2, byId d2 !! "ollama-api-url" = Some a2 ∧
                value a2 = value address) as (a2 & Ha2 & Hv).
  { unfold d2. cbn [byId with_byId]. rewrite lookup_insert.
    assert (∃ a0, byId d0 !! "ollama-api-url" = Some a0 ∧
                  value a0 = value address) as (a0 & Ha0 & Hv0).
    { unfold d0, Main.hide_sections. simpl. rewrite lookup_fmap, Haddress.
      simpl. eexists. split; [done|].
      by destruct (class_contains "content-section" (classList address)). }
    case_decide as Heq.
    - unfold section_of in Hsec0. rewrite Heq in Hsec0.
      rewrite Ha0 in Hsec0. injection Hsec0 as <-.
      eexists. split; [done|]. done.
    - by exists a0. }
  clearbody d2. clear Hsec0. clearbody d0.
  case_bool_decide; simpl; [|by rewrite Hf2, app_nil_r].
  unfold Main.refreshOllamaModels.
  erewrite bind_run by (by apply read_run). rewrite Hv.
  destruct (is_empty (value address)); simpl;
    [by rewrite Hf2, app_nil_r|by rewrite Hf2].
Qed.

Lemma nav_click_requests_models_witness :
  fetches (exec (Main.nav_click 2) waiting_page)
  = [Request "/api/refresh_ollama_models"
       (JsonBody [("api_url", JStr "http://127.0.0.1:11434")])].
Proof.
  refine (nav_click_requests_models waiting_page 2
            (NavItem (Some "api-config") ["nav-item"])
            (Template.box ["content-section"] "none")
            (Template.input ["form-control"] "http://127.0.0.1:11434") _ _ _).
  - reflexivity.
  - vm_compute. reflexivity.
  - vm_compute. reflexivity.
Defined.

(** X14. On the page the template serves, whatever the server state, a
    click on the close button of the narrative view throws and changes
    nothing: the listener hides [narrative-card], an element the page does
    not have. *)
Theorem close_button_on_served_page (s : app_state) :
  Main.closeNarrativeBtn_click (Template.index_html s)
  = (Template.index_html s, Throw (null_read "style")).
Proof.
  unfold Main.closeNarrativeBtn_click. apply write_throw.
  vm_compute. reflexivity.
Qed.

(** X15. However the upload request settles, the processing overlay is
    hidden afterwards.  After a failure the page has otherwise only gained
    one alert; after a success on a page with the initializing card, that
    card is displayed and nothing is alerted. *)
Theorem upload_overlay_always_closes (d : document) (o : outcome)
    (card : element)
    (Hcard : byId d !! "processing-card" = Some card) :
  let d' := exec (Main.novelUploadForm_settled o) d in
  byId d' !! "processing-card" = Some (set_display "none" card) ∧
  (failed o →
     (∃ msg, alerts d' = alerts d ++ [msg]) ∧
     ∀ id, id ≠ "processing-card" → byId d' !! id = byId d !! id) ∧
  (∀ data init, o = Fulfilled data → success data = true →
     byId d !! "initializing-narrative-card" = Some init →
     byId d' !! "initializing-narrative-card"
       = Some (set_display "flex" init) ∧
     alerts d' = alerts d).
Proof.
  intros d'. subst d'.
  set (d1 := with_byId <["processing-card" := set_display "none" card]> d).
  assert (write "processing-card" "style" (set_display "none") d
          = (d1, Ret tt)) as Hw by (by apply write_run).
  destruct o as [data|reason].
  - destruct (success data) eqn:Hok.
    + destruct (byId d !! "initializing-narrative-card") as [init|] eqn:Einit.
      * assert (exec (Main.novelUploadForm_settled (Fulfilled data)) d
                = with_byId <["initializing-narrative-card"
                                := set_display "flex" init]> d1) as ->.
        { unfold exec, Main.novelUploadForm_settled.
          erewrite settle_fulfilled_ret; cycle 1.
          { rewrite Hok. erewrite bind_run by exact Hw.
            apply write_run. unfold d1. cbn [byId with_byId]. by lookups. }
          reflexivity. }
        unfold d1. cbn [byId with_byId alerts].
        split; [by lookups|].
        split; [intros Hf; simpl in Hf; congruence|].
        intros data' init' _ _ [= <-]. split; [by lookups|done].
      * assert (exec (Main.novelUploadForm_settled (Fulfilled data)) d
                = with_alerts
                    (λ l, l ++ ["上传小说出错: " +:+ null_read "style"]) d1)
          as ->.
        { unfold exec, Main.novelUploadForm_settled.
          erewrite settle_fulfilled_throw; cycle 1.
          { rewrite Hok. erewrite bind_run by exact Hw.
            apply write_throw. unfold d1. cbn [byId with_byId]. by lookups. }
          rewrite try_finally_ret_tt.
          erewrite bind_run; cycle 1.
          { apply write_run. unfold d1. cbn [byId with_byId]. by lookups. }
          unfold alert. cbn [fst]. f_equal. unfold d1.
          cbn [with_byId byId]. unfold with_byId. simpl.
          by rewrite insert_insert_eq. }
        unfold d1. cbn [byId with_byId with_alerts alerts].
        split; [by lookups|].
        split; [intros Hf; simpl in Hf; congruence|]. by intros ? ? _ _ [=].
    + assert (exec (Main.novelUploadForm_settled (Fulfilled data)) d
              = with_alerts
                  (λ l, l ++ ["处理小说失败: " +:+ js_string (error data)]) d1)
        as ->.
      { unfold exec, Main.novelUploadForm_settled.
        erewrite settle_fulfilled_ret; cycle 1.
        { rewrite Hok. erewrite bind_run by exact Hw. reflexivity. }
        reflexivity. }
      unfold d1. cbn [byId with_byId with_alerts alerts].
      split; [by lookups|]. split.
      * intros _. split; [by eexists|]. intros id Hid. by lookups.
      * intros data' init' [= <-] Hok'. congruence.
  - assert (exec (Main.novelUploadForm_settled (Rejected reason)) d
            = with_alerts (λ l, l ++ ["上传小说出错: " +:+ reason]) d1) as ->.
    { unfold exec, Main.novelUploadForm_settled. rewrite settle_rejected.
      rewrite try_finally_ret_tt. erewrite bind_run by exact Hw. reflexivity. }
    unfold d1. cbn [byId with_byId with_alerts alerts].
    split; [by lookups|]. split.
    + intros _. split; [by eexists|]. intros id Hid. by lookups.
    + by intros data' init' [=].
Qed.

Lemma upload_overlay_always_closes_witness :
  let d := exec Main.novelUploadForm_submit
             (exec (choose_files ["红楼梦.txt"]) waiting_page) in
  display <$> byId d !! "processing-card" = Some "flex" ∧
  display <$> byId (exec (Main.novelUploadForm_settled
                            (Rejected "TypeError: Failed to fetch")) d)
                !! "processing-card" = Some "none".
Proof.
  intros d. split; [vm_compute; reflexivity|].
  pose proof (upload_overlay_always_closes d
                (Rejected "TypeError: Failed to fetch")
                (Template.box ["processing-overlay"] "flex")) as H.
  destruct H as (H & _); [vm_compute; reflexivity|].
  cbv zeta in H. rewrite H. reflexivity.
Defined.
(** ** The floating button after a save *)

(** X16. When the backend confirms a save sent by the floating button, the
    two model names of the dashboard card (where the page has them) become
    the model names of the draft that was sent, the toast gets the class
    [show] and a timer of 3000 ms is set to hide it, nothing is alerted and
    the button is idle again; when the timer fires, the toast loses the
    class. *)
Theorem floating_save_confirmed (d : document) (config : jsobject)
    (data : response) (toast : element)
    (Hok : success data = true)
    (Htoast : byId d !! "save-toast" = Some toast) :
  let d1 := exec (FloatingSave.globalSaveButton_settled config
                    (Fulfilled data)) d in
  modelDisplay1 d1
    = (λ _, FloatingSave.field_text "analysis_model_name" config)
        <$> modelDisplay1 d ∧
  modelDisplay2 d1
    = (λ _, FloatingSave.field_text "writing_model_name" config)
        <$> modelDisplay2 d ∧
  (∃ t, byId d1 !! "save-toast" = Some t ∧ "show" ∈ classList t) ∧
  timers d1 = timers d ++ [(3000, HideToast)] ∧
  alerts d1 = alerts d ∧
  FloatingSave.saving d1 = false ∧
  (∃ t, byId (fire ToastTimeout d1) !! "save-toast" = Some t ∧
        "show" ∉ classList t).
Proof.
  intros d1.
  set (t1 := set_classList (class_add "show" (classList toast)) toast).
  set (d0 := (FloatingSave.updateModelDisplay config d).1).
  assert (byId d0 = byId d ∧ timers d0 = timers d ∧ alerts d0 = alerts d ∧
          modelDisplay1 d0
            = (λ _, FloatingSave.field_text "analysis_model_name" config)
                <$> modelDisplay1 d ∧
          modelDisplay2 d0
            = (λ _, FloatingSave.field_text "writing_model_name" config)
                <$> modelDisplay2 d) as (Hb0 & Ht0 & Ha0 & Hm1 & Hm2).
  { unfold d0, FloatingSave.updateModelDisplay.
    destruct (modelDisplay1 d) eqn:E1, (modelDisplay2 d) eqn:E2; simpl;
      by rewrite ?E2. }
  assert (FloatingSave.updateModelDisplay config d = (d0, Ret tt)) as Hu.
  { unfold d0, FloatingSave.updateModelDisplay.
    destruct (modelDisplay1 d) eqn:E1, (modelDisplay2 d) eqn:E2; simpl;
      by rewrite ?E2. }
  assert (d1 = with_byId
                 (alter (λ e, set_classList
                                (class_remove "saving" (classList e)) e)
                        "global-save-button")
                 (with_timers (λ l, l ++ [(3000, HideToast)])
                    (with_byId <["save-toast" := t1]> d0))) as Hd1.
  { subst d1. unfold exec, FloatingSave.globalSaveButton_settled.
    erewrite settle_fulfilled_ret; cycle 1.
    { rewrite Hok. erewrite bind_run by exact Hu.
      unfold FloatingSave.showSaveToast.
      erewrite bind_run; cycle 1.
      { apply write_run. rewrite Hb0. exact Htoast. }
      reflexivity. }
    reflexivity. }
  clear Hu. clearbody d0.
  assert (byId d1 !! "save-toast" = Some t1) as Ht1.
  { rewrite Hd1. cbn [byId with_byId with_timers]. by lookups. }
  split; [by rewrite Hd1|]. split; [by rewrite Hd1|].
  split.
  { exists t1. split; [done|]. unfold t1. simpl.
    pose proof (class_add_present "show" (classList toast)) as H.
    by apply bool_decide_eq_true in H. }
  split; [rewrite Hd1; simpl; by rewrite Ht0|].
  split; [by rewrite Hd1|].
  split.
  { unfold FloatingSave.saving. rewrite Hd1.
    cbn [byId with_byId with_timers]. rewrite lookup_alter_eq.
    destruct (_ !! "global-save-button"); simpl; [|done].
    apply class_remove_absent. }
  unfold fire, exec, handle, FloatingSave.hideToast, try_catch.
  erewrite write_run by exact Ht1. cbn [fst byId with_byId]. lookups.
  eexists. split; [done|]. simpl.
  pose proof (class_remove_absent "show" (classList t1)) as H.
  by apply bool_decide_eq_false in H.
Qed.

Lemma floating_save_confirmed_witness :
  let d1 := exec (FloatingSave.globalSaveButton_settled
                    [("analysis_model_name", JStr "mistral")]
                    (Fulfilled (Response true None None None None)))
                 waiting_page in
  modelDisplay1 d1 = Some "mistral" ∧
  timers d1 = [(3000, HideToast)].
Proof.
  intros d1.
  pose proof (floating_save_confirmed waiting_page
                [("analysis_model_name", JStr "mistral")]
                (Response true None None None None)
                (Template.box ["save-toast"] "")) as H.
  destruct H as (H1 & _ & _ & H4 & _).
  - reflexivity.
  - vm_compute. reflexivity.
  - split; [exact H1|exact H4].
Defined.

(** ** Testing the API *)

(** X17. A click on the test button with a message disables the button,
    shows the result line with the connecting notice and sends the message;
    once the request has settled the result line carries the response after
    the success prefix, the backend's error after the failure prefix, or
    the rejection reason after the error prefix; the button is enabled
    again with its label and nothing is alerted. *)
Theorem test_api_round (d : document) (o : outcome)
    (message result button : element)
    (Hmessage : byId d !! "test-message" = Some message)
    (Htyped : is_empty (value message) = false)
    (Hresult : byId d !! "test-result" = Some result)
    (Hbutton : byId d !! "test-api-btn" = Some button) :
  let d1 := exec Main.testApiBtn_click d in
  let d2 := exec (Main.testApiBtn_settled o) d1 in
  button_is "test-api-btn" true "测试中..." d1 ∧
  byId d1 !! "test-result"
    = Some (set_textContent "正在连接API..." (set_display "block" result)) ∧
  fetches d1 = fetches d ++
    [Request "/api/test_api" (JsonBody [("message", JStr (value message))])] ∧
  byId d2 !! "test-result"
    = Some (set_textContent
              (match o with
               | Fulfilled data =>
                   if success data
                   then "测试成功！响应: " +:+ js_string (response_text data)
                   else "测试失败: " +:+ js_string (error data)
               | Rejected reason => "测试出错: " +:+ reason
               end)
              (set_display "block" result)) ∧
  button_is "test-api-btn" false "测试连接" d2 ∧
  alerts d2 = alerts d.
Proof.
  intros d1 d2.
  set (r1 := set_textContent "正在连接API..." (set_display "block" result)).
  assert (d1 = with_fetches
                 (λ l, l ++ [Request "/api/test_api"
                               (JsonBody [("message", JStr (value message))])])
                 (with_byId
                    (λ m, <["test-result" := r1]>
                            (<["test-result" := set_display "block" result]>
                               (alter (busy "测试中...") "test-api-btn" m)))
                    d)) as Hd1.
  { subst d1. unfold exec, Main.testApiBtn_click.
    erewrite bind_run by (by apply read_run). rewrite Htyped.
    erewrite bind_run by reflexivity.
    erewrite bind_run.
    2:{ apply write_run. cbn [byId with_byId]. lookups. done. }
    erewrite bind_run.
    2:{ apply assign_run. cbn [byId with_byId]. by lookups. }
    reflexivity. }
  assert (byId d1 !! "test-result" = Some r1) as Hr1.
  { rewrite Hd1. cbn [byId with_byId with_fetches]. by lookups. }
  assert (byId d1 !! "test-api-btn" = Some (busy "测试中..." button)) as Hb1.
  { rewrite Hd1. cbn [byId with_byId with_fetches]. lookups.
    by rewrite Hbutton. }
  assert (alerts d1 = alerts d) as Ha1 by (by rewrite Hd1).
  split; [eexists; split; [exact Hb1|done]|].
  split; [done|]. split; [by rewrite Hd1|].
  clear Hd1. clearbody d1.
  set (text := match o with
               | Fulfilled data =>
                   if success data
                   then "测试成功！响应: " +:+ js_string (response_text data)
                   else "测试失败: " +:+ js_string (error data)
               | Rejected reason => "测试出错: " +:+ reason
               end).
  assert (d2 = with_byId (alter (idle "测试连接") "test-api-btn")
                 (with_byId <["test-result" := set_textContent text r1]> d1))
    as ->.
  { subst d2. unfold exec, Main.testApiBtn_settled.
    destruct o as [data|reason].
    - unfold text. destruct (success data) eqn:Hok.
      + erewrite settle_fulfilled_ret; cycle 1.
        { rewrite Hok. by apply assign_run. }
        reflexivity.
      + erewrite settle_fulfilled_ret; cycle 1.
        { rewrite Hok. by apply assign_run. }
        reflexivity.
    - rewrite settle_rejected. unfold try_finally.
      erewrite assign_run by done. reflexivity. }
  unfold button_is. cbn [byId with_byId alerts]. lookups. rewrite Hb1.
  split; [done|]. split; [eexists; done|done].
Qed.

Lemma test_api_round_witness :
  let d := exec (type_into "test-message" "你好") waiting_page in
  textContent <$>
    byId (exec (Main.testApiBtn_settled (refused "密钥无效"))
               (exec Main.testApiBtn_click d)) !! "test-result"
  = Some ("测试失败: " +:+ "密钥无效").
Proof.
  intros d.
  pose proof (test_api_round d (refused "密钥无效")
                (Template.input ["form-control"] "你好")
                (Template.box ["test-result"] "none")
                (Template.button ["btn"; "btn-primary"] "测试连接")) as H.
  destruct H as (_ & _ & _ & H & _).
  - vm_compute. reflexivity.
  - vm_compute. reflexivity.
  - vm_compute. reflexivity.
  - vm_compute. reflexivity.
  - cbv zeta in H. rewrite H. reflexivity.
Defined.

(** X18. A click on the test button with an empty message field alerts and
    does nothing else: no request is sent and the button is not
    disabled. *)
Theorem test_api_needs_message (d : document) (message : element)
    (Hmessage : byId d !! "test-message" = Some message)
    (Hempty : value message = "") :
  Main.testApiBtn_click d
  = (with_alerts (λ l, l ++ ["请输入测试消息"]) d, Ret tt).
Proof.
  unfold Main.testApiBtn_click.
  erewrite bind_run by (by apply read_run). by rewrite Hempty.
Qed.

Lemma test_api_needs_message_witness :
  fetches (exec Main.testApiBtn_click waiting_page) = [] ∧
  alerts (exec Main.testApiBtn_click waiting_page) = ["请输入测试消息"].
Proof.
  unfold exec.
  rewrite (test_api_needs_message waiting_page
             (Template.input ["form-control"] "")).
  - split; reflexivity.
  - vm_compute. reflexivity.
  - reflexivity.
Defined.
(** ** Loading a conversation *)

Lemma find_nav_Some section l j :
  Main.find_nav section l = Some j →
  ∃ item, l !! j = Some item ∧ data_section item = Some section.
Proof.
  revert j. induction l as [|n l IH]; intros j; simpl; [done|].
  case_bool_decide as Hn.
  - intros [= <-]. by exists n.
  - destruct (Main.find_nav section l) as [k|]; [|done].
    intros [= <-]. by apply IH.
Qed.

Lemma nav_click_returns i d :
  Main.nav_click i d = (exec (Main.nav_click i) d, Ret tt).
Proof.
  unfold exec, Main.nav_click, dispatch, bind, try_catch, console, ret.
  destruct (Main.navItem_click i d) as [d1 [[]|e]];
    match goal with
    | |- context [FloatingSave.navItem_click i ?x] =>
        destruct (FloatingSave.navItem_click i x) as [d2 [[]|e2]]
    end; done.
Qed.

(** X19. When the backend confirms the loading of a conversation, the
    handler clicks the home item of the sidebar: on a page with that item,
    its section and the initializing card, the home section is displayed,
    the home item is the active one, the initializing card is displayed,
    the load button is enabled again with its label and nothing is
    alerted. *)
Theorem load_confirmed (d : document) (i j : nat) (item : chatItem)
    (data : response) (home init : element)
    (Hok : success data = true)
    (Hitem : chatItems d !! i = Some item)
    (Hnav : Main.find_nav "home" (navItems d) = Some j)
    (Hhome : byId d !! "home-section" = Some home)
    (Hinit : byId d !! "initializing-narrative-card" = Some init) :
  let d' := exec (Main.loadChatBtn_settled i (Fulfilled data)) d in
  display <$> byId d' !! "home-section" = Some "block" ∧
  display <$> byId d' !! "initializing-narrative-card" = Some "flex" ∧
  (∀ k n, navItems d' !! k = Some n → ("active" ∈ nav_classes n ↔ k = j)) ∧
  chat_button_is load_btn i false "加载" d' ∧
  alerts d' = alerts d.
Proof.
  intros d'.
  destruct (find_nav_Some _ _ _ Hnav) as (nav & Hj & Hsec).
  set (dn := exec (Main.nav_click j) d).
  assert (is_Some (byId dn !! "initializing-narrative-card")) as [init' Hinit'].
  { destruct (keeps_nav_click j d) as [H _]. apply H. by eexists. }
  assert (d' = with_chatItems
                 (alter (λ c, ChatItem (attached c)
                                (Main.btn_idle "加载" (load_btn c))
                                (delete_btn c)) i)
                 (with_byId <["initializing-narrative-card"
                                := set_display "flex" init']> dn)) as Hd'.
  { subst d'. unfold exec, Main.loadChatBtn_settled.
    erewrite settle_fulfilled_ret; cycle 1.
    { rewrite Hok. erewrite bind_run; cycle 1.
      { rewrite Hnav. apply nav_click_returns. }
      fold dn. by apply write_run. }
    reflexivity. }
  assert (display <$> byId dn !! "home-section" = Some "block") as Hhome'.
  { unfold dn. rewrite (nav_click_store d j nav Hj).
    assert (section_of nav = "home-section") as Hs
      by (unfold section_of; by rewrite Hsec).
    pose proof (main_navItem_click_boxes d j nav home "home-section" Hj) as Hb.
    rewrite Hs in Hb. specialize (Hb Hhome). rewrite decide_True in Hb by done.
    destruct (byId (exec (Main.navItem_click j) d) !! "home-section")
      as [h|] eqn:Eh; [|done].
    unfold box_of in Hb. injection Hb as _ Hdisp.
    destruct (byId (exec (Main.navItem_click j) d) !! "global-save-button");
      [rewrite lookup_alter_ne by done|]; rewrite Eh; simpl;
      by rewrite Hdisp. }
  assert (navItems dn = Main.activate j (navItems d)) as Hitems
    by (by eapply nav_click_navItems).
  assert (alerts dn = alerts d) as Halerts.
  { assert (∀ m : M unit, (∀ x, alerts (m x).1 = alerts x) →
              ∀ x, alerts (try_catch m (λ e, console ("Uncaught " +:+ e)) x).1
                   = alerts x) as Htc.
    { intros m Hm x. unfold try_catch. specialize (Hm x).
      by destruct (m x) as [x' [[]|e]]. }
    unfold dn, exec, Main.nav_click, dispatch, bind, ret.
    pose proof (Htc (Main.navItem_click j)) as H1.
    pose proof (Htc (FloatingSave.navItem_click j)) as H2.
    assert (∀ x, alerts (Main.navItem_click j x).1 = alerts x) as Hm.
    { intros x. unfold Main.navItem_click.
      destruct (navItems x !! j) as [this|]; [|done].
      unfold bind, write. simpl.
      destruct (Main.hide_sections (byId x) !! _); [|done]. simpl.
      case_bool_decide; [|done].
      unfold Main.refreshOllamaModels, bind, read. simpl.
      destruct (_ !! "ollama-api-url") as [u|]; [|done].
      by destruct (is_empty (value u)). }
    assert (∀ x, alerts (FloatingSave.navItem_click j x).1 = alerts x) as Hf.
    { intros x. unfold FloatingSave.navItem_click.
      destruct (byId x !! "global-save-button"); [|done].
      destruct (navItems x !! j); [|done]. by case_bool_decide. }
    specialize (H1 Hm d). specialize (H2 Hf).
    destruct (try_catch (Main.navItem_click j) _ d) as [x1 [[]|e1]];
      simpl in *; [|done].
    specialize (H2 x1).
    destruct (try_catch (FloatingSave.navItem_click j) _ x1) as [x2 [[]|e2]];
      simpl in *; congruence. }
  assert (is_Some (chatItems dn !! i)) as [c Hc].
  { destruct (keeps_nav_click j d) as [_ H]. apply lookup_lt_is_Some.
    unfold dn, exec. rewrite H. by apply lookup_lt_is_Some. }
  clearbody dn. rewrite Hd'. cbn [byId with_byId with_chatItems navItems alerts].
  split; [by lookups|]. split; [by lookups|]. split.
  - rewrite Hitems. intros k n Hn. unfold Main.activate in Hn.
    destruct (decide (k = j)) as [->|Hne].
    + rewrite list_lookup_alter_eq, list_lookup_fmap, Hj in Hn.
      simpl in Hn. injection Hn as <-. simpl. split; [done|]. intros _.
      pose proof (class_add_present "active"
                    (class_remove "active" (nav_classes nav))) as H.
      by apply bool_decide_eq_true in H.
    + rewrite list_lookup_alter_ne, list_lookup_fmap in Hn by done.
      destruct (navItems d !! k) as [n0|]; [|done]. simpl in Hn.
      injection Hn as <-. simpl. split; [|done]. intros Hin. exfalso.
      pose proof (class_remove_absent "active" (nav_classes n0)) as H.
      by apply bool_decide_eq_false in H.
  - split; [|done]. unfold chat_button_is.
    cbn [chatItems with_chatItems with_byId].
    rewrite list_lookup_alter_eq, Hc. eexists. done.
Qed.

Lemma load_confirmed_witness :
  let d := exec (Main.nav_click 1) waiting_page in
  let d' := exec (Main.loadChatBtn_settled 0
                    (Fulfilled (Response true None None None None))) d in
  display <$> byId d !! "home-section" = Some "none" ∧
  display <$> byId d' !! "home-section" = Some "block".
Proof.
  intros d d'. split; [vm_compute; reflexivity|].
  refine (proj1 (load_confirmed d 0 0
                   (Template.rendered_history (History "history/a.json"))
                   (Response true None None None None)
                   (Template.box ["content-section"] "none")
                   (Template.box ["processing-overlay"] "flex") _ _ _ _ _)).
  - reflexivity.
  - vm_compute. reflexivity.
  - vm_compute. reflexivity.
  - vm_compute. reflexivity.
  - vm_compute. reflexivity.
Defined.

(** ** The panels of the configuration form *)

(** X20. The [change] listener of a radio of a pair (local or online API,
    Ollama or online custom model): when the radio is checked and both
    panels exist, the panel of the radio is displayed, the panel of the
    other radio is hidden and nothing else changes; when the radio is not
    checked the page stays as it is.  The listener of the second radio of a
    pair has its two statements in the other order; with both panels on the
    page it leaves the same page. *)
Theorem radio_change_swaps_panels (this other show hide : string)
    (d : document) (radio partner shown hidden : element)
    (Hthis : byId d !! this = Some radio)
    (Hother : byId d !! other = Some partner)
    (Hshow : byId d !! show = Some shown)
    (Hhide : byId d !! hide = Some hidden)
    (Hdistinct : show ≠ hide) :
  let d' := exec (Main.radio_change this other show hide) d in
  (if checked radio then
     byId d' !! show = Some (set_display "block" shown) ∧
     byId d' !! hide = Some (set_display "none" hidden) ∧
     same_but [show; hide] d d' ∧ alerts d' = alerts d
   else d' = d) ∧
  exec (Main.radio_change_hide_first this other show hide) d = d'.
Proof.
  intros d'. subst d'.
  unfold exec, Main.radio_change, Main.radio_change_hide_first.
  rewrite Hthis, Hother. destruct (checked radio); [|done].
  erewrite bind_run by (by apply write_run).
  erewrite write_run; cycle 1.
  { cbn [byId with_byId]. rewrite lookup_insert_ne by done. exact Hhide. }
  erewrite (bind_run (write hide "style" (set_display "none")))
    by (by apply write_run).
  erewrite (write_run show); cycle 1.
  { cbn [byId with_byId]. rewrite lookup_insert_ne by done. exact Hshow. }
  cbn [fst byId with_byId alerts].
  split.
  - split; [by rewrite lookup_insert_ne, lookup_insert_eq by done|].
    split; [by rewrite lookup_insert_eq|].
    split; [|done]. split; [|done].
    intros id Hid. cbn [byId with_byId].
    rewrite !lookup_insert_ne; [done|set_solver..].
  - unfold with_byId. cbn [byId navItems checkedRadio modelDisplay1
      modelDisplay2 chatItems chatHistoryList alerts consoleLog fetches
      timers reloaded].
    by rewrite insert_insert_ne.
Qed.

Lemma radio_change_swaps_panels_witness :
  let d := with_byId
             (λ m, alter (λ e, Template.radio (value e) true) "use-online-api"
                     (alter (λ e, Template.radio (value e) false)
                            "use-local-api" m))
             waiting_page in
  let d' := exec Main.useOnlineApi_change d in
  display <$> byId d' !! "online-api-config" = Some "block" ∧
  display <$> byId d' !! "ollama-api-config" = Some "none".
Proof.
  intros d d'.
  pose proof (radio_change_swaps_panels "use-online-api" "use-local-api"
                "online-api-config" "ollama-api-config" d
                (Template.radio "online" true) (Template.radio "local" false)
                (Template.box [] "none") (Template.box [] "block")) as H.
  cbv zeta in H. simpl (checked _) in H.
  destruct H as ((H1 & H2 & _) & H3).
  - vm_compute. reflexivity.
  - vm_compute. reflexivity.
  - vm_compute. reflexivity.
  - vm_compute. reflexivity.
  - done.
  - unfold d', Main.useOnlineApi_change. rewrite H3, H1, H2.
    split; reflexivity.
Defined.

(** X21. The [change] listener of a model radio: when the radio that
    changed is checked, the custom settings panel of its kind is displayed
    if the radio is the custom one and hidden if it is another one, and no
    other element changes; a radio that is not checked changes nothing. *)
Theorem modelOption_change_follows_custom (kind this : string)
    (d : document) (option panel : element)
    (Hoption : byId d !! this = Some option)
    (Hpanel : byId d !! (kind +:+ "-custom-settings") = Some panel) :
  let d' := exec (Main.modelOption_change kind this) d in
  if checked option then
    byId d' !! (kind +:+ "-custom-settings")
      = Some (set_display (if bool_decide (value option = "custom")
                           then "block" else "none") panel) ∧
    same_but [kind +:+ "-custom-settings"] d d'
  else d' = d.
Proof.
  intros d'. subst d'. unfold exec, Main.modelOption_change.
  rewrite Hoption, Hpanel.
  destruct (checked option); [|by rewrite andb_false_r].
  rewrite andb_true_r.
  destruct (bool_decide (value option = "custom")); unfold update;
    cbn [fst byId with_byId]; rewrite lookup_alter_eq, Hpanel;
    (split; [done|]); (split; [|done]); intros id Hid; cbn [byId with_byId];
    rewrite lookup_alter_ne; [done|set_solver|done|set_solver].
Qed.

Lemma modelOption_change_follows_custom_witness :
  let d := with_byId (alter (λ e, Template.radio (value e) true)
                            "analysis-custom") waiting_page in
  display <$> byId (exec (Main.modelOption_change "analysis" "analysis-custom") d)
                !! "analysis-custom-settings" = Some "block".
Proof.
  intros d.
  pose proof (modelOption_change_follows_custom "analysis" "analysis-custom" d
                (Template.radio "custom" true)
                (Template.box ["custom-model-settings"] "none")) as H.
  cbv zeta in H. simpl (checked _) in H.
  destruct H as (H1 & _).
  - vm_compute. reflexivity.
  - vm_compute. reflexivity.
  - change ("analysis" +:+ "-custom-settings") with "analysis-custom-settings"
      in H1.
    rewrite H1. reflexivity.
Defined.

(** ** Choosing a file *)

(** X22. When the user picks a file whose name ends with [.txt], the name
    display shows that name, and submitting the form then shows the
    processing overlay and sends one request carrying the file and the
    title typed in the title field; nothing is alerted.  When the user
    clears the selection the display shows the placeholder text. *)
Theorem chosen_file_is_uploaded (d : document) (name : string)
    (file shown title card : element)
    (Hfile : byId d !! "novel-file" = Some file)
    (Hshown : byId d !! "file-name-display" = Some shown)
    (Htitle : byId d !! "novel-title" = Some title)
    (Hcard : byId d !! "processing-card" = Some card)
    (Htxt : endsWith name ".txt" = true) :
  let d1 := exec (choose_files [name]) d in
  let d2 := exec Main.novelUploadForm_submit d1 in
  textContent <$> byId d1 !! "file-name-display" = Some name ∧
  textContent <$> byId (exec (choose_files []) d1) !! "file-name-display"
    = Some "未选择文件" ∧
  fetches d2 = fetches d ++
    [Request "/upload_novel"
       (FormBody [("novel_file", name); ("novel_title", value title)])] ∧
  display <$> byId d2 !! "processing-card" = Some "flex" ∧
  alerts d2 = alerts d.
Proof.
  intros d1 d2.
  set (pick := λ e, Element (classList e) (display e) (disabled e)
                      (textContent e) (value e) (checked e) [name]
                      (children e)).
  set (file1 := pick file).
  assert (d1 = with_byId (alter (set_textContent name) "file-name-display")
                 (with_byId (alter pick "novel-file") d)) as Hd1.
  { subst d1. unfold exec, choose_files.
    erewrite bind_run by reflexivity.
    unfold Main.fileInput_change. cbn [byId with_byId]. lookups.
    rewrite Hfile, Hshown. reflexivity. }
  assert (byId d1 !! "novel-file" = Some file1) as Hf1.
  { rewrite Hd1. cbn [byId with_byId]. lookups. by rewrite Hfile. }
  assert (byId d1 !! "novel-title" = Some title) as Ht1.
  { rewrite Hd1. cbn [byId with_byId]. by lookups. }
  assert (byId d1 !! "processing-card" = Some card) as Hc1.
  { rewrite Hd1. cbn [byId with_byId]. by lookups. }
  assert (byId d1 !! "file-name-display" = Some (set_textContent name shown))
    as Hs1.
  { rewrite Hd1. cbn [byId with_byId]. lookups. by rewrite Hshown. }
  assert (fetches d1 = fetches d ∧ alerts d1 = alerts d) as [Hfe Hal]
    by (by rewrite Hd1).
  clear Hd1. clearbody d1.
  split; [by rewrite Hs1|]. split.
  { unfold exec, choose_files. erewrite bind_run by reflexivity.
    unfold Main.fileInput_change. cbn [byId with_byId]. lookups.
    rewrite Hf1, Hs1. simpl. lookups. by rewrite Hs1. }
  subst d2. unfold exec, Main.novelUploadForm_submit.
  erewrite bind_run by (by apply read_run).
  erewrite bind_run by (by apply read_run).
  simpl (head _). cbv iota. rewrite Htxt. simpl (negb _). cbv iota.
  erewrite bind_run by (by apply write_run).
  unfold fetch. cbn [fst byId with_byId with_fetches fetches alerts].
  rewrite Hfe, Hal. split; [done|]. split; [by lookups|done].
Qed.

Lemma chosen_file_is_uploaded_witness :
  let d1 := exec (choose_files ["红楼梦.txt"]) waiting_page in
  textContent <$> byId d1 !! "file-name-display" = Some "红楼梦.txt" ∧
  fetches (exec Main.novelUploadForm_submit d1)
  = [Request "/upload_novel"
       (FormBody [("novel_file", "红楼梦.txt"); ("novel_title", "")])].
Proof.
  intros d1.
  pose proof (chosen_file_is_uploaded waiting_page "红楼梦.txt"
                (Template.input ["file-upload-input"] "")
                (Template.label ["file-name"] "未选择文件")
                (Template.input ["form-control"] "")
                (Template.box ["processing-overlay"] "none")) as H.
  destruct H as (H1 & _ & H3 & _).
  - vm_compute. reflexivity.
  - vm_compute. reflexivity.
  - vm_compute. reflexivity.
  - vm_compute. reflexivity.
  - reflexivity.
  - split; [exact H1|exact H3].
Defined.
(** ** The page as it is served *)

Lemma served_elements (s : app_state) id e :
  byId (Template.index_html s) !! id = Some e → (id, e) ∈ Template.elements s.
Proof. intros H. by apply elem_of_list_to_map_2 in H. Qed.

Lemma served_ids (s : app_state) : NoDup (Template.elements s).*1.
Proof. apply (bool_decide_unpack _). vm_compute. exact I. Qed.

Lemma served_lookup (s : app_state) id e :
  (id, e) ∈ Template.elements s →
  byId (Template.index_html s) !! id = Some e.
Proof. apply elem_of_list_to_map_1, served_ids. Qed.

(** Finds an element of the template by its id. *)
Ltac served :=
  apply served_lookup; unfold Template.elements;
  repeat first [apply list_elem_of_here | apply list_elem_of_further].

(** X23. On the page the template serves, whatever the server state, the
    home section is the one content section that is displayed; every item
    of the sidebar names a content section of the page; and the floating
    save button exists and is not a content section.  So the navigation
    properties apply to every item of every served page. *)
Theorem served_page_sections (s : app_state) :
  let d := Template.index_html s in
  (∀ id e, byId d !! id = Some e → "content-section" ∈ classList e →
           (display e ≠ "none" ↔ id = "home-section")) ∧
  (∀ i item, navItems d !! i = Some item →
             ∃ e, byId d !! section_of item = Some e ∧
                  "content-section" ∈ classList e) ∧
  (∃ e, byId d !! "global-save-button" = Some e ∧
        "content-section" ∉ classList e).
Proof.
  intros d. split; [|split].
  - intros id e He Hc. apply served_elements in He.
    unfold Template.elements in He.
    repeat (apply elem_of_cons in He as [He|He];
            [injection He as -> ->;
             first [ by (apply (bool_decide_pack _) in Hc; vm_compute in Hc)
                   | split; [intros H; try done; by exfalso; apply H
                            |intros H; try done; discriminate H] ]|]).
    by apply elem_of_nil in He.
  - intros i item Hi. unfold d in Hi. simpl in Hi.
    destruct i as [|[|[|[|i]]]]; simpl in Hi; simplify_eq;
      (eexists; split; [vm_compute; reflexivity|];
       apply (bool_decide_unpack _); vm_compute; exact I).
  - eexists. split; [vm_compute; reflexivity|].
    apply (bool_decide_unpack _). vm_compute. exact I.
Qed.

Lemma pick_first (P : Prop) `{Decision P} (x y : string) :
  x ≠ y → (Some (Template.pick (bool_decide P) x y) = Some x ↔ P).
Proof.
  intros Hxy. unfold Template.pick. case_bool_decide; split; try done.
  intros [= Heq]. by destruct Hxy.
Qed.

Lemma pick_second (P : Prop) `{Decision P} (x y : string) :
  x ≠ y → (Some (Template.pick (bool_decide P) x y) = Some y ↔ ¬ P).
Proof.
  intros Hxy. unfold Template.pick. case_bool_decide; split; try done.
  intros [= Heq]. by destruct Hxy.
Qed.

(** X24. The stage of the session decides what the served page shows:
    the narrative view is displayed exactly in the stage [narrating] and the
    dashboard exactly in the other stages, so one of the two is displayed
    and never both; the processing overlay is displayed exactly in the
    stage [processing] and the initializing overlay exactly in the stage
    [initializing_narrative], so never both. *)
Theorem served_page_follows_stage (s : app_state) :
  let d := Template.index_html s in
  let shown id := display <$> byId d !! id in
  (shown "narrative-view" = Some "block" ↔ app_stage s = "narrating") ∧
  (shown "dashboard-view" = Some "block" ↔ app_stage s ≠ "narrating") ∧
  (shown "narrative-view" = Some "none" ↔ shown "dashboard-view" = Some "block") ∧
  (shown "processing-card" = Some "flex" ↔ app_stage s = "processing") ∧
  (shown "initializing-narrative-card" = Some "flex"
     ↔ app_stage s = "initializing_narrative") ∧
  ¬ (shown "processing-card" = Some "flex" ∧
     shown "initializing-narrative-card" = Some "flex").
Proof.
  intros d shown.
  assert (byId d !! "narrative-view"
          = Some (Template.box ["narrative-view"]
                    (Template.pick (bool_decide (app_stage s = "narrating"))
                       "block" "none"))) as H1 by served.
  assert (byId d !! "dashboard-view"
          = Some (Template.box ["dashboard-view"]
                    (Template.pick (bool_decide (app_stage s ≠ "narrating"))
                       "block" "none"))) as H2 by served.
  assert (byId d !! "processing-card"
          = Some (Template.box ["processing-overlay"]
                    (Template.pick (bool_decide (app_stage s = "processing"))
                       "flex" "none"))) as H3 by served.
  assert (byId d !! "initializing-narrative-card"
          = Some (Template.box ["processing-overlay"]
                    (Template.pick
                       (bool_decide (app_stage s = "initializing_narrative"))
                       "flex" "none"))) as H4 by served.
  unfold shown. rewrite H1, H2, H3, H4.
  cbn [fmap option_fmap option_map display Template.box].
  split; [by apply pick_first|].
  split; [by apply pick_first|].
  split; [rewrite pick_second, pick_first by done; tauto|].
  split; [by apply pick_first|].
  split; [by apply pick_first|].
  rewrite !pick_first by done. intros [Hp Hi]. rewrite Hp in Hi.
  discriminate Hi.
Qed.

(** X25. The draft that the floating button collects from a freshly served
    page gives back the server state it was rendered from: the API flag;
    with the online API, the URL and the key, and always the empty string
    as [online_api_model], since the page has no field for it; with the
    local API, the Ollama address (the default address when the server has
    none) and no [selected_ollama_model].  A model name is in the draft
    exactly when it is one of the three names the page has a radio for. *)
Theorem served_page_round_trip (s : app_state) :
  ∃ cfg,
    FloatingSave.collectGlobalConfig (Template.index_html s)
      = (Template.index_html s, Ret cfg) ∧
    get_field "use_online_api" cfg = Some (JBool (use_online_api s)) ∧
    (if use_online_api s then
       get_field "online_api_url" cfg = Some (JStr (online_api_url s)) ∧
       get_field "online_api_key" cfg = Some (JStr (online_api_key s)) ∧
       get_field "online_api_model" cfg = Some (JStr "")
     else
       get_field "ollama_api_url" cfg
         = Some (JStr (or_fallback "http://127.0.0.1:11434"
                         (Some (ollama_api_url_config s)))) ∧
       has_field "selected_ollama_model" cfg = false) ∧
    get_field "analysis_model_name" cfg
      = (if bool_decide (analysis_model_name s ∈ ["llama3"; "mistral"; "custom"])
         then Some (JStr (analysis_model_name s)) else None) ∧
    get_field "writing_model_name" cfg
      = (if bool_decide (writing_model_name s ∈ ["llama3"; "mistral"; "custom"])
         then Some (JStr (writing_model_name s)) else None).
Proof.
  set (d := Template.index_html s).
  assert (byId d !! "use-online-api"
          = Some (Template.radio "online" (use_online_api s))) as E1 by served.
  assert (byId d !! "ollama-api-url"
          = Some (Template.input ["form-control"] (ollama_api_url_config s)))
    as E2 by served.
  assert (byId d !! "online-api-url"
          = Some (Template.input ["form-control"] (online_api_url s)))
    as E3 by served.
  assert (byId d !! "online-api-key"
          = Some (Template.input ["form-control"] (online_api_key s)))
    as E4 by served.
  assert (byId d !! "online-model-name" = None) as E5
    by (vm_compute; reflexivity).
  assert (byId d !! "ollama-model-select" = None) as E6
    by (vm_compute; reflexivity).
  assert (checkedRadio d !! "analysis-model"
          = if bool_decide (analysis_model_name s
                              ∈ ["llama3"; "mistral"; "custom"])
            then Some (analysis_model_name s) else None) as E7.
  { unfold d, Template.index_html, Template.radios, Template.rendered_radio.
    cbn [checkedRadio].
    repeat case_bool_decide; vm_compute; reflexivity. }
  assert (checkedRadio d !! "writing-model"
          = if bool_decide (writing_model_name s
                              ∈ ["llama3"; "mistral"; "custom"])
            then Some (writing_model_name s) else None) as E8.
  { unfold d, Template.index_html, Template.radios, Template.rendered_radio.
    cbn [checkedRadio].
    repeat case_bool_decide; vm_compute; reflexivity. }
  exists (floating_draft d). split; [apply collectGlobalConfig_run|].
  unfold floating_draft.
  match goal with
  | |- context [custom_fields "writing" ?rw ?tw ?wo ?wn
                  (custom_fields "analysis" ?ra ?ta ?ao ?an
                     (api_fields ?o ?u ?sel ?ou ?ok ?om))] =>
      pose proof (draft_api_fields rw tw wo wn ra ta ao an o u sel ou ok om)
        as (Huse & Hollama & Hsel & Hurl & Hkey & Hmodel);
      pose proof (draft_model_fields rw tw wo wn ra ta ao an o u sel ou ok om)
        as (Ha & Hw & _)
  end.
  cbv zeta in *. set (cfg := custom_fields _ _ _ _ _ _) in *. clearbody cfg.
  rewrite E1 in Huse, Hollama, Hsel, Hurl, Hkey, Hmodel.
  cbn [fmap option_fmap option_map default checked Template.radio]
    in Huse, Hollama, Hsel, Hurl, Hkey, Hmodel.
  rewrite E2 in Hollama. rewrite E3 in Hurl. rewrite E4 in Hkey.
  rewrite E5 in Hmodel. rewrite E6 in Hsel. rewrite E7 in Ha. rewrite E8 in Hw.
  cbn [fmap option_fmap option_map value Template.input]
    in Hollama, Hsel, Hurl, Hkey, Hmodel.
  rewrite !or_fallback_empty in Hurl, Hkey, Hmodel.
  cbn [default] in Hurl, Hkey, Hmodel.
  split; [exact Huse|]. split.
  - destruct (use_online_api s).
    + split; [exact Hurl|]. split; [exact Hkey|exact Hmodel].
    + split; [exact Hollama|]. apply has_field_none. exact Hsel.
  - clear E7 E8. split.
    + rewrite Ha.
      destruct (bool_decide (analysis_model_name s ∈ _)); reflexivity.
    + rewrite Hw.
      destruct (bool_decide (writing_model_name s ∈ _)); reflexivity.
Qed.

(** X26. On the served page with the online API selected, the collector
    of the form always throws, before any request is sent: it reads the
    value of [online-model-name], an element the page does not have. *)
Theorem served_form_collector_throws_online (s : app_state)
    (Honline : use_online_api s = true) :
  Main.apiConfigForm_submit (Template.index_html s)
  = (Template.index_html s, Throw (null_read "value")).
Proof.
  unfold Main.apiConfigForm_submit.
  erewrite bind_throw; [reflexivity|].
  unfold Main.apiConfigForm_collect.
  erewrite bind_run; cycle 1.
  { apply read_run. served. }
  cbn [checked Template.radio]. rewrite Honline. cbn [negb].
  erewrite bind_throw; [reflexivity|].
  erewrite bind_run; cycle 1.
  { apply read_run. served. }
  erewrite bind_run; cycle 1.
  { apply read_run. served. }
  apply bind_throw. unfold read.
  assert (byId (Template.index_html s) !! "online-model-name" = None) as ->
    by (vm_compute; reflexivity).
  reflexivity.
Qed.

Lemma served_form_collector_throws_online_witness :
  let s := AppState "" [] [] true "" "https://api.example.com/v1" "sk-1"
             "llama3" "" "" "" "llama3" "" "" "" [] "0.7" "0.9" "1024"
             true "5" true in
  fetches (exec Main.apiConfigForm_submit (Template.index_html s)) = [].
Proof.
  intros s. unfold exec.
  rewrite (served_form_collector_throws_online s eq_refl). reflexivity.
Defined.

(** ** Resetting *)

(** X27. The page is reloaded only when the backend confirms the reset:
    after a refusal or a rejection it is not reloaded, and in every case
    exactly one alert is shown and no element changes.  A click that the
    user does not confirm sends nothing. *)
Theorem reset_reloads_when_confirmed (d : document) (o : outcome)
    (Hfresh : reloaded d = false) :
  let d' := exec (Main.resetAppBtn_settled o) d in
  (reloaded d' = true ↔ ∃ data, o = Fulfilled data ∧ success data = true) ∧
  byId d' = byId d ∧
  (∃ msg, alerts d' = alerts d ++ [msg]) ∧
  Main.resetAppBtn_click false d = (d, Ret tt).
Proof.
  intros d'. subst d'. chain Main.resetAppBtn_settled.
  destruct o as [data|reason]; [destruct (success data) eqn:Hok|]; simpl.
  - split; [split; [by eexists|done]|]. split; [done|]. split; [by eexists|done].
  - rewrite Hfresh. split; [split; [done|]|].
    + intros (data' & [= <-] & Hok'). congruence.
    + split; [done|]. split; [by eexists|done].
  - rewrite Hfresh. split; [split; [done|]|].
    + by intros (data' & [=] & _).
    + split; [done|]. split; [by eexists|done].
Qed.

Lemma reset_reloads_when_confirmed_witness :
  reloaded (exec (Main.resetAppBtn_settled (refused "忙")) waiting_page) = false ∧
  reloaded (exec (Main.resetAppBtn_settled
                    (Fulfilled (Response true None None None None)))
                 waiting_page) = true.
Proof.
  split; [reflexivity|].
  apply (proj1 (reset_reloads_when_confirmed waiting_page
                  (Fulfilled (Response true None None None None)) eq_refl)).
  by eexists.
Defined.

Lemma start_narrative_with_card_witness :
  let d := with_byId <["narrative-card" := Template.box ["narrative-view"] "none"]>
             waiting_page in
  children <$> byId (exec (Main.startNarrativeBtn_settled (started "欢迎")) d)
                 !! "narrative-history"
  = Some [Main.message "ai-message" "系统" "欢迎"].
Proof.
  intros d.
  refine (proj1 (proj2 (proj2
            (start_narrative_with_card d "欢迎"
               (Template.box ["processing-overlay"] "flex")
               (Template.box ["narrative-view"] "none")
               (Element ["narrative-history"] "" false "" "" false [] [])
               _ _ _)))).
  - vm_compute. reflexivity.
  - vm_compute. reflexivity.
  - vm_compute. reflexivity.
Defined.
